(** * CHI-Grants: the workflow ledger and the extraction validator

    A shallow embedding of [scripts/workflow_manager.py] (class
    [WorkflowManager]) and of [ai_agents/data_models.py] (class
    [GrantDataValidator]) together with the properties of the two that the
    specification states.

    Layout: the Python fragment the two modules rely on ([Py]), the data
    model and the validator ([DataModels]), the workflow manager
    ([Workflow]), one concrete set of library instances used to run the
    code ([Ref]) and the sample data it is run on ([Samples]); then the
    theorems, general first ([PyFacts], [ValidatorFacts],
    [WorkflowFacts]) and at the sample data last ([Examples]). *)

From Stdlib Require Import ZArith List String Ascii Bool Lia.
From Stdlib Require Import Floats Uint63 DecimalString.
Import ListNotations.

Open Scope bool_scope.
Open Scope Z_scope.
Open Scope list_scope.

Set Implicit Arguments.
Set Warnings "-register-all".

(* ================================================================== *)
(** * Part I: definitions *)
(* ================================================================== *)

(** ** The Python fragment *)

Module Py.

(** The exception classes the modules can meet.  [JSONDecodeError] is
    a subclass of [ValueError]; every class is a subclass of [Exception]. *)
Inductive exn : Type :=
| AttributeError (msg : string)
| TypeError (msg : string)
| ValueError (msg : string)
| JSONDecodeError (msg : string)
| KeyError (msg : string)
| OverflowError (msg : string)
| OSError (msg : string)
| RecursionError (msg : string).

(** [str(e)]. *)
Definition str_exn (e : exn) : string :=
  match e with
  | AttributeError m | TypeError m | ValueError m | JSONDecodeError m
  | KeyError m | OverflowError m | OSError m | RecursionError m => m
  end.

Definition is_ValueError (e : exn) : bool :=
  match e with ValueError _ | JSONDecodeError _ => true | _ => false end.

Definition is_TypeError (e : exn) : bool :=
  match e with TypeError _ => true | _ => false end.

(** A call either returns a value or raises. *)
Inductive outcome (A : Type) : Type :=
| Returns (a : A)
| Raises (e : exn).

Arguments Returns {A} a.
Arguments Raises {A} e.

Definition bind {A B : Type} (c : outcome A) (k : A -> outcome B) : outcome B :=
  match c with
  | Returns a => k a
  | Raises e => Raises e
  end.

Notation "x <- c ;; k" := (bind c (fun x => k))
  (at level 61, c at next level, right associativity).

(** [try: body  except ...: handler]; a handler that does not match the
    class re-raises. *)
Definition try_except {A : Type} (body : outcome A) (handler : exn -> outcome A)
  : outcome A :=
  match body with
  | Returns a => Returns a
  | Raises e => handler e
  end.

Definition returned {A : Type} (c : outcome A) : bool :=
  match c with Returns _ => true | Raises _ => false end.

(** Python values as [json.load] produces them and as the extraction
    fields carry them.  A [PDict] lists its items in insertion order; its
    keys are pairwise distinct. *)
Inductive pyval : Type :=
| PNone
| PBool (b : bool)
| PInt (z : Z)
| PFloat (f : float)
| PStr (s : string)
| PList (l : list pyval)
| PDict (d : list (string * pyval)).

(** Truth value of an object in a condition ([if x], [not x], [x and y]). *)
Definition truthy (v : pyval) : bool :=
  match v with
  | PNone => false
  | PBool b => b
  | PInt z => negb (z =? 0)
  | PFloat f => negb (PrimFloat.eqb f 0%float)
  | PStr s => negb (String.eqb s "")
  | PList l => match l with [] => false | _ :: _ => true end
  | PDict d => match d with [] => false | _ :: _ => true end
  end.

(** *** Dictionaries (insertion ordered) *)

Definition dict (V : Type) : Type := list (string * V).

Fixpoint dict_get {V : Type} (k : string) (d : dict V) : option V :=
  match d with
  | [] => None
  | (k', v) :: d' => if String.eqb k k' then Some v else dict_get k d'
  end.

(** [d[k] = v]: an existing key keeps its position, a new key goes last. *)
Fixpoint dict_set {V : Type} (k : string) (v : V) (d : dict V) : dict V :=
  match d with
  | [] => [(k, v)]
  | (k', v') :: d' =>
      if String.eqb k k' then (k, v) :: d' else (k', v') :: dict_set k v d'
  end.

Definition dict_mem {V : Type} (k : string) (d : dict V) : bool :=
  match dict_get k d with Some _ => true | None => false end.

Definition dict_keys {V : Type} (d : dict V) : list string := map fst d.
Definition dict_values {V : Type} (d : dict V) : list V := map snd d.

(** [data[key]] with a string key. *)
Definition py_getitem (data : pyval) (key : string) : outcome pyval :=
  match data with
  | PDict d =>
      match dict_get key d with
      | Some v => Returns v
      | None => Raises (KeyError key)
      end
  | PStr _ => Raises (TypeError "string indices must be integers")
  | PList _ => Raises (TypeError "list indices must be integers or slices, not str")
  | _ => Raises (TypeError "object is not subscriptable")
  end.

(** [data.get(key)]. *)
Definition py_get (data : pyval) (key : string) : outcome pyval :=
  match data with
  | PDict d =>
      match dict_get key d with
      | Some v => Returns v
      | None => Returns PNone
      end
  | _ => Raises (AttributeError "object has no attribute 'get'")
  end.

(** [data.items()]. *)
Definition py_items (data : pyval) : outcome (list (string * pyval)) :=
  match data with
  | PDict d => Returns d
  | _ => Raises (AttributeError "object has no attribute 'items'")
  end.

(** [xs[:limit]]. *)
Definition slice_to {A : Type} (limit : Z) (xs : list A) : list A :=
  if 0 <=? limit then firstn (Z.to_nat limit) xs
  else firstn (Z.to_nat (Z.of_nat (List.length xs) + limit)) xs.

(** [sep.join(xs)]. *)
Fixpoint join (sep : string) (xs : list string) : string :=
  match xs with
  | [] => EmptyString
  | [x] => x
  | x :: rest => (x ++ sep ++ join sep rest)%string
  end.

(** *** Floats

    A Python float is a binary64 number, the kernel's [float].  [float(x)]
    on an [int] rounds to nearest, ties to even, and raises
    [OverflowError] beyond the largest finite float. *)

Definition exact_float (n : Z) : float := PrimFloat.of_uint63 (Uint63.of_Z n).

Definition float_of_int (z : Z) : outcome float :=
  let n := Z.abs z in
  let bits := if n =? 0 then 0 else Z.log2 n + 1 in
  let sh := Z.max 0 (bits - 53) in
  let q := Z.shiftr n sh in
  let r := Z.land n (Z.ones sh) in
  let half := Z.shiftl 1 (sh - 1) in
  let q' := if (0 <? sh) && ((half <? r) || ((r =? half) && Z.odd q))
            then q + 1 else q in
  if 2 ^ 1024 <=? q' * 2 ^ sh
  then Raises (OverflowError "int too large to convert to float")
  else
    let f := Z.ldexp (exact_float q') sh in
    Returns (if z <? 0 then PrimFloat.opp f else f).

(** The text side of floats is the interpreter's: [float(s)] on a string
    ([None] when it raises [ValueError]) and [str(f)]. *)
Class FloatText : Type := {
  float_of_string : string -> option float;
  repr_float : float -> string
}.

(** [float(v)]. *)
Definition py_float `{FloatText} (v : pyval) : outcome float :=
  match v with
  | PBool b => Returns (if b then 1%float else 0%float)
  | PInt z => float_of_int z
  | PFloat f => Returns f
  | PStr s =>
      match float_of_string s with
      | Some f => Returns f
      | None => Raises (ValueError "could not convert string to float")
      end
  | PNone | PList _ | PDict _ =>
      Raises (TypeError "float() argument must be a string or a real number")
  end.

(** The running total of the budget check starts as the [int] 0 and
    becomes a float with the first addition. *)
Inductive number : Type :=
| NInt (z : Z)
| NFloat (f : float).

Definition number_to_float (n : number) : float :=
  match n with
  | NInt z => match float_of_int z with Returns f => f | Raises _ => nan end
  | NFloat f => f
  end.

Definition str_int (z : Z) : string := NilZero.string_of_int (Z.to_int z).

Definition str_number `{FloatText} (n : number) : string :=
  match n with
  | NInt z => str_int z
  | NFloat f => repr_float f
  end.

(** *** Datetimes

    A [datetime] is its wall-clock reading in microseconds since
    0001-01-01T00:00:00 and, when it is timezone-aware, its UTC offset in
    microseconds.  Ordering two datetimes of which exactly one is aware
    raises [TypeError]. *)
Record datetime : Type := mkdatetime {
  wall : Z;
  utcoffset : option Z
}.

Definition naive (d : datetime) : bool :=
  match utcoffset d with None => true | Some _ => false end.

Definition dt_compare (cmp : Z -> Z -> bool) (a b : datetime) : outcome bool :=
  match utcoffset a, utcoffset b with
  | None, None => Returns (cmp (wall a) (wall b))
  | Some oa, Some ob => Returns (cmp (wall a - oa) (wall b - ob))
  | _, _ => Raises (TypeError "can't compare offset-naive and offset-aware datetimes")
  end.

(** [a < b] and [a >= b]. *)
Definition dt_lt : datetime -> datetime -> outcome bool := dt_compare Z.ltb.
Definition dt_ge : datetime -> datetime -> outcome bool := dt_compare Z.geb.

(** The point in time two comparable datetimes are ordered by. *)
Definition instant (d : datetime) : Z :=
  match utcoffset d with
  | Some off => wall d - off
  | None => wall d
  end.

(** [datetime.fromisoformat] on a string ([None] when it raises
    [ValueError]) and [datetime.isoformat]. *)
Class IsoCodec : Type := {
  fromisoformat : string -> option datetime;
  isoformat : datetime -> string
}.

(** [datetime.fromisoformat(v)]. *)
Definition py_fromisoformat `{IsoCodec} (v : pyval) : outcome datetime :=
  match v with
  | PStr s =>
      match fromisoformat s with
      | Some d => Returns d
      | None => Raises (ValueError "Invalid isoformat string")
      end
  | _ => Raises (TypeError "fromisoformat: argument must be str")
  end.

(** [xs.sort(key=...)]: stable, by [<] on the keys; a comparison that
    raises aborts the sort. *)
Section Sort.
Variable A : Type.
Variable key : A -> datetime.

Fixpoint insert_by_key (x : A) (sorted : list A) : outcome (list A) :=
  match sorted with
  | [] => Returns [x]
  | y :: rest =>
      y_first <- dt_lt (key y) (key x) ;;
      if y_first
      then (rest' <- insert_by_key x rest ;; Returns (y :: rest'))
      else Returns (x :: y :: rest)
  end.

Fixpoint sort_by_key (xs : list A) : outcome (list A) :=
  match xs with
  | [] => Returns []
  | x :: rest => (sorted <- sort_by_key rest ;; insert_by_key x sorted)
  end.
End Sort.

(** *** The limits of [json]

    [json] writes an [int] with [int.__repr__] and reads one with
    [int()]: both raise [ValueError] on more decimal digits than
    [sys.get_int_max_str_digits()], which is 4300 unless the interpreter
    is told otherwise.  Reading a container, and writing one with an
    [indent], takes one level of the interpreter's recursion for every
    container that encloses it and one for itself: beyond the levels
    left at the call both raise [RecursionError]. *)
Definition MAX_STR_DIGITS : Z := 4300.

(** What a value exceeds: an integer has too many digits, or a
    container, an object or an array, lies too deep. *)
Inductive json_limit : Type :=
| IntDigits (z : Z)
| Nesting (object : bool).

(** The levels left to [json.load] and to [json.dump] depend on the
    recursion limit and on the call stack.  What is read can be written
    again, and no interpreter that runs the modules is short of the
    three levels their own literals take. *)
Class JsonLimits : Type := {
  load_depth : nat;
  dump_depth : nat;
  loaded_dumps : (load_depth <=? dump_depth)%nat = true;
  literals_load : (3 <=? load_depth)%nat = true
}.

Section FirstExcess.
Variable A : Type.
Variable excess : A -> option json_limit.

Fixpoint first_excess (xs : list A) : option json_limit :=
  match xs with
  | [] => None
  | x :: rest =>
      match excess x with
      | Some l => Some l
      | None => first_excess rest
      end
  end.
End FirstExcess.

(** The number of decimal digits of an integer. *)
Definition int_digits (z : Z) : Z :=
  Z.of_nat (String.length (str_int (Z.abs z))).

(** The first thing of [j], in the order of its text, that exceeds a
    limit when [depth] levels are left; [None] when nothing does. *)
Fixpoint json_excess (depth : nat) (j : pyval) {struct j} : option json_limit :=
  match j with
  | PInt z =>
      if MAX_STR_DIGITS <? int_digits z then Some (IntDigits z) else None
  | PList l =>
      match depth with
      | O => Some (Nesting false)
      | S d => first_excess (json_excess d) l
      end
  | PDict items =>
      match depth with
      | O => Some (Nesting true)
      | S d => first_excess (fun item => json_excess d (snd item)) items
      end
  | PNone | PBool _ | PFloat _ | PStr _ => None
  end.

(** The exception of [json.load] at a limit. *)
Definition load_error (l : json_limit) : exn :=
  match l with
  | IntDigits z =>
      ValueError ("Exceeds the limit (4300 digits) for integer string conversion: "
                  ++ "value has " ++ str_int (int_digits z)
                  ++ " digits; use sys.set_int_max_str_digits() to increase the limit")%string
  | Nesting object =>
      RecursionError ("maximum recursion depth exceeded while decoding a JSON "
                      ++ (if object then "object" else "array")
                      ++ " from a unicode string")%string
  end.

(** The exception of [json.dump] at a limit. *)
Definition dump_error (l : json_limit) : exn :=
  match l with
  | IntDigits _ =>
      ValueError ("Exceeds the limit (4300 digits) for integer string conversion; "
                  ++ "use sys.set_int_max_str_digits() to increase the limit")%string
  | Nesting _ =>
      RecursionError "maximum recursion depth exceeded while calling a Python object"
  end.

(** *** Paths ([pathlib], POSIX flavour) *)

Definition slash : ascii := "/"%char.

Fixpoint path_components (s : string) (cur : string) : list string :=
  match s with
  | EmptyString => [cur]
  | String c s' =>
      if Ascii.eqb c slash then cur :: path_components s' EmptyString
      else path_components s' (cur ++ String c EmptyString)%string
  end.

Definition path_parts (s : string) : list string :=
  filter (fun p => negb (String.eqb p "") && negb (String.eqb p "."))
         (path_components s EmptyString).

(** [Path(filepath).name]: the last component, [""] when there is none. *)
Definition path_name (filepath : string) : string :=
  last (path_parts filepath) EmptyString.

(** [a / b]: an absolute right operand replaces the left one. *)
Definition joinpath (a b : string) : string :=
  match b with
  | String c _ => if Ascii.eqb c slash then b else (a ++ "/" ++ b)%string
  | EmptyString => a
  end.

End Py.

(** ** [ai_agents/data_models.py] *)

Module DataModels.
Import Py.

Inductive ConfidenceLevel : Type := HIGH | MEDIUM | LOW | UNCERTAIN.

Record ExtractedField : Type := mkExtractedField {
  value : pyval;
  confidence : ConfidenceLevel;
  source_text : option string;
  alternatives : list string
}.

Record BudgetSummary : Type := mkBudgetSummary {
  personnel : option ExtractedField;
  equipment : option ExtractedField;
  travel : option ExtractedField;
  supplies : option ExtractedField;
  indirect_costs : option ExtractedField;
  other : option ExtractedField;
  total : option ExtractedField
}.

Record Timeline : Type := mkTimeline {
  application_date : option ExtractedField;
  award_date : option ExtractedField;
  project_start_date : option ExtractedField;
  project_end_date : option ExtractedField;
  duration_months : option ExtractedField
}.

(** [name] and [role] are declared [ExtractedField]; the extraction agent
    fills them through a helper that yields [None] for a null value. *)
Record TeamMember : Type := mkTeamMember {
  name : option ExtractedField;
  role : option ExtractedField;
  institution : option ExtractedField;
  email : option ExtractedField
}.

Record ValidationFlags : Type := mkValidationFlags {
  missing_required_fields : list string;
  inconsistent_dates : list string;
  budget_calculation_errors : list string;
  suspicious_values : list string;
  needs_human_review : bool
}.

(** The attributes of [GrantData] that [validate] reads, in declaration
    order.  The attributes left out ([co_investigators], [other_personnel],
    [project], the document links, [extraction_metadata],
    [validation_flags], [custom_fields]) are lists, strings, dictionaries
    or other records: none of them is an [ExtractedField] instance. *)
Record GrantData : Type := mkGrantData {
  grant_id : option ExtractedField;
  grant_name : option ExtractedField;
  funding_agency : option ExtractedField;
  award_amount : option ExtractedField;
  grant_type : option ExtractedField;
  timeline : Timeline;
  principal_investigator : option TeamMember;
  budget : BudgetSummary;
  current_status : option ExtractedField;
  progress_notes : option ExtractedField
}.

Definition REQUIRED_FIELDS : list string :=
  ["grant_id"; "grant_name"; "funding_agency"; "award_amount";
   "principal_investigator"]%string.

(** What [getattr(grant_data, field_name, None)] can yield for a required
    field name. *)
Inductive attribute : Type :=
| AttrNone
| AttrField (f : ExtractedField)
| AttrMember (m : TeamMember).

Definition attr_of_field (f : option ExtractedField) : attribute :=
  match f with Some e => AttrField e | None => AttrNone end.

Definition getattr (grant_data : GrantData) (field_name : string) : attribute :=
  if String.eqb field_name "grant_id" then attr_of_field (grant_id grant_data)
  else if String.eqb field_name "grant_name" then attr_of_field (grant_name grant_data)
  else if String.eqb field_name "funding_agency" then attr_of_field (funding_agency grant_data)
  else if String.eqb field_name "award_amount" then attr_of_field (award_amount grant_data)
  else if String.eqb field_name "grant_type" then attr_of_field (grant_type grant_data)
  else if String.eqb field_name "principal_investigator" then
    match principal_investigator grant_data with
    | Some m => AttrMember m
    | None => AttrNone
    end
  else if String.eqb field_name "current_status" then attr_of_field (current_status grant_data)
  else if String.eqb field_name "progress_notes" then attr_of_field (progress_notes grant_data)
  else AttrNone.

(** [not field_value or not field_value.value]: every record instance is
    truthy, and a [TeamMember] has no attribute [value]. *)
Definition field_missing (field_value : attribute) : outcome bool :=
  match field_value with
  | AttrNone => Returns true
  | AttrField f => Returns (negb (truthy (value f)))
  | AttrMember _ =>
      Raises (AttributeError "'TeamMember' object has no attribute 'value'")
  end.

(** The loop over [REQUIRED_FIELDS]. *)
Fixpoint check_required_fields (grant_data : GrantData) (names : list string)
  : outcome (list string) :=
  match names with
  | [] => Returns []
  | field_name :: rest =>
      missing <- field_missing (getattr grant_data field_name) ;;
      others <- check_required_fields grant_data rest ;;
      Returns (if missing then field_name :: others else others)
  end.

Definition MSG_START_AFTER_END : string := "Project start date is after end date".
Definition MSG_INVALID_DATE : string := "Invalid date format".
Definition MSG_INVALID_TOTAL : string := "Invalid budget total format".
Definition MSG_ZERO_OR_NEGATIVE : string := "Award amount is zero or negative".
Definition MSG_UNUSUALLY_HIGH : string := "Award amount seems unusually high".
Definition MSG_NOT_A_NUMBER : string := "Award amount is not a valid number".
Definition MSG_LOW_CONFIDENCE : string := "Low confidence extraction for: ".

Definition except_ValueError {A : Type} (on_error : A) (e : exn) : outcome A :=
  if is_ValueError e then Returns on_error else Raises e.

Definition except_ValueError_TypeError {A : Type} (on_error : A) (e : exn)
  : outcome A :=
  if is_ValueError e || is_TypeError e then Returns on_error else Raises e.

Section Validator.
Context `{FloatText} `{IsoCodec}.

(** The date-consistency block. *)
Definition check_dates (timeline : Timeline) : outcome (list string) :=
  match project_start_date timeline, project_end_date timeline with
  | Some s, Some e =>
      if truthy (value s) && truthy (value e) then
        try_except
          (start_date <- py_fromisoformat (value s) ;;
           end_date <- py_fromisoformat (value e) ;;
           late <- dt_ge start_date end_date ;;
           Returns (if late then [MSG_START_AFTER_END] else []))
          (except_ValueError [MSG_INVALID_DATE])
      else Returns []
  | _, _ => Returns []
  end.

Definition BUDGET_COMPONENTS : list string :=
  ["personnel"; "equipment"; "travel"; "supplies"; "indirect_costs";
   "other"]%string.

Definition budget_getattr (budget : BudgetSummary) (field_name : string)
  : option ExtractedField :=
  if String.eqb field_name "personnel" then personnel budget
  else if String.eqb field_name "equipment" then equipment budget
  else if String.eqb field_name "travel" then travel budget
  else if String.eqb field_name "supplies" then supplies budget
  else if String.eqb field_name "indirect_costs" then indirect_costs budget
  else if String.eqb field_name "other" then other budget
  else if String.eqb field_name "total" then total budget
  else None.

(** The inner loop of the budget block: a component that does not
    convert is skipped. *)
Fixpoint sum_components (budget : BudgetSummary) (names : list string)
         (calculated_total : number) : outcome number :=
  match names with
  | [] => Returns calculated_total
  | field_name :: rest =>
      match budget_getattr budget field_name with
      | Some field_value =>
          if truthy (value field_value) then
            next <- try_except
                      (x <- py_float (value field_value) ;;
                       Returns (NFloat (number_to_float calculated_total + x)%float))
                      (except_ValueError_TypeError calculated_total) ;;
            sum_components budget rest next
          else sum_components budget rest calculated_total
      | None => sum_components budget rest calculated_total
      end
  end.

Definition budget_mismatch (total : float) (calculated_total : number) : string :=
  ("Budget total (" ++ repr_float total ++
   ") doesn't match sum of components (" ++ str_number calculated_total ++ ")")%string.

(** The budget block. *)
Definition check_budget (budget : BudgetSummary) : outcome (list string) :=
  match total budget with
  | Some t =>
      if truthy (value t) then
        try_except
          (total <- py_float (value t) ;;
           calculated_total <- sum_components budget BUDGET_COMPONENTS (NInt 0) ;;
           Returns
             (if (1000 <? PrimFloat.abs (total - number_to_float calculated_total))%float
              then [budget_mismatch total calculated_total] else []))
          (except_ValueError_TypeError [MSG_INVALID_TOTAL])
      else Returns []
  | None => Returns []
  end.

(** The suspicious-value block. *)
Definition check_award_amount (grant_data : GrantData) : outcome (list string) :=
  match award_amount grant_data with
  | Some a =>
      if truthy (value a) then
        try_except
          (amount <- py_float (value a) ;;
           Returns
             (if (amount <=? 0)%float then [MSG_ZERO_OR_NEGATIVE]
              else if (50000000 <? amount)%float then [MSG_UNUSUALLY_HIGH]
              else []))
          (except_ValueError_TypeError [MSG_NOT_A_NUMBER])
      else Returns []
  | None => Returns []
  end.

(** [grant_data.__dict__.items()] restricted to the attributes that can
    hold an [ExtractedField]. *)
Definition extracted_attributes (grant_data : GrantData)
  : list (string * option ExtractedField) :=
  [("grant_id", grant_id grant_data);
   ("grant_name", grant_name grant_data);
   ("funding_agency", funding_agency grant_data);
   ("award_amount", award_amount grant_data);
   ("grant_type", grant_type grant_data);
   ("current_status", current_status grant_data);
   ("progress_notes", progress_notes grant_data)]%string.

Definition is_low (c : ConfidenceLevel) : bool :=
  match c with LOW | UNCERTAIN => true | HIGH | MEDIUM => false end.

Definition low_confidence_fields (grant_data : GrantData) : list string :=
  map fst
      (filter (fun item =>
                 match snd item with
                 | Some f => is_low (confidence f)
                 | None => false
                 end)
              (extracted_attributes grant_data)).

Definition low_confidence_entry (grant_data : GrantData) : list string :=
  match low_confidence_fields grant_data with
  | [] => []
  | names => [(MSG_LOW_CONFIDENCE ++ join ", " names)%string]
  end.

Definition nonempty {A : Type} (xs : list A) : bool :=
  match xs with [] => false | _ :: _ => true end.

(** [GrantDataValidator.validate]. *)
Definition validate (grant_data : GrantData) : outcome ValidationFlags :=
  missing <- check_required_fields grant_data REQUIRED_FIELDS ;;
  dates <- check_dates (timeline grant_data) ;;
  budget_errors <- check_budget (budget grant_data) ;;
  amount_flags <- check_award_amount grant_data ;;
  let suspicious := amount_flags ++ low_confidence_entry grant_data in
  Returns {|
    missing_required_fields := missing;
    inconsistent_dates := dates;
    budget_calculation_errors := budget_errors;
    suspicious_values := suspicious;
    needs_human_review :=
      nonempty missing || nonempty dates || nonempty budget_errors
      || (2 <? Z.of_nat (List.length suspicious))
  |}.
End Validator.

(** An [ExtractedField(value, confidence)] call. *)
Definition field (v : pyval) (c : ConfidenceLevel) : ExtractedField :=
  mkExtractedField v c None [].

Definition no_timeline : Timeline := mkTimeline None None None None None.
Definition no_budget : BudgetSummary := mkBudgetSummary None None None None None None None.

(** [GrantData()]. *)
Definition empty_grant_data : GrantData :=
  mkGrantData None None None None None no_timeline None no_budget None None.

(** [create_sample_grant_data()]; its [extraction_metadata] is not read by
    the validator. *)
Definition create_sample_grant_data : GrantData :=
  mkGrantData
    (Some (field (PStr "NSF-2024-001") HIGH))
    (Some (field (PStr "AI Research Initiative") HIGH))
    (Some (field (PStr "National Science Foundation") HIGH))
    (Some (field (PInt 500000) MEDIUM))
    (Some (field (PStr "Research") HIGH))
    (mkTimeline None None
                (Some (field (PStr "2024-01-01") MEDIUM))
                (Some (field (PStr "2026-12-31") MEDIUM))
                None)
    (Some (mkTeamMember (Some (field (PStr "Dr. Jane Smith") HIGH))
                        (Some (field (PStr "Principal Investigator") HIGH))
                        None None))
    no_budget None None.

(** The presence test the validator applies to an [ExtractedField]
    attribute: the attribute is set and its value is truthy. *)
Definition present (f : option ExtractedField) : bool :=
  match f with
  | Some e => truthy (value e)
  | None => false
  end.

(** The falsy values, in two kinds: the empty ones ([None], [""], [[]],
    [{}]) and the zero-like ones ([0], [0.0], [-0.0], [False]). *)
Definition empty_value (v : pyval) : bool :=
  match v with
  | PNone => true
  | PStr s => String.eqb s ""
  | PList l => match l with [] => true | _ :: _ => false end
  | PDict d => match d with [] => true | _ :: _ => false end
  | PBool _ | PInt _ | PFloat _ => false
  end.

Definition zero_like (v : pyval) : bool :=
  match v with
  | PBool b => negb b
  | PInt z => z =? 0
  | PFloat f => PrimFloat.eqb f 0%float
  | PNone | PStr _ | PList _ | PDict _ => false
  end.

(** The attribute is unset or holds an empty value. *)
Definition blank (f : option ExtractedField) : bool :=
  match f with
  | Some e => empty_value (value e)
  | None => true
  end.

(** The attribute is set to a zero-like value. *)
Definition holds_zero (f : option ExtractedField) : bool :=
  match f with
  | Some e => zero_like (value e)
  | None => false
  end.

(** [grant_data] with [principal_investigator] reset to [None]. *)
Definition without_investigator (g : GrantData) : GrantData :=
  mkGrantData (grant_id g) (grant_name g) (funding_agency g) (award_amount g)
              (grant_type g) (timeline g) None (budget g) (current_status g)
              (progress_notes g).

(** [grant_data] with another [grant_id] and with another [award_amount]. *)
Definition with_grant_id (g : GrantData) (f : ExtractedField) : GrantData :=
  mkGrantData (Some f) (grant_name g) (funding_agency g) (award_amount g)
              (grant_type g) (timeline g) (principal_investigator g) (budget g)
              (current_status g) (progress_notes g).

Definition with_project_dates (g : GrantData) (start_date end_date : ExtractedField)
  : GrantData :=
  mkGrantData (grant_id g) (grant_name g) (funding_agency g) (award_amount g)
              (grant_type g)
              (mkTimeline None None (Some start_date) (Some end_date) None)
              (principal_investigator g) (budget g) (current_status g)
              (progress_notes g).

Definition with_budget (g : GrantData) (b : BudgetSummary) : GrantData :=
  mkGrantData (grant_id g) (grant_name g) (funding_agency g) (award_amount g)
              (grant_type g) (timeline g) (principal_investigator g) b
              (current_status g) (progress_notes g).

Definition with_award_amount (g : GrantData) (f : ExtractedField) : GrantData :=
  mkGrantData (grant_id g) (grant_name g) (funding_agency g) (Some f)
              (grant_type g) (timeline g) (principal_investigator g) (budget g)
              (current_status g) (progress_notes g).

End DataModels.

(** ** [scripts/workflow_manager.py] *)

Module Workflow.
Import Py.

Inductive WorkflowState : Type :=
| PENDING | PROCESSING | EXTRACTED | VALIDATED | APPROVED | COMPLETED | ERROR.

(** [state.value]. *)
Definition state_value (s : WorkflowState) : string :=
  match s with
  | PENDING => "pending"
  | PROCESSING => "processing"
  | EXTRACTED => "extracted"
  | VALIDATED => "validated"
  | APPROVED => "approved"
  | COMPLETED => "completed"
  | ERROR => "error"
  end.

Definition ALL_STATES : list WorkflowState :=
  [PENDING; PROCESSING; EXTRACTED; VALIDATED; APPROVED; COMPLETED; ERROR].

(** [WorkflowState(v)]: lookup by value, [ValueError] when no member has
    that value. *)
Definition WorkflowState_of_value (v : pyval) : outcome WorkflowState :=
  match v with
  | PStr s =>
      match find (fun st => String.eqb (state_value st) s) ALL_STATES with
      | Some st => Returns st
      | None => Raises (ValueError "not a valid WorkflowState")
      end
  | _ => Raises (ValueError "not a valid WorkflowState")
  end.

Definition state_eqb (a b : WorkflowState) : bool :=
  String.eqb (state_value a) (state_value b).

(** The dataclass does not check the types of its fields: a record read
    back from the status file carries whatever JSON values the file
    holds for [filename], [original_path], [metadata] and
    [error_message]. *)
Record DocumentInfo : Type := mkDocumentInfo {
  filename : pyval;
  original_path : pyval;
  current_state : WorkflowState;
  created_at : datetime;
  updated_at : datetime;
  metadata : pyval;
  error_message : pyval
}.

(** The in-memory ledger: [Dict[str, DocumentInfo]]. *)
Definition Ledger : Type := dict DocumentInfo.

(** What a file, or a response, holds, as far as [json] tells:
    - [Document j]: the text of a JSON document, identified with its
      value [j];
    - [Text s]: a text that [json.load] finds malformed, the empty
      file among them;
    - [Truncated j]: the beginning of the text of [j] that a
      [json.dump] which failed part-way has left behind; it is
      malformed, as a cut object is;
    - [Excessive l]: a text, JSON or not, in which [json.load] meets
      the limit [l] before it has read it to the end or found it
      malformed, as in two thousand opening brackets. *)
Inductive file_content : Type :=
| Document (j : pyval)
| Text (s : string)
| Truncated (j : pyval)
| Excessive (l : json_limit).

(** [json.load(f)] and [json.loads(s)].  A document is read to the end
    unless it exceeds a limit on the way.  (What a failed [json.dump]
    left can be nested beyond the levels of [json.load] as well; the
    model does not follow where the write stopped and takes it as
    malformed.) *)
Definition json_load `{JsonLimits} (c : file_content) : outcome pyval :=
  match c with
  | Document j =>
      match json_excess load_depth j with
      | None => Returns j
      | Some l => Raises (load_error l)
      end
  | Text _ | Truncated _ => Raises (JSONDecodeError "Expecting value")
  | Excessive l => Raises (load_error l)
  end.

(** The directories that hold the documents, with the three operations
    [move_document] performs on them.  An operation that raises may still
    have changed the store. *)
Class StoreOps (Store : Type) : Type := {
  path_exists : Store -> string -> bool;
  mkdir_parents : Store -> string -> outcome unit * Store;
  shutil_move : Store -> string -> string -> outcome unit * Store
}.

(** The manager object: [__init__] derives every path from [base_path]. *)
Record WorkflowManager : Type := mkWorkflowManager {
  base_path : string
}.

Definition intake_path (self : WorkflowManager) : string :=
  joinpath (base_path self) "intake".
Definition workflows_path (self : WorkflowManager) : string :=
  joinpath (base_path self) "workflows".

(** [self.state_dirs.get(state)]. *)
Definition state_dirs (self : WorkflowManager) (state : WorkflowState)
  : option string :=
  match state with
  | PENDING => Some (joinpath (intake_path self) "pending")
  | PROCESSING => Some (joinpath (intake_path self) "processing")
  | EXTRACTED => Some (joinpath (workflows_path self) "extracted")
  | VALIDATED => Some (joinpath (workflows_path self) "validated")
  | APPROVED => Some (joinpath (workflows_path self) "approved")
  | COMPLETED | ERROR => None
  end.

(** A filename that names a document of a state directory: a single
    path component, as [Path(filepath).name] gives one, other than
    [..]. *)
Definition document_name (filename : string) : Prop :=
  path_name filename = filename /\ filename <> EmptyString /\ filename <> ".."%string.

Section Manager.
Context {limits : JsonLimits} `{IsoCodec} {Store : Type} `{StoreOps Store}.

(** The state outside the process: the status file
    ([workflows/workflow_status.json]; [None] when it does not exist),
    whether it can be opened for writing, and the document store.  The
    store is the file system without the status file: the operations on
    documents are taken not to touch it.  This is so for every
    [document_name]; a filename with a [..] component, or an absolute
    one, can lead [move_document] to the status file itself, and there
    the model does not follow the code. *)
Record World : Type := mkWorld {
  status_file : option file_content;
  status_writable : bool;
  store : Store
}.

Definition with_status_file (w : World) (c : option file_content) : World :=
  mkWorld c (status_writable w) (store w).

Definition with_store (w : World) (s : Store) : World :=
  mkWorld (status_file w) (status_writable w) s.

(** A method call: it may change the world and it returns or raises.
    What methods print is not modelled. *)
Definition action (A : Type) : Type := World -> outcome A * World.

Definition ret {A : Type} (a : A) : action A := fun w => (Returns a, w).

Definition abind {A B : Type} (c : action A) (k : A -> action B) : action B :=
  fun w =>
    match c w with
    | (Returns a, w') => k a w'
    | (Raises e, w') => (Raises e, w')
    end.

Definition lift {A : Type} (c : outcome A) : action A := fun w => (c, w).

Definition atry {A : Type} (body : action A) (handler : exn -> action A)
  : action A :=
  fun w =>
    match body w with
    | (Returns a, w') => (Returns a, w')
    | (Raises e, w') => handler e w'
    end.

Local Notation "x <~ c ;; k" := (abind c (fun x => k))
  (at level 61, c at next level, right associativity).

(** One [DocumentInfo(...)] call of the loading loop; the keyword
    arguments are evaluated left to right. *)
Definition document_of_json (data : pyval) : outcome DocumentInfo :=
  fn <- py_getitem data "filename" ;;
  op <- py_getitem data "original_path" ;;
  cs <- py_getitem data "current_state" ;;
  st <- WorkflowState_of_value cs ;;
  ca <- py_getitem data "created_at" ;;
  created <- py_fromisoformat ca ;;
  ua <- py_getitem data "updated_at" ;;
  updated <- py_fromisoformat ua ;;
  md <- py_getitem data "metadata" ;;
  em <- py_get data "error_message" ;;
  Returns (mkDocumentInfo fn op st created updated md em).

(** The loop [for filename, data in status_data.items()]. *)
Fixpoint documents_of_items (items : list (string * pyval))
         (workflow_status : Ledger) : outcome Ledger :=
  match items with
  | [] => Returns workflow_status
  | (filename, data) :: rest =>
      doc <- document_of_json data ;;
      documents_of_items rest (dict_set filename doc workflow_status)
  end.

(** The body of the [try] in [get_workflow_status]. *)
Definition load_body (c : file_content) : outcome Ledger :=
  status_data <- json_load c ;;
  items <- py_items status_data ;;
  documents_of_items items [].

(** [get_workflow_status]: any exception of the body is answered with a
    warning and the empty dictionary. *)
Definition get_workflow_status : action Ledger :=
  fun w =>
    match status_file w with
    | None => (Returns [], w)
    | Some c => (try_except (load_body c) (fun _ => Returns []), w)
    end.

Definition json_of_document (doc_info : DocumentInfo) : pyval :=
  PDict [("filename", filename doc_info);
         ("original_path", original_path doc_info);
         ("current_state", PStr (state_value (current_state doc_info)));
         ("created_at", PStr (isoformat (created_at doc_info)));
         ("updated_at", PStr (isoformat (updated_at doc_info)));
         ("metadata", metadata doc_info);
         ("error_message", error_message doc_info)]%string.

(** One item of [status_data]. *)
Definition json_item (item : string * DocumentInfo) : string * pyval :=
(fst item, json_of_document (snd item)).

(** The loop that builds [status_data]. *)
Fixpoint status_data_of (workflow_status : Ledger) (status_data : dict pyval)
  : dict pyval :=
  match workflow_status with
  | [] => status_data
  | (filename, doc_info) :: rest =>
      status_data_of rest (dict_set filename (json_of_document doc_info) status_data)
  end.

(** [open(self.status_file, 'w')]: the file is created or emptied at
    once. *)
Definition open_for_writing (w : World) : outcome World :=
  if status_writable w then Returns (with_status_file w (Some (Text "")))
  else Raises (OSError "cannot open the status file for writing").

(** [json.dump(status_data, f, indent=2)] followed by closing the
    file.  The text is written piece by piece: at the first value that
    exceeds a limit the call raises, and the file keeps what was
    written before. *)
Definition json_dump (status_data : dict pyval) (w : World) : outcome unit * World :=
  match json_excess dump_depth (PDict status_data) with
  | None => (Returns tt, with_status_file w (Some (Document (PDict status_data))))
  | Some l =>
      (Raises (dump_error l),
       with_status_file w (Some (Truncated (PDict status_data))))
  end.

(** The [try] of [save_workflow_status]. *)
Definition save_body (status_data : dict pyval) : action unit :=
  fun w =>
    match open_for_writing w with
    | Returns w1 => json_dump status_data w1
    | Raises e => (Raises e, w)
    end.

(** [save_workflow_status]: an exception of the [try] is printed, not
    raised. *)
Definition save_workflow_status (workflow_status : Ledger) : action unit :=
  let status_data := status_data_of workflow_status [] in
  atry (save_body status_data) (fun _ => ret tt).

(** The states of the world that call passes through, in order, once it
  has begun: the file opened, then the file as [json.dump] leaves it. *)
Definition save_steps (workflow_status : Ledger) (w : World) : list World :=
let status_data := status_data_of workflow_status [] in
match open_for_writing w with
| Returns w1 => [w1; snd (json_dump status_data w1)]
| Raises _ => []
end.

(** [if metadata is None: metadata = {}]; the argument is [None] when it
    is left out. *)
Definition metadata_or_empty (metadata : option pyval) : pyval :=
  match metadata with
  | None | Some PNone => PDict []
  | Some m => m
  end.

(** [register_document]; [now] is what [datetime.now()] reads. *)
Definition register_document (filepath : string) (metadata : option pyval)
           (now : datetime) : action string :=
  let metadata := metadata_or_empty metadata in
  let filename := path_name filepath in
  let current_time := now in
  let doc_info :=
    mkDocumentInfo (PStr filename) (PStr filepath) PENDING current_time
                   current_time metadata PNone in
  workflow_status <~ get_workflow_status ;;
  _ <~ save_workflow_status (dict_set filename doc_info workflow_status) ;;
  ret filename.

Definition py_of_optional_str (s : option string) : pyval :=
  match s with Some m => PStr m | None => PNone end.

(** [transition_state]. *)
Definition transition_state (filename : string) (new_state : WorkflowState)
           (error_message : option string) (now : datetime) : action bool :=
  workflow_status <~ get_workflow_status ;;
  match dict_get filename workflow_status with
  | None => ret false
  | Some doc_info =>
      let doc_info :=
        mkDocumentInfo (Workflow.filename doc_info) (original_path doc_info)
                       new_state (created_at doc_info) now
                       (metadata doc_info)
                       (py_of_optional_str error_message) in
      _ <~ save_workflow_status (dict_set filename doc_info workflow_status) ;;
      ret true
  end.

Definition store_action (op : Store -> outcome unit * Store) : action unit :=
  fun w => let (r, s) := op (store w) in (r, with_store w s).

(** [move_document]. *)
Definition move_document (self : WorkflowManager) (filename : string)
           (from_state to_state : WorkflowState) (now : datetime)
  : action bool :=
  atry
    (match state_dirs self from_state, state_dirs self to_state with
     | Some from_dir, Some to_dir =>
         let from_path := joinpath from_dir filename in
         let to_path := joinpath to_dir filename in
         fun w =>
           if negb (path_exists (store w) from_path) then ret false w
           else
             (_ <~ store_action (fun s => mkdir_parents s to_dir) ;;
              _ <~ store_action (fun s => shutil_move s from_path to_path) ;;
              _ <~ transition_state filename to_state None now ;;
              ret true) w
     | _, _ => ret false
     end)
    (fun e =>
       _ <~ transition_state filename ERROR (Some (str_exn e)) now ;;
       ret false).

(** [list_documents_by_state]. *)
Definition list_documents_by_state (state : WorkflowState)
  : action (list DocumentInfo) :=
  workflow_status <~ get_workflow_status ;;
  ret (filter (fun doc => state_eqb (current_state doc) state)
              (dict_values workflow_status)).

(** [get_document_info]. *)
Definition get_document_info (filename : string) : action (option DocumentInfo) :=
  workflow_status <~ get_workflow_status ;;
  ret (dict_get filename workflow_status).

(** [get_next_documents_for_processing]. *)
Definition get_next_documents_for_processing (state : WorkflowState)
           (limit : Z) : action (list pyval) :=
  documents <~ list_documents_by_state state ;;
  documents <~ lift (sort_by_key created_at documents) ;;
  ret (map Workflow.filename (slice_to limit documents)).

(** The ledger a call of [get_workflow_status] yields in [w]. *)
Definition read_ledger (w : World) : Ledger :=
match fst (get_workflow_status w) with
| Returns workflow_status => workflow_status
| Raises _ => []
end.

(** A timestamp survives being written to the status file and read back. *)
Definition roundtrips (d : datetime) : Prop :=
fromisoformat (isoformat d) = Some d.

Definition ledger_roundtrips (workflow_status : Ledger) : Prop :=
Forall (fun item => roundtrips (created_at (snd item))
                    /\ roundtrips (updated_at (snd item)))
       workflow_status.

(** A value that the status file can hold as an attribute of a record,
    where two objects enclose it, and give back. *)
Definition storable (v : pyval) : Prop :=
json_excess (load_depth - 2) v = None.

Definition storable_document (doc_info : DocumentInfo) : Prop :=
storable (filename doc_info) /\ storable (original_path doc_info)
/\ storable (metadata doc_info) /\ storable (error_message doc_info).

Definition storable_ledger (workflow_status : Ledger) : Prop :=
Forall (fun item => storable_document (snd item)) workflow_status.

(** The status file can be written and the timestamps of the ledger it
  holds survive a rewrite. *)
Definition healthy (w : World) : Prop :=
status_writable w = true /\ ledger_roundtrips (read_ledger w).

(** The record [register_document] builds. *)
Definition new_document (filepath : string) (metadata : option pyval)
         (now : datetime) : DocumentInfo :=
mkDocumentInfo (PStr (path_name filepath)) (PStr filepath) PENDING now now
               (metadata_or_empty metadata) PNone.

(** The record [transition_state] leaves in place of [doc_info]. *)
Definition transitioned (doc_info : DocumentInfo) (new_state : WorkflowState)
         (error_message : option string) (now : datetime) : DocumentInfo :=
mkDocumentInfo (filename doc_info) (original_path doc_info) new_state
               (created_at doc_info) now (metadata doc_info)
               (py_of_optional_str error_message).

(** The physical part of [move_document]: create the target directory,
  then move the file. *)
Definition relocate (s : Store) (to_dir from_path to_path : string)
: outcome unit * Store :=
match mkdir_parents s to_dir with
| (Returns _, s1) => shutil_move s1 from_path to_path
| (Raises e, s1) => (Raises e, s1)
end.

(** The worlds in which an interrupted [save_workflow_status] can leave
    the disk: the one it started in or any it passed through. *)
Definition save_may_leave (workflow_status : Ledger) (w w' : World) : Prop :=
  w' = w \/ In w' (save_steps workflow_status w).

End Manager.

End Workflow.

(** ** Library instances for running the code

    One implementation of each interface, exact on the inputs the
    examples use:
    - [iso_codec] reads [YYYY-MM-DD], optionally followed by one
      separator character and [HH:MM:SS], then optionally [.ffffff], then
      optionally [+HH:MM] or [-HH:MM], with the calendar's range checks,
      and rejects every other string; it writes the form [isoformat()]
      writes;
    - [float_text] reads an optionally signed run of decimal digits
      and rejects every other string; it writes integral floats below
      [1e16] as Python does ([12000.0]) and the other finite floats with
      all their decimal digits;
    - [SimpleStore] is a set of file paths with a switch that makes
      every relocation fail;
    - [json_limits] has the depths CPython 3.11 leaves to [json] when
      it is called at the prompt, the recursion limit being 1000. *)

Module Ref.
Import Py.

Definition obind {A B : Type} (o : option A) (k : A -> option B) : option B :=
  match o with Some a => k a | None => None end.

Local Notation "x <-? o ;; k" := (obind o (fun x => k))
  (at level 61, o at next level, right associativity).

Definition digit_value (c : ascii) : option Z :=
  let n := Z.of_nat (nat_of_ascii c) in
  if (48 <=? n) && (n <=? 57) then Some (n - 48) else None.

Definition digit_char (d : Z) : ascii := ascii_of_nat (Z.to_nat (48 + d mod 10)).

(** Exactly [n] decimal digits at the head of [s]. *)
Fixpoint read_digits (n : nat) (s : string) (acc : Z) : option (Z * string) :=
  match n with
  | O => Some (acc, s)
  | S n' =>
      match s with
      | String c s' => d <-? digit_value c ;; read_digits n' s' (acc * 10 + d)
      | EmptyString => None
      end
  end.

Definition expect (c : ascii) (s : string) : option string :=
  match s with
  | String c' s' => if Ascii.eqb c c' then Some s' else None
  | EmptyString => None
  end.

(** [n] written with [width] digits, zero padded. *)
Fixpoint pad (width : nat) (n : Z) : string :=
  match width with
  | O => EmptyString
  | S w => (pad w (n / 10) ++ String (digit_char n) EmptyString)%string
  end.

(** *** The proleptic Gregorian calendar, as [datetime] computes it *)

Definition is_leap (y : Z) : bool :=
  (y mod 4 =? 0) && (negb (y mod 100 =? 0) || (y mod 400 =? 0)).

Definition days_in_month (y m : Z) : Z :=
  if m =? 2 then (if is_leap y then 29 else 28)
  else if (m =? 4) || (m =? 6) || (m =? 9) || (m =? 11) then 30 else 31.

Definition days_before_year (y : Z) : Z :=
  let p := y - 1 in p * 365 + p / 4 - p / 100 + p / 400.

Definition days_before_month (y m : Z) : Z :=
  fold_left (fun acc k => acc + days_in_month y (Z.of_nat k))
            (seq 1 (Z.to_nat (m - 1))) 0.

Definition ymd2ord (y m d : Z) : Z :=
  days_before_year y + days_before_month y m + d.

Definition ord2ymd (ordinal : Z) : Z * Z * Z :=
  let n := ordinal - 1 in
  let n400 := n / 146097 in let n := n mod 146097 in
  let n100 := n / 36524 in let n := n mod 36524 in
  let n4 := n / 1461 in let n := n mod 1461 in
  let n1 := n / 365 in let n := n mod 365 in
  let y := n400 * 400 + 1 + n100 * 100 + n4 * 4 + n1 in
  if (n1 =? 4) || (n100 =? 4) then (y - 1, 12, 31)
  else
    let m := fold_left (fun m k => if days_before_month y (Z.of_nat k) <=? n
                                   then Z.of_nat k else m)
                       (seq 1 12) 1 in
    (y, m, n - days_before_month y m + 1).

Definition MICRO : Z := 1000000.
Definition DAY : Z := 86400 * MICRO.

Definition wall_of (y m d hh mm ss us : Z) : Z :=
  (ymd2ord y m d - 1) * DAY + ((hh * 60 + mm) * 60 + ss) * MICRO + us.

Definition read_time (s : string) : option (Z * string) :=
  r <-? read_digits 2 s 0 ;; let (hh, s) := (r : Z * string) in
  s <-? expect ":" s ;;
  r <-? read_digits 2 s 0 ;; let (mm, s) := (r : Z * string) in
  s <-? expect ":" s ;;
  r <-? read_digits 2 s 0 ;; let (ss, s) := (r : Z * string) in
  if (hh <? 24) && (mm <? 60) && (ss <? 60)
  then Some (((hh * 60 + mm) * 60 + ss) * MICRO, s) else None.

Definition read_fraction (s : string) : option (Z * string) :=
  match s with
  | String "." s' => read_digits 6 s' 0
  | _ => Some (0, s)
  end.

Definition read_offset (s : string) : option (option Z) :=
  match s with
  | EmptyString => Some None
  | String sign s' =>
      if Ascii.eqb sign "+" || Ascii.eqb sign "-" then
        r <-? read_digits 2 s' 0 ;; let (hh, s1) := (r : Z * string) in
        s2 <-? expect ":" s1 ;;
        r <-? read_digits 2 s2 0 ;; let (mm, s3) := (r : Z * string) in
        match s3 with
        | EmptyString =>
            if (hh <? 24) && (mm <? 60) then
              let off := (hh * 60 + mm) * 60 * MICRO in
              Some (Some (if Ascii.eqb sign "-" then - off else off))
            else None
        | _ => None
        end
      else None
  end.

Definition iso_read (s : string) : option datetime :=
  r <-? read_digits 4 s 0 ;; let (y, s) := (r : Z * string) in
  s <-? expect "-" s ;;
  r <-? read_digits 2 s 0 ;; let (m, s) := (r : Z * string) in
  s <-? expect "-" s ;;
  r <-? read_digits 2 s 0 ;; let (d, s) := (r : Z * string) in
  if (1 <=? y) && (1 <=? m) && (m <=? 12) && (1 <=? d) && (d <=? days_in_month y m)
  then
    let day := (ymd2ord y m d - 1) * DAY in
    match s with
    | EmptyString => Some (mkdatetime day None)
    | String _ s' =>
        r <-? read_time s' ;; let (t, s) := (r : Z * string) in
        r <-? read_fraction s ;; let (us, s) := (r : Z * string) in
        off <-? read_offset s ;;
        Some (mkdatetime (day + t + us) off)
    end
  else None.

Definition write_offset (off : option Z) : string :=
  match off with
  | None => EmptyString
  | Some off =>
      let mins := Z.abs off / (60 * MICRO) in
      let sign := if off <? 0 then "-"%string else "+"%string in
      let hh := mins / 60 in
      let mm := mins mod 60 in
      (sign ++ pad 2 hh ++ ":" ++ pad 2 mm)%string
  end.

Definition iso_write (d : datetime) : string :=
  let days := wall d / DAY in
  let rest := wall d mod DAY in
  let '(y, m, dd) := ord2ymd (days + 1) in
  let secs := rest / MICRO in
  let us := rest mod MICRO in
  let fraction := if us =? 0 then EmptyString else ("." ++ pad 6 us)%string in
  let hh := secs / 3600 in
  let mm := secs / 60 mod 60 in
  let ss := secs mod 60 in
  (pad 4 y ++ "-" ++ pad 2 m ++ "-" ++ pad 2 dd ++ "T"
   ++ pad 2 hh ++ ":" ++ pad 2 mm ++ ":" ++ pad 2 ss
   ++ fraction ++ write_offset (utcoffset d))%string.

#[export] Instance iso_codec : IsoCodec := {
  fromisoformat := iso_read;
  isoformat := iso_write
}.

(** *** Floats as text *)

Fixpoint read_all_digits (s : string) (acc : Z) : option Z :=
  match s with
  | EmptyString => Some acc
  | String c s' => d <-? digit_value c ;; read_all_digits s' (acc * 10 + d)
  end.

Definition int_read (s : string) : option Z :=
  match s with
  | EmptyString => None
  | String "-" (String c s') => n <-? read_all_digits (String c s') 0 ;; Some (- n)
  | String "+" (String c s') => read_all_digits (String c s') 0
  | _ => read_all_digits s 0
  end.

Definition float_read (s : string) : option float :=
  n <-? int_read s ;;
  match float_of_int n with Returns f => Some f | Raises _ => None end.

(** The integer a finite integral float denotes. *)
Definition integral_value (f : float) : option Z :=
  match Prim2SF f with
  | S754_zero _ => Some 0
  | S754_finite neg m e =>
      let v := if 0 <=? e then Z.pos m * 2 ^ e
               else Z.pos m / 2 ^ (- e) in
      if (0 <=? e) || (Z.pos m mod 2 ^ (- e) =? 0)
      then Some (if neg then - v else v) else None
  | _ => None
  end.

Fixpoint strip_zeros (rev_digits : list ascii) : list ascii :=
  match rev_digits with
  | c :: rest => if Ascii.eqb c "0" then strip_zeros rest else rev_digits
  | [] => []
  end.

(** The digits after the point of [m / 2^k], all of them. *)
Definition fraction_digits (m k : Z) : string :=
  let digits := pad (Z.to_nat k) ((m mod 2 ^ k) * 5 ^ k) in
  string_of_list_ascii (rev (strip_zeros (rev (list_ascii_of_string digits)))).

Definition float_write (f : float) : string :=
  match Prim2SF f with
  | S754_nan => "nan"
  | S754_infinity neg => if neg then "-inf" else "inf"
  | S754_zero neg => if neg then "-0.0" else "0.0"
  | S754_finite neg m e =>
      match integral_value f with
      | Some v => (str_int v ++ ".0")%string
      | None =>
          let k := - e in
          let whole := str_int (Z.pos m / 2 ^ k) in
          ((if neg then "-" else "") ++ whole ++ "." ++ fraction_digits (Z.pos m) k)%string
      end
  end.

#[export] Instance float_text : FloatText := {
  float_of_string := float_read;
  repr_float := float_write
}.

(** *** The depths left to [json] *)

#[export] Instance json_limits : JsonLimits := {
  load_depth := 995;
  dump_depth := 996;
  loaded_dumps := eq_refl;
  literals_load := eq_refl
}.

(** *** A store of documents *)

Record SimpleStore : Type := mkSimpleStore {
  files : list string;
  read_only : bool
}.

Definition has_file (s : SimpleStore) (p : string) : bool :=
  existsb (String.eqb p) (files s).

Definition simple_move (s : SimpleStore) (src dst : string)
  : outcome unit * SimpleStore :=
  if read_only s then (Raises (OSError "[Errno 13] Permission denied"), s)
  else (Returns tt,
        mkSimpleStore
          (dst :: filter (fun p => negb (String.eqb p src) && negb (String.eqb p dst))
                         (files s))
          (read_only s)).

#[export] Instance simple_store : Workflow.StoreOps SimpleStore := {
  Workflow.path_exists := has_file;
  Workflow.mkdir_parents := fun s _ => (Returns tt, s);
  Workflow.shutil_move := simple_move
}.

End Ref.

(** ** Sample data *)

Module Samples.
Import Py DataModels Workflow Ref.

Definition at_time (s : string) : datetime :=
  match iso_read s with
  | Some d => d
  | None => mkdatetime 0 None
  end.

Definition t0900 : datetime := Eval vm_compute in at_time "2024-01-01T09:00:00".
Definition t1000 : datetime := Eval vm_compute in at_time "2024-01-01T10:00:00".
Definition t1100 : datetime := Eval vm_compute in at_time "2024-01-01T11:00:00".

(** [WorkflowManager()]: the base path defaults to ["."]. *)
Definition manager : WorkflowManager := mkWorkflowManager ".".

Definition world_of (status : option file_content) (documents : list string)
           (locked : bool) : @World SimpleStore :=
  mkWorld status true (mkSimpleStore documents locked).

(** A fresh repository: no status file, no documents. *)
Definition empty_world : @World SimpleStore := world_of None [] false.

Definition after {A : Type} (c : @action SimpleStore A) (w : @World SimpleStore)
  : @World SimpleStore :=
  snd (c w).

(** [a.pdf] was registered at 09:00; its file is not in [intake/pending]. *)
Definition world_registered : @World SimpleStore :=
  after (register_document "intake/pending/a.pdf" None t0900) empty_world.

Definition doc_a : DocumentInfo :=
  new_document "intake/pending/a.pdf" None t0900.

(** [a.pdf] was registered and its file is in [intake/pending], in a
    store that refuses every relocation. *)
Definition world_locked : @World SimpleStore :=
  world_of (status_file world_registered) ["./intake/pending/a.pdf"%string] true.

(** The same with a store that relocates. *)
Definition world_ready : @World SimpleStore :=
  world_of (status_file world_registered) ["./intake/pending/a.pdf"%string] false.

(** [a.pdf] registered at 09:00, [b.pdf] at 10:00, [a.pdf] again at
    11:00. *)
Definition world_reregistered : @World SimpleStore :=
  after (register_document "intake/pending/a.pdf" None t1100)
    (after (register_document "intake/pending/b.pdf" None t1000) world_registered).

(** [b.pdf] and then [a.pdf] registered at the same clock reading. *)
Definition world_tie : @World SimpleStore :=
  after (register_document "intake/pending/a.pdf" None t0900)
    (after (register_document "intake/pending/b.pdf" None t0900) empty_world).

(** A status file that is not JSON. *)
Definition world_corrupt : @World SimpleStore :=
  world_of (Some (Text "{ not json")) [] false.

(** An extraction whose [grant_id] is three spaces. *)
Definition whitespace_grant_id : GrantData :=
  with_grant_id empty_grant_data (field (PStr "   ") HIGH).

(** An extraction whose [award_amount] is the integer 0. *)
Definition zero_award_amount : GrantData :=
  with_award_amount empty_grant_data (field (PInt 0) HIGH).

(** Dates given as the integers an extractor may emit for them. *)
Definition integer_dates : GrantData :=
  with_project_dates empty_grant_data (field (PInt 20240101) HIGH)
                     (field (PInt 20261231) HIGH).

(** A naive start date against an end date with a UTC offset. *)
Definition mixed_dates : GrantData :=
  with_project_dates empty_grant_data (field (PStr "2024-01-01") HIGH)
                     (field (PStr "2026-12-31T00:00:00+00:00") HIGH).

(** An award amount with 401 digits. *)
Definition huge_award_amount : GrantData :=
  with_award_amount empty_grant_data (field (PInt (10 ^ 400)) HIGH).

(** A budget whose [personnel] is a list and whose other figures add up
    to 8000 against a total of 10000. *)
Definition budget_with_list : GrantData :=
  with_budget empty_grant_data
    (mkBudgetSummary (Some (field (PList [PStr "two"; PStr "posts"]) LOW))
                     (Some (field (PStr "5000") HIGH))
                     (Some (field (PInt 3000) HIGH))
                     None None None
                     (Some (field (PStr "10000") HIGH))).

(** The sample record of the module without its principal investigator. *)
Definition sample_without_investigator : GrantData :=
  without_investigator create_sample_grant_data.

End Samples.

(** ** [scripts/workflow_manager.py], the remaining operations *)

Module WorkflowMore.
Import Py Workflow.

Section Manager.
Context {limits : JsonLimits} `{IsoCodec} {Store : Type} `{StoreOps Store}.

Local Notation "x <~ c ;; k" := (abind c (fun x => k))
  (at level 61, c at next level, right associativity).

(** [transition_state] called with a [filename] that need not be a
    string, as when it is the [filename] attribute of a loaded record:
    after the ledger is loaded, [filename not in workflow_status] hashes
    the value, which raises for a list or a dictionary; any other value
    that is not a string is no key of the ledger. *)
Definition transition_state_any (filename : pyval) (new_state : WorkflowState)
           (error_message : option string) (now : datetime) : @action Store bool :=
  match filename with
  | PStr s => transition_state s new_state error_message now
  | PList _ | PDict _ =>
      workflow_status <~ get_workflow_status ;;
      lift (Raises (A := bool) (TypeError "unhashable type"))
  | PNone | PBool _ | PInt _ | PFloat _ =>
      workflow_status <~ get_workflow_status ;;
      ret false
  end.

(** The loop of [cleanup_error_documents]; [clock k] is what
    [datetime.now()] reads in the transition numbered [k]. *)
Fixpoint cleanup_loop (error_docs : list DocumentInfo) (clock : nat -> datetime)
         (k : nat) : @action Store unit :=
  match error_docs with
  | [] => ret tt
  | doc :: rest =>
      _ <~ transition_state_any (Workflow.filename doc) PENDING None (clock k) ;;
      cleanup_loop rest clock (S k)
  end.

(** [cleanup_error_documents]. *)
Definition cleanup_error_documents (clock : nat -> datetime)
  : @action Store unit :=
  error_docs <~ list_documents_by_state ERROR ;;
  cleanup_loop error_docs clock 0.

(** Every record of the ledger carries its own key as [filename]. *)
Definition consistent (workflow_status : Ledger) : Prop :=
  Forall (fun item => Workflow.filename (snd item) = PStr (fst item))
         workflow_status.

(** Calls of the two operations that write the ledger without touching
    the documents, each with the clock reading it gets, and their effect
    on the world. *)
Inductive call : Type :=
| Register (filepath : string) (metadata : option pyval) (now : datetime)
| Transition (filename : string) (new_state : WorkflowState)
             (error_message : option string) (now : datetime).

Definition perform (c : call) (w : @World Store) : @World Store :=
  match c with
  | Register filepath metadata now =>
      snd (register_document filepath metadata now w)
  | Transition filename new_state error_message now =>
      snd (transition_state filename new_state error_message now w)
  end.

Definition perform_all (calls : list call) (w : @World Store) : @World Store :=
  fold_left (fun w c => perform c w) calls w.

(** The same calls on a dictionary held in memory. *)
Definition apply_call (c : call) (workflow_status : Ledger) : Ledger :=
  match c with
  | Register filepath metadata now =>
      dict_set (path_name filepath) (new_document filepath metadata now)
               workflow_status
  | Transition filename new_state error_message now =>
      match dict_get filename workflow_status with
      | Some doc_info =>
          dict_set filename (transitioned doc_info new_state error_message now)
                   workflow_status
      | None => workflow_status
      end
  end.

Definition apply_calls (calls : list call) (workflow_status : Ledger) : Ledger :=
  fold_left (fun m c => apply_call c m) calls workflow_status.

(** The metadata of the call, if it has any, is within the limits of
    [json]. *)
Definition call_storable (c : call) : Prop :=
  match c with
  | Register _ metadata _ => storable (metadata_or_empty metadata)
  | Transition _ _ _ _ => True
  end.

Definition call_time (c : call) : datetime :=
  match c with
  | Register _ _ now => now
  | Transition _ _ _ now => now
  end.

(** The call registers, respectively transitions, the document [name]. *)
Definition registers (name : string) (c : call) : bool :=
  match c with
  | Register filepath _ _ => String.eqb (path_name filepath) name
  | Transition _ _ _ _ => false
  end.

Definition transitions (name : string) (c : call) : bool :=
  match c with
  | Register _ _ _ => false
  | Transition filename _ _ _ => String.eqb filename name
  end.

(** The attributes no transition writes. *)
Definition same_origin (d d' : DocumentInfo) : Prop :=
  Workflow.filename d' = Workflow.filename d
  /\ original_path d' = original_path d
  /\ created_at d' = created_at d
  /\ metadata d' = metadata d.

(** The items of the ledger [list_documents_by_state ERROR] selects, and
    the transitions the loop of [cleanup_error_documents] asks for when
    every record carries its key as [filename]. *)
Definition in_error (item : string * DocumentInfo) : bool :=
  state_eqb (current_state (snd item)) ERROR.

Fixpoint retry_calls (items : list (string * DocumentInfo))
         (clock : nat -> datetime) (k : nat) : list call :=
  match items with
  | [] => []
  | item :: rest =>
      Transition (fst item) PENDING None (clock k) :: retry_calls rest clock (S k)
  end.

End Manager.

End WorkflowMore.

(** ** Sample data for the remaining operations *)

Module MoreSamples.
Import Py DataModels Workflow Ref Samples WorkflowMore.

(** After its registration [a.pdf] is taken up, [b.pdf] arrives, the
    processing of [a.pdf] fails and [b.pdf] is taken up. *)
Definition history : list call :=
  [Transition "a.pdf" PROCESSING None t1000;
   Register "intake/pending/b.pdf" None t1000;
   Transition "a.pdf" ERROR (Some "Failed to extract text") t1100;
   Transition "b.pdf" PROCESSING None t1100]%string.

Definition registration_and_history : list call :=
  Register "intake/pending/a.pdf" None t0900 :: history.

Definition world_failed : @World SimpleStore :=
  perform_all registration_and_history empty_world.

Definition doc_a_failed : DocumentInfo :=
  transitioned (transitioned doc_a PROCESSING None t1000)
               ERROR (Some "Failed to extract text"%string) t1100.

(** The status file of [world_registered] on a file system that refuses
    to open it for writing. *)
Definition world_read_only : @World SimpleStore :=
  mkWorld (status_file world_registered) false (mkSimpleStore [] false).

(** A status file written by another tool: the record of [b.pdf] has a
    [created_at] with a UTC offset. *)
Definition t1000_utc : datetime :=
  Eval vm_compute in at_time "2024-01-01T10:00:00+00:00".

Definition doc_b_aware : DocumentInfo :=
  mkDocumentInfo (PStr "b.pdf") (PStr "intake/pending/b.pdf") PENDING
                 t1000_utc t1000_utc (PDict []) PNone.

Definition world_mixed : @World SimpleStore :=
  world_of
    (Some (Document (PDict (status_data_of [("a.pdf"%string, doc_a);
                                            ("b.pdf"%string, doc_b_aware)] []))))
    [] false.

End MoreSamples.

(** ** The texts of the exceptions the validator lets through *)

Module ValidatorMore.
Import Py.

Definition MSG_NOT_STR : string := "fromisoformat: argument must be str".
Definition MSG_NAIVE_AWARE : string :=
  "can't compare offset-naive and offset-aware datetimes".
Definition MSG_TOO_LARGE : string := "int too large to convert to float".

End ValidatorMore.

(** ** What the validator reads of a record *)

Module ValidatorReads.
Import Py DataModels.

(** Of a field: its value, or its value and its confidence. *)
Definition field_value (f : option ExtractedField) : option pyval :=
  option_map value f.

Definition field_value_confidence (f : option ExtractedField)
  : option (pyval * ConfidenceLevel) :=
  option_map (fun e => (value e, confidence e)) f.

Definition is_set {A : Type} (x : option A) : bool :=
  match x with Some _ => true | None => false end.

(** The part of a record on which the outcome of [validate] depends:
    value and confidence of the seven fields of the record itself, the
    values of the two project dates, the values of the budget fields,
    and whether there is a principal investigator. *)
Record View : Type := mkView {
  view_fields : list (option (pyval * ConfidenceLevel));
  view_dates : list (option pyval);
  view_budget : list (option pyval);
  view_investigator : bool
}.

Definition view (g : GrantData) : View :=
  mkView
    (map field_value_confidence
         [grant_id g; grant_name g; funding_agency g; award_amount g; grant_type g;
          current_status g; progress_notes g])
    (map field_value
         [project_start_date (timeline g); project_end_date (timeline g)])
    (map field_value
         [personnel (budget g); equipment (budget g); travel (budget g);
          supplies (budget g); indirect_costs (budget g); other (budget g);
          total (budget g)])
    (is_set (principal_investigator g)).

End ValidatorReads.

(** ** Sample extractions for the validator *)

Module ValidatorSamples.
Import Py DataModels Samples.

(** A project that starts and ends on the same day. *)
Definition same_day_dates : GrantData :=
  with_project_dates empty_grant_data (field (PStr "2024-01-01") HIGH)
                     (field (PStr "2024-01-01") HIGH).

(** A budget total given in words. *)
Definition worded_total : GrantData :=
  with_budget empty_grant_data
    (mkBudgetSummary (Some (field (PInt 4000) HIGH)) None None None None None
                     (Some (field (PStr "about ten thousand") LOW))).

Definition day_2024_01_01 : datetime := Eval vm_compute in at_time "2024-01-01".

Definition ALL_REQUIRED_MISSING : list string :=
  ["grant_id"; "grant_name"; "funding_agency"; "award_amount";
   "principal_investigator"]%string.

(** The flags of the two records. *)
Definition same_day_flags : ValidationFlags :=
  mkValidationFlags ALL_REQUIRED_MISSING [MSG_START_AFTER_END] [] [] true.

Definition worded_total_flags : ValidationFlags :=
  mkValidationFlags ALL_REQUIRED_MISSING [] [MSG_INVALID_TOTAL] [] true.

(** The sample record without investigator, and the same with every date
    of the timeline and a personnel budget given at the lowest
    confidence, with source texts. *)
Definition doubtful (v : pyval) : ExtractedField :=
  mkExtractedField v UNCERTAIN (Some "page 3"%string) ["2025-01-01"%string].

Definition sample_with_doubtful_dates : GrantData :=
  mkGrantData
    (grant_id sample_without_investigator) (grant_name sample_without_investigator)
    (funding_agency sample_without_investigator)
    (award_amount sample_without_investigator)
    (grant_type sample_without_investigator)
    (mkTimeline (Some (doubtful (PStr "not a date")))
                (Some (doubtful (PInt 7)))
                (Some (doubtful (PStr "2024-01-01")))
                (Some (doubtful (PStr "2026-12-31")))
                (Some (doubtful (PStr "three years"))))
    None no_budget None None.

End ValidatorSamples.

(** ** [ai_agents/ai_extraction_agent.py] *)

Module Agent.
Import Py DataModels Workflow.

(** [type(v).__name__], as the interpreter's messages quote it. *)
Definition type_name (v : pyval) : string :=
  match v with
  | PNone => "NoneType"
  | PBool _ => "bool"
  | PInt _ => "int"
  | PFloat _ => "float"
  | PStr _ => "str"
  | PList _ => "list"
  | PDict _ => "dict"
  end.

Definition is_AttributeError (e : exn) : bool :=
  match e with AttributeError _ => true | _ => false end.

Definition is_substring (key s : string) : bool :=
  match String.index 0 key s with Some _ => true | None => false end.

Definition is_str (key : string) (v : pyval) : bool :=
  match v with PStr s => String.eqb s key | _ => false end.

(** [key in data] with a string key: a key of a dictionary, an element
    of a list, a substring of a string; the other values are not
    iterable. *)
Definition py_contains (key : string) (data : pyval) : outcome bool :=
  match data with
  | PDict d => Returns (dict_mem key d)
  | PList l => Returns (existsb (is_str key) l)
  | PStr s => Returns (is_substring key s)
  | PNone | PBool _ | PInt _ | PFloat _ =>
      Raises (TypeError ("argument of type '" ++ type_name data ++ "' is not iterable"))
  end.

(** [data.get(key, default)]. *)
Definition py_get_default (data : pyval) (key : string) (default : pyval)
  : outcome pyval :=
  match data with
  | PDict d =>
      match dict_get key d with
      | Some v => Returns v
      | None => Returns default
      end
  | _ => Raises (AttributeError ("'" ++ type_name data ++ "' object has no attribute 'get'"))
  end.

(** [s.lower()] on the ASCII letters.  The characters outside ASCII are
    left as they are; none of them becomes one of the letters of the
    four confidence names, so the lookup in [confidence_map] is not
    affected. *)
Definition lower_ascii (c : ascii) : ascii :=
  let n := nat_of_ascii c in
  if (65 <=? n)%nat && (n <=? 90)%nat then ascii_of_nat (n + 32) else c.

Fixpoint lower (s : string) : string :=
  match s with
  | EmptyString => EmptyString
  | String c rest => String (lower_ascii c) (lower rest)
  end.

(** [ConfidenceLevel.value]. *)
Definition confidence_value (c : ConfidenceLevel) : string :=
  match c with
  | HIGH => "high"
  | MEDIUM => "medium"
  | LOW => "low"
  | UNCERTAIN => "uncertain"
  end.

Definition confidence_map : dict ConfidenceLevel :=
  [("high", HIGH); ("medium", MEDIUM); ("low", LOW); ("uncertain", UNCERTAIN)]%string.

(** The helper [create_field] of [parse_ai_response]. *)
Definition create_field (value confidence_str : pyval) : outcome (option ExtractedField) :=
  match value with
  | PNone => Returns None
  | _ =>
      match confidence_str with
      | PStr s =>
          let confidence :=
            match dict_get (lower s) confidence_map with
            | Some c => c
            | None => UNCERTAIN
            end in
          Returns (Some (field value confidence))
      | _ =>
          Raises (AttributeError ("'" ++ type_name confidence_str
                                  ++ "' object has no attribute 'lower'"))
      end
  end.

(** [create_field(data[key].get("value"), data[key].get("confidence",
    "uncertain"))]: the arguments are evaluated left to right. *)
Definition extract_entry (data : pyval) (key : string)
  : outcome (option ExtractedField) :=
  entry <- py_getitem data key ;;
  value <- py_get entry "value" ;;
  entry <- py_getitem data key ;;
  confidence_str <- py_get_default entry "confidence" (PStr "uncertain") ;;
  create_field value confidence_str.

(** Assignment to one of the five basic attributes. *)
Definition set_basic (g : GrantData) (name : string) (f : option ExtractedField)
  : GrantData :=
  if String.eqb name "grant_id" then
    mkGrantData f (grant_name g) (funding_agency g) (award_amount g) (grant_type g)
                (timeline g) (principal_investigator g) (budget g)
                (current_status g) (progress_notes g)
  else if String.eqb name "grant_name" then
    mkGrantData (grant_id g) f (funding_agency g) (award_amount g) (grant_type g)
                (timeline g) (principal_investigator g) (budget g)
                (current_status g) (progress_notes g)
  else if String.eqb name "funding_agency" then
    mkGrantData (grant_id g) (grant_name g) f (award_amount g) (grant_type g)
                (timeline g) (principal_investigator g) (budget g)
                (current_status g) (progress_notes g)
  else if String.eqb name "award_amount" then
    mkGrantData (grant_id g) (grant_name g) (funding_agency g) f (grant_type g)
                (timeline g) (principal_investigator g) (budget g)
                (current_status g) (progress_notes g)
  else if String.eqb name "grant_type" then
    mkGrantData (grant_id g) (grant_name g) (funding_agency g) (award_amount g) f
                (timeline g) (principal_investigator g) (budget g)
                (current_status g) (progress_notes g)
  else g.

Definition set_timeline (g : GrantData) (t : Timeline) : GrantData :=
  mkGrantData (grant_id g) (grant_name g) (funding_agency g) (award_amount g)
              (grant_type g) t (principal_investigator g) (budget g)
              (current_status g) (progress_notes g).

Definition set_principal_investigator (g : GrantData) (m : TeamMember) : GrantData :=
  mkGrantData (grant_id g) (grant_name g) (funding_agency g) (award_amount g)
              (grant_type g) (timeline g) (Some m) (budget g)
              (current_status g) (progress_notes g).

(** [setattr(grant_data.timeline, field, ...)] for the four names of the
    loop. *)
Definition timeline_setattr (t : Timeline) (name : string)
           (f : option ExtractedField) : Timeline :=
  if String.eqb name "project_start_date" then
    mkTimeline (application_date t) (award_date t) f (project_end_date t)
               (duration_months t)
  else if String.eqb name "project_end_date" then
    mkTimeline (application_date t) (award_date t) (project_start_date t) f
               (duration_months t)
  else if String.eqb name "application_date" then
    mkTimeline f (award_date t) (project_start_date t) (project_end_date t)
               (duration_months t)
  else if String.eqb name "award_date" then
    mkTimeline (application_date t) f (project_start_date t) (project_end_date t)
               (duration_months t)
  else t.

(** [setattr(grant_data.budget, field, ...)] for the four names of the
    loop. *)
Definition budget_setattr (b : BudgetSummary) (name : string)
           (f : option ExtractedField) : BudgetSummary :=
  if String.eqb name "personnel" then
    mkBudgetSummary f (equipment b) (travel b) (supplies b) (indirect_costs b)
                    (other b) (total b)
  else if String.eqb name "equipment" then
    mkBudgetSummary (personnel b) f (travel b) (supplies b) (indirect_costs b)
                    (other b) (total b)
  else if String.eqb name "travel" then
    mkBudgetSummary (personnel b) (equipment b) f (supplies b) (indirect_costs b)
                    (other b) (total b)
  else if String.eqb name "total" then
    mkBudgetSummary (personnel b) (equipment b) (travel b) (supplies b)
                    (indirect_costs b) (other b) f
  else b.

(** One of the five blocks [if "grant_id" in data: grant_data.grant_id =
    create_field(...)]. *)
Definition parse_basic (data : pyval) (name : string) (g : GrantData)
  : outcome GrantData :=
  found <- py_contains name data ;;
  if found then (f <- extract_entry data name ;; Returns (set_basic g name f))
  else Returns g.

(** The loops [for field in [...]: if field in section_data:
    setattr(section, field, create_field(...))]. *)
Fixpoint parse_section {S : Type} (setattr : S -> string -> option ExtractedField -> S)
         (section_data : pyval) (names : list string) (section : S) : outcome S :=
  match names with
  | [] => Returns section
  | name :: rest =>
      found <- py_contains name section_data ;;
      if found then
        (f <- extract_entry section_data name ;;
         parse_section setattr section_data rest (setattr section name f))
      else parse_section setattr section_data rest section
  end.

Definition TIMELINE_FIELDS : list string :=
  ["project_start_date"; "project_end_date"; "application_date"; "award_date"]%string.

Definition BUDGET_FIELDS : list string :=
  ["personnel"; "equipment"; "travel"; "total"]%string.

Definition parse_timeline (data : pyval) (g : GrantData) : outcome GrantData :=
  found <- py_contains "timeline" data ;;
  if found then
    (timeline_data <- py_getitem data "timeline" ;;
     t <- parse_section timeline_setattr timeline_data TIMELINE_FIELDS no_timeline ;;
     Returns (set_timeline g t))
  else Returns g.

Definition parse_principal_investigator (data : pyval) (g : GrantData)
  : outcome GrantData :=
  found <- py_contains "principal_investigator" data ;;
  if found then
    (pi_data <- py_getitem data "principal_investigator" ;;
     named <- py_contains "name" pi_data ;;
     if named then
       (name <- extract_entry pi_data "name" ;;
        role_data <- py_get_default pi_data "role" (PDict []) ;;
        role_value <- py_get_default role_data "value" (PStr "Principal Investigator") ;;
        role_data <- py_get_default pi_data "role" (PDict []) ;;
        role_confidence <- py_get_default role_data "confidence" (PStr "high") ;;
        role <- create_field role_value role_confidence ;;
        Returns (set_principal_investigator g (mkTeamMember name role None None)))
     else Returns g)
  else Returns g.

(** The project block; of [ProjectInfo] only [abstract] is ever set.
    The result is [grant_data.project.abstract]. *)
Definition parse_project (data : pyval) : outcome (option ExtractedField) :=
  found <- py_contains "project" data ;;
  if found then
    (project_data <- py_getitem data "project" ;;
     described <- py_contains "abstract" project_data ;;
     if described then extract_entry project_data "abstract" else Returns None)
  else Returns None.

Definition parse_budget (data : pyval) (g : GrantData) : outcome GrantData :=
  found <- py_contains "budget" data ;;
  if found then
    (budget_data <- py_getitem data "budget" ;;
     b <- parse_section budget_setattr budget_data BUDGET_FIELDS no_budget ;;
     Returns (with_budget g b))
  else Returns g.

(** What the agent builds: the attributes of [GrantData] the validator
    reads, the abstract of the project, and the validation flags. *)
Record Extraction : Type := mkExtraction {
  grant_data : GrantData;
  project_abstract : option ExtractedField;
  validation_flags : ValidationFlags
}.

(** [ValidationFlags()] and [GrantData()]. *)
Definition no_flags : ValidationFlags := mkValidationFlags [] [] [] [] false.

Definition _create_empty_grant_data : Extraction :=
  mkExtraction empty_grant_data None no_flags.

(** The part of [parse_ai_response] after [json.loads]. *)
Definition parse_data (data : pyval) : outcome Extraction :=
  g <- parse_basic data "grant_id" empty_grant_data ;;
  g <- parse_basic data "grant_name" g ;;
  g <- parse_basic data "funding_agency" g ;;
  g <- parse_basic data "award_amount" g ;;
  g <- parse_basic data "grant_type" g ;;
  g <- parse_timeline data g ;;
  g <- parse_principal_investigator data g ;;
  abstract <- parse_project data ;;
  g <- parse_budget data g ;;
  Returns (mkExtraction g abstract no_flags).

(** [parse_ai_response]: the response is a string, or [None] when the
    API returned no content; [json.loads] raises [TypeError] on [None],
    which the handler for [JSONDecodeError] does not catch, no more than
    the [ValueError] and the [RecursionError] of a text beyond the
    limits. *)
Definition parse_ai_response `{JsonLimits} (response : option file_content)
  : outcome Extraction :=
  match response with
  | None =>
      Raises (TypeError "the JSON object must be str, bytes or bytearray, not NoneType")
  | Some text =>
      match json_load text with
      | Returns data => parse_data data
      | Raises (JSONDecodeError _) => Returns _create_empty_grant_data
      | Raises e => Raises e
      end
  end.

(** [_simulate_ai_response]: the text [json.dumps] gives for the literal,
    identified with the value [json.loads] reads back from it. *)
Definition entry (v : pyval) (confidence : string) : pyval :=
  PDict [("value", v); ("confidence", PStr confidence)]%string.

Definition SIMULATED_DATA : pyval :=
    (PDict
       [("grant_id", entry (PStr "SIMULATED-2024-001") "medium");
        ("grant_name", entry (PStr "Simulated Grant Extraction") "high");
        ("funding_agency", entry (PStr "Simulation Foundation") "high");
        ("award_amount", entry (PInt 100000) "medium");
        ("grant_type", entry (PStr "Research") "high");
        ("principal_investigator",
         PDict [("name", entry (PStr "Dr. Simulation Researcher") "high");
                ("role", entry (PStr "Principal Investigator") "high")]);
        ("timeline",
         PDict [("project_start_date", entry (PStr "2024-01-01") "low");
                ("project_end_date", entry (PStr "2026-12-31") "low")]);
        ("project",
         PDict [("abstract",
                 entry (PStr "This is a simulated grant extraction for testing purposes.")
                       "high")]);
        ("budget", PDict [("total", entry (PInt 100000) "medium")])]%string).

Definition _simulate_ai_response : file_content := Document SIMULATED_DATA.

(** The five keys of the basic information, and the attribute each one
    sets. *)
Definition BASIC_FIELDS : list string :=
  ["grant_id"; "grant_name"; "funding_agency"; "award_amount"; "grant_type"]%string.

Definition basic_attribute (g : GrantData) (name : string) : option ExtractedField :=
  if String.eqb name "grant_id" then grant_id g
  else if String.eqb name "grant_name" then grant_name g
  else if String.eqb name "funding_agency" then funding_agency g
  else if String.eqb name "award_amount" then award_amount g
  else if String.eqb name "grant_type" then grant_type g
  else None.

(** The keys [parse_ai_response] looks for in the response. *)
Definition RESPONSE_KEYS : list string :=
  ["grant_id"; "grant_name"; "funding_agency"; "award_amount"; "grant_type";
   "timeline"; "principal_investigator"; "project"; "budget"]%string.

(** The JSON values on which [in] raises: [null], the booleans and the
    numbers. *)
Definition not_iterable (v : pyval) : bool :=
  match v with
  | PNone | PBool _ | PInt _ | PFloat _ => true
  | PStr _ | PList _ | PDict _ => false
  end.

(** What [parse_ai_response] makes of the simulated response. *)
Definition simulated_extraction : Extraction :=
  Eval vm_compute in
    match parse_data SIMULATED_DATA with
    | Returns extraction => extraction
    | Raises _ => _create_empty_grant_data
    end.

(** The exceptions the agent meets: those of [Py], [ImportError] and the
    plain [Exception] of the text extraction. *)
Inductive agent_exn : Type :=
| ImportError (msg : string)
| PlainException (msg : string)
| Builtin (e : exn).

Definition str_agent_exn (e : agent_exn) : string :=
  match e with
  | ImportError m | PlainException m => m
  | Builtin e => str_exn e
  end.

(** What the body of the [try] in [_call_openai] does: it returns the
    content of the first choice ([None] when the message has none), or
    it raises, [ImportError] when the package is missing. *)
Inductive api_reply : Type :=
| Replied (content : option file_content)
| ApiFailed (e : agent_exn).

Definition MSG_OPENAI_REQUIRED : string :=
  "openai package required for AI processing. Install with: pip install openai".

(** [not self.api_key]. *)
Definition no_api_key (api_key : option string) : bool :=
  match api_key with
  | Some k => String.eqb k ""
  | None => true
  end.

(** [_call_openai]. *)
Definition _call_openai (api_key : option string) (api : api_reply)
  : agent_exn + option file_content :=
  if no_api_key api_key then inr (Some _simulate_ai_response)
  else
    match api with
    | Replied content => inr content
    | ApiFailed (ImportError _) => inl (ImportError MSG_OPENAI_REQUIRED)
    | ApiFailed _ => inr (Some _simulate_ai_response)
    end.

(** [str.strip] is the interpreter's. *)
Class StrOps : Type := {
  py_strip : string -> string
}.

Definition MSG_NO_TEXT : string := "No text extracted from document".
Definition MSG_SUCCESSFUL : string := "Extraction successful".
Definition MSG_FAILED : string := "Document processing failed: ".

Section Processing.
Context {limits : JsonLimits} `{FloatText} `{IsoCodec} `{StrOps}.

Definition failed (e : agent_exn) : bool * Extraction * string :=
  (false, _create_empty_grant_data, (MSG_FAILED ++ str_agent_exn e)%string).

(** [process_document]; [extracted] is the outcome of
    [DocumentProcessor.extract_text], [api] what the API does when it is
    called.  The extraction metadata is not modelled. *)
Definition process_document (api_key : option string)
           (extracted : agent_exn + string) (api : api_reply)
  : bool * Extraction * string :=
  match extracted with
  | inl e => failed e
  | inr text =>
      if String.eqb (py_strip text) "" then
        (false, _create_empty_grant_data, MSG_NO_TEXT)
      else
        match _call_openai api_key api with
        | inl e => failed e
        | inr ai_response =>
            match parse_ai_response ai_response with
            | Raises e => failed (Builtin e)
            | Returns extraction =>
                match validate (grant_data extraction) with
                | Raises e => failed (Builtin e)
                | Returns flags =>
                    (true,
                     mkExtraction (grant_data extraction)
                                  (project_abstract extraction) flags,
                     MSG_SUCCESSFUL)
                end
            end
        end
  end.

End Processing.

End Agent.

(** ** A reference [str.strip] and sample data for the agent *)

Module AgentSamples.
Import Py DataModels Workflow Agent.

(** The ASCII characters [str.isspace] accepts; the whitespace outside
    ASCII is not recognised by this instance. *)
Definition is_space (c : ascii) : bool :=
  let n := nat_of_ascii c in
  ((9 <=? n)%nat && (n <=? 13)%nat) || ((28 <=? n)%nat && (n <=? 32)%nat).

Fixpoint lstrip (s : string) : string :=
  match s with
  | EmptyString => EmptyString
  | String c rest => if is_space c then lstrip rest else s
  end.

Fixpoint rstrip (s : string) : string :=
  match s with
  | EmptyString => EmptyString
  | String c rest =>
      match rstrip rest with
      | EmptyString => if is_space c then EmptyString else String c EmptyString
      | kept => String c kept
      end
  end.

#[export] Instance str_ops : StrOps := {
  py_strip := fun s => rstrip (lstrip s)
}.

(** A response that is an integer, and one that names a principal
    investigator without a role. *)
Definition response_number : file_content := Document (PInt 5).

Definition response_investigator : file_content :=
  Document
    (PDict [("principal_investigator",
             PDict [("name", PDict [("value", PStr "Dr. Ada Byron")])])]%string).

(** A response with a budget of which [supplies] makes up half. *)
Definition response_budget : file_content :=
  Document
    (PDict
       [("grant_id", entry (PStr "NSF-1") "HIGH");
        ("budget",
         PDict [("personnel", entry (PInt 50000) "high");
                ("supplies", entry (PInt 50000) "high");
                ("total", entry (PInt 100000) "high")])]%string).

Definition extraction_budget : Extraction :=
  Eval vm_compute in
    match @parse_ai_response Ref.json_limits (Some response_budget) with
    | Returns extraction => extraction
    | Raises _ => _create_empty_grant_data
    end.

(** The flags of the validator on that extraction: the total is reported
    as not matching. *)
Definition flags_budget : ValidationFlags :=
  Eval vm_compute in
    match @validate Ref.float_text Ref.iso_codec (grant_data extraction_budget) with
    | Returns flags => flags
    | Raises _ => no_flags
    end.

End AgentSamples.

(** ** [scripts/upload_grant_documents.py]: [trigger_ai_processing] *)

Module Uploader.
Import Py Workflow WorkflowMore Agent.

Section Manager.
Context {limits : JsonLimits} `{IsoCodec} {Store : Type} `{StoreOps Store}.

Local Notation "x <~ c ;; k" := (abind c (fun x => k))
  (at level 61, c at next level, right associativity).

(** [move_document] called with a [filename] that need not be a string,
    as when it comes from [get_next_documents_for_processing]: once both
    directories are found, [from_dir / filename] raises [TypeError] for
    a value that is not a string, and the handler of [move_document]
    calls [transition_state] with it. *)
Definition move_document_any (self : WorkflowManager) (filename : pyval)
           (from_state to_state : WorkflowState) (now : datetime)
  : @action Store bool :=
  match filename with
  | PStr s => move_document self s from_state to_state now
  | _ =>
      atry
        (match state_dirs self from_state, state_dirs self to_state with
         | Some _, Some _ =>
             lift (Raises (A := bool)
                     (TypeError ("unsupported operand type(s) for /: 'PosixPath' and '"
                                 ++ type_name filename ++ "'")))
         | _, _ => ret false
         end)
        (fun e =>
           _ <~ transition_state_any filename ERROR (Some (str_exn e)) now ;;
           ret false)
  end.

(** The loop over [pending_files]; [clock k] is what [datetime.now()]
    reads in the move numbered [k]. *)
Fixpoint move_pending (self : WorkflowManager) (pending_files : list pyval)
         (clock : nat -> datetime) (k : nat) (success_count : nat)
  : @action Store nat :=
  match pending_files with
  | [] => ret success_count
  | file :: rest =>
      moved <~ move_document_any self file PENDING PROCESSING (clock k) ;;
      move_pending self rest clock (S k)
                   (if moved then S success_count else success_count)
  end.

(** The branch of [trigger_ai_processing] for all pending files; the
    limit of [get_next_documents_for_processing] is its default, 10. *)
Definition process_all_pending (self : WorkflowManager) (clock : nat -> datetime)
  : @action Store bool :=
  pending_files <~ get_next_documents_for_processing PENDING 10 ;;
  match pending_files with
  | [] => ret true
  | _ :: _ =>
      success_count <~ move_pending self pending_files clock 0 0 ;;
      ret (Nat.eqb success_count (List.length pending_files))
  end.

(** [not filename] for the optional string argument. *)
Definition no_filename (filename : option string) : bool :=
  match filename with
  | Some s => String.eqb s ""
  | None => true
  end.

(** [trigger_ai_processing]. *)
Definition trigger_ai_processing (self : WorkflowManager) (filename : option string)
           (clock : nat -> datetime) : @action Store bool :=
  atry
    (match filename with
     | Some s =>
         if no_filename filename then process_all_pending self clock
         else move_document self s PENDING PROCESSING (clock 0%nat)
     | None => process_all_pending self clock
     end)
    (fun e => ret false).

End Manager.

End Uploader.

(** ** Sample data for [trigger_ai_processing] *)

Module UploaderSamples.
Import Py Workflow Ref Samples.

(** The ledger of [world_reregistered], with [a.pdf] and [b.pdf]
    pending, over a store that holds the file of [b.pdf] only. *)
Definition world_two_pending : @World SimpleStore :=
  world_of (status_file world_reregistered) ["./intake/pending/b.pdf"%string] false.

End UploaderSamples.

(** ** [ai_extraction_agent.py]: [process_pending_documents] *)

Module Pipeline.
Import Py DataModels Workflow WorkflowMore Agent.

(** What [process_pending_documents] asks of the file system and of the
    interpreter: the text [DocumentProcessor.extract_text] gets from a
    path, the function [save_grant_data], [Path.rename], and
    [strftime("%Y%m%d_%H%M%S")]. *)
Class AgentOps (Store : Type) : Type := {
  extract_text : Store -> string -> agent_exn + string;
  save_grant_data : Store -> Extraction -> string -> outcome unit * Store;
  path_rename : Store -> string -> string -> outcome unit * Store;
  strftime_stamp : datetime -> string
}.

(** The agent object. *)
Record AIExtractionAgent : Type := mkAIExtractionAgent {
  api_key : option string;
  workflow_manager : WorkflowManager
}.

(** The readings of [datetime.now()] one document can use: for the
    timestamp of the output file, in the transition to [EXTRACTED], and
    in the transition to [ERROR]. *)
Record Readings : Type := mkReadings {
  stamped_at : datetime;
  extracted_at : datetime;
  failed_at : datetime
}.

(** [filename.replace('.', '_')]. *)
Fixpoint replace_dots (s : string) : string :=
  match s with
  | EmptyString => EmptyString
  | String c rest =>
      String (if Ascii.eqb c "."%char then "_"%char else c) (replace_dots rest)
  end.

(** [str(Path(path))]: [pathlib] drops the empty components and the
    components ["."], and keeps one leading slash, or two when there
    are exactly two. *)
Definition path_anchor (path : string) : string :=
  match path with
  | String "/" (String "/" (String "/" _)) => "/"
  | String "/" (String "/" _) => "//"
  | String "/" _ => "/"
  | _ => EmptyString
  end.

Definition path_of_parts (anchor : string) (parts : list string) : string :=
  match anchor, parts with
  | EmptyString, [] => "."
  | _, _ => (anchor ++ join "/" parts)%string
  end.

Definition str_path (path : string) : string :=
  path_of_parts (path_anchor path) (path_parts path).

(** [path.parent]: the path without its last component. *)
Definition path_parent (path : string) : string :=
  path_of_parts (path_anchor path) (removelast (path_parts path)).

Definition MSG_NOT_FOUND : string := "File not found: ".
Definition MSG_NOT_SAVED : string := "Failed to save results: ".
Definition MSG_EXTRACTED_TO : string := "Extracted to ".

Section Processing.
Context {limits : JsonLimits} `{FloatText} `{IsoCodec} `{StrOps} {Store : Type} `{StoreOps Store}
        `{AgentOps Store}.

Local Notation "x <~ c ;; k" := (abind c (fun x => k))
  (at level 61, c at next level, right associativity).

Definition processing_dir (self : AIExtractionAgent) : string :=
  str_path (joinpath (joinpath (base_path (workflow_manager self)) "intake")
                     "processing").

Definition processed_dir (self : AIExtractionAgent) : string :=
  str_path (joinpath (joinpath (base_path (workflow_manager self)) "intake")
                     "processed").

Definition extracted_dir (self : AIExtractionAgent) : string :=
  str_path (joinpath (joinpath (base_path (workflow_manager self)) "workflows")
                     "extracted").

(** The body of the [try] that saves the results of one document. *)
Definition save_results (self : AIExtractionAgent) (filename filepath : string)
           (grant_data : Extraction) (output_filename : string) (now : datetime)
  : @action Store unit :=
  let output_path := str_path (joinpath (extracted_dir self) output_filename) in
  _ <~ store_action (fun s => mkdir_parents s (path_parent output_path)) ;;
  _ <~ store_action (fun s => save_grant_data s grant_data output_path) ;;
  _ <~ transition_state filename EXTRACTED None now ;;
  _ <~ store_action (fun s => mkdir_parents s (processed_dir self)) ;;
  _ <~ store_action
         (fun s => path_rename s filepath
                               (str_path (joinpath (processed_dir self) filename))) ;;
  ret tt.

(** One round of the loop, for a file name that is a string; the result
    is the entry appended to [results]. *)
Definition process_file (self : AIExtractionAgent) (filename : string)
           (now : Readings) (api : api_reply)
  : @action Store (pyval * bool * string) :=
  let filepath := str_path (joinpath (processing_dir self) filename) in
  fun w =>
    if negb (path_exists (store w) filepath) then
      (let error_msg := (MSG_NOT_FOUND ++ filepath)%string in
       _ <~ transition_state filename ERROR (Some error_msg) (failed_at now) ;;
       ret (PStr filename, false, error_msg)) w
    else
      match process_document (api_key self) (extract_text (store w) filepath) api with
      | (true, grant_data, message) =>
          let timestamp := strftime_stamp (stamped_at now) in
          let output_filename :=
            (timestamp ++ "_" ++ replace_dots filename ++ ".json")%string in
          atry
            (_ <~ save_results self filename filepath grant_data output_filename
                               (extracted_at now) ;;
             ret (PStr filename, true, (MSG_EXTRACTED_TO ++ output_filename)%string))
            (fun e =>
               let error_msg := (MSG_NOT_SAVED ++ str_exn e)%string in
               _ <~ transition_state filename ERROR (Some error_msg) (failed_at now) ;;
               ret (PStr filename, false, error_msg))
            w
      | (false, grant_data, message) =>
          (_ <~ transition_state filename ERROR (Some message) (failed_at now) ;;
           ret (PStr filename, false, message)) w
      end.

(** One round of the loop: [processing_dir / filename] raises
    [TypeError] for a [filename] that is not a string, outside any
    [try]. *)
Definition process_one (self : AIExtractionAgent) (filename : pyval)
           (now : Readings) (api : api_reply)
  : @action Store (pyval * bool * string) :=
  match filename with
  | PStr s => process_file self s now api
  | _ =>
      lift (Raises (TypeError ("unsupported operand type(s) for /: 'PosixPath' and '"
                               ++ type_name filename ++ "'")))
  end.

(** The loop; [clock k] and [api k] are the clock readings and the
    answer of the API for the document numbered [k]. *)
Fixpoint process_loop (self : AIExtractionAgent) (pending_files : list pyval)
         (clock : nat -> Readings) (api : nat -> api_reply) (k : nat)
         (results : list (pyval * bool * string))
  : @action Store (list (pyval * bool * string)) :=
  match pending_files with
  | [] => ret results
  | filename :: rest =>
      entry <~ process_one self filename (clock k) (api k) ;;
      process_loop self rest clock api (S k) (results ++ [entry])
  end.

(** [process_pending_documents]. *)
Definition process_pending_documents (self : AIExtractionAgent) (limit : Z)
           (clock : nat -> Readings) (api : nat -> api_reply)
  : @action Store (list (pyval * bool * string)) :=
  pending_files <~ get_next_documents_for_processing PROCESSING limit ;;
  match pending_files with
  | [] => ret []
  | _ :: _ => process_loop self pending_files clock api 0 []
  end.

End Processing.

End Pipeline.

(** ** A reference file system for the agent, and sample data *)

Module PipelineSamples.
Import Py DataModels Workflow Ref Samples WorkflowMore Agent AgentSamples Pipeline.

(** [strftime("%Y%m%d_%H%M%S")]. *)
Definition stamp_write (d : datetime) : string :=
  let days := wall d / DAY in
  let rest := wall d mod DAY in
  let '(y, m, dd) := ord2ymd (days + 1) in
  let secs := rest / MICRO in
  let hh := secs / 3600 in
  let mm := secs / 60 mod 60 in
  let ss := secs mod 60 in
  (pad 4 y ++ pad 2 m ++ pad 2 dd ++ "_" ++ pad 2 hh ++ pad 2 mm ++ pad 2 ss)%string.

(** The text of a document is not kept by [SimpleStore]: every file
    reads as one line naming it. *)
Definition simple_extract (s : SimpleStore) (path : string) : agent_exn + string :=
  if has_file s path then inr ("Text of " ++ path)%string
  else inl (Builtin (OSError "[Errno 2] No such file or directory")).

Definition simple_save (s : SimpleStore) (x : Extraction) (path : string)
  : outcome unit * SimpleStore :=
  if read_only s then (Raises (OSError "[Errno 13] Permission denied"), s)
  else (Returns tt,
        mkSimpleStore (path :: filter (fun p => negb (String.eqb p path)) (files s))
                      (read_only s)).

#[export] Instance simple_agent_ops : AgentOps SimpleStore := {
  extract_text := simple_extract;
  save_grant_data := simple_save;
  path_rename := simple_move;
  strftime_stamp := stamp_write
}.

(** [a.pdf] and [b.pdf] are in [PROCESSING]; the file of [a.pdf] is in
    [intake/processing], the file of [b.pdf] is not.  The agent names
    the files by normalised paths. *)
Definition world_in_processing : @World SimpleStore :=
  world_of
    (status_file
       (perform_all
          [Register "intake/pending/a.pdf" None t0900;
           Register "intake/pending/b.pdf" None t1000;
           Transition "a.pdf" PROCESSING None t1000;
           Transition "b.pdf" PROCESSING None t1000]%string
          empty_world))
    ["intake/processing/a.pdf"%string] false.

(** An agent with an API key, an API that answers with the budget
    response, and a clock that stands at 11:00. *)
Definition keyed_agent : AIExtractionAgent :=
  mkAIExtractionAgent (Some "sk-test"%string) manager.

Definition budget_api (k : nat) : api_reply := Replied (Some response_budget).

Definition clock_1100 (k : nat) : Readings := mkReadings t1100 t1100 t1100.

Definition entry_a : pyval * bool * string :=
  (PStr "a.pdf", true, "Extracted to 20240101_110000_a_pdf.json"%string).

Definition entry_b : pyval * bool * string :=
  (PStr "b.pdf", false, "File not found: intake/processing/b.pdf"%string).

End PipelineSamples.

(** ** [scripts/workflow_manager.py]: [print_workflow_summary] *)

Module Summary.
Import Py Workflow.

(** [sorted(xs, key=..., reverse=True)]: stable, descending, by [<] on
    the keys; a comparison that raises aborts the sort. *)
Section SortReverse.
Variable A : Type.
Variable key : A -> datetime.

Fixpoint insert_by_key_reverse (x : A) (sorted : list A) : outcome (list A) :=
  match sorted with
  | [] => Returns [x]
  | y :: rest =>
      y_first <- dt_lt (key x) (key y) ;;
      if y_first
      then (rest' <- insert_by_key_reverse x rest ;; Returns (y :: rest'))
      else Returns (x :: y :: rest)
  end.

Fixpoint sorted_reverse (xs : list A) : outcome (list A) :=
  match xs with
  | [] => Returns []
  | x :: rest => (sorted <- sorted_reverse rest ;; insert_by_key_reverse x sorted)
  end.
End SortReverse.

(** The dictionary [state_counts], keyed by the members of the
    enumeration. *)
Definition Counts : Type := list (WorkflowState * nat).

Fixpoint counts_get (state : WorkflowState) (default : nat) (state_counts : Counts)
  : nat :=
  match state_counts with
  | [] => default
  | (s, n) :: rest =>
      if state_eqb state s then n else counts_get state default rest
  end.

Fixpoint counts_set (state : WorkflowState) (n : nat) (state_counts : Counts)
  : Counts :=
  match state_counts with
  | [] => [(state, n)]
  | (s, m) :: rest =>
      if state_eqb state s then (s, n) :: rest
      else (s, m) :: counts_set state n rest
  end.

(** The loop that counts the documents by state. *)
Fixpoint count_states (docs : list DocumentInfo) (state_counts : Counts) : Counts :=
  match docs with
  | [] => state_counts
  | doc :: rest =>
      let state := current_state doc in
      count_states rest
                   (counts_set state (counts_get state 0 state_counts + 1) state_counts)
  end.

(** What the function prints, line by line: the texts are not built,
    each line is given by what it shows. *)
Inductive line : Type :=
| NoDocuments
| SummaryHeader
| StateCount (state : WorkflowState) (count : nat)
| ActivityHeader
| Activity (filename : pyval) (state : WorkflowState) (updated_at : datetime).

(** The loop [for state in WorkflowState]. *)
Fixpoint count_lines (states : list WorkflowState) (state_counts : Counts)
  : list line :=
  match states with
  | [] => []
  | state :: rest =>
      let count := counts_get state 0 state_counts in
      if (0 <? count)%nat then StateCount state count :: count_lines rest state_counts
      else count_lines rest state_counts
  end.

Definition activity_line (doc : DocumentInfo) : line :=
  Activity (filename doc) (current_state doc) (updated_at doc).

Section Manager.
Context {limits : JsonLimits} `{IsoCodec} {Store : Type} `{StoreOps Store}.

(** [print_workflow_summary]: the lines printed, and whether the call
    returns or raises; the world is only read. *)
Definition print_workflow_summary (w : @World Store) : list line * outcome unit :=
  let workflow_status := read_ledger w in
  match workflow_status with
  | [] => ([NoDocuments], Returns tt)
  | _ :: _ =>
      let state_counts := count_states (dict_values workflow_status) [] in
      let summary := SummaryHeader :: count_lines ALL_STATES state_counts in
      match sorted_reverse updated_at (dict_values workflow_status) with
      | Returns sorted =>
          let recent_docs := slice_to 5 sorted in
          match recent_docs with
          | [] => (summary, Returns tt)
          | _ :: _ =>
              (summary ++ ActivityHeader :: map activity_line recent_docs, Returns tt)
          end
      | Raises e => (summary, Raises e)
      end
  end.

End Manager.

End Summary.

(* ================================================================== *)
(** * Part II: theorems *)
(* ================================================================== *)

From Stdlib Require Import Permutation Sorted.

Unset Implicit Arguments.

(** ** Dictionaries *)

Module PyFacts.
Import Py.

Section Dict.
Variable V : Type.
Implicit Types (d : dict V) (k : string) (v : V).

Lemma dict_get_None_iff d k : dict_get k d = None <-> ~ In k (dict_keys d).
Proof.
  induction d as [|[k' v'] d IH]; simpl.
  - tauto.
  - destruct (String.eqb_spec k k') as [->|Hne].
    + split; [discriminate | intros Hn; exfalso; apply Hn; now left].
    + rewrite IH. split.
      * intros Hn [Heq|Hin]; [now apply Hne | now apply Hn].
      * intros Hn Hin. apply Hn. now right.
Qed.

Lemma dict_get_set_same d k v : dict_get k (dict_set k v d) = Some v.
Proof.
  induction d as [|[k' v'] d IH]; simpl.
  - now rewrite String.eqb_refl.
  - destruct (String.eqb k k') eqn:E; simpl.
    + now rewrite String.eqb_refl.
    + now rewrite E.
Qed.

Lemma dict_get_set_other d k k' v :
  k <> k' -> dict_get k' (dict_set k v d) = dict_get k' d.
Proof.
  intros Hne. induction d as [|[k0 v0] d IH]; simpl.
  - destruct (String.eqb_spec k' k); [congruence | reflexivity].
  - destruct (String.eqb_spec k k0) as [->|Hk]; simpl.
    + destruct (String.eqb_spec k' k0); [congruence | reflexivity].
    + destruct (String.eqb_spec k' k0); [reflexivity | exact IH].
Qed.

(** A new key goes last. *)
Lemma dict_set_fresh d k v :
  dict_get k d = None -> dict_set k v d = d ++ [(k, v)].
Proof.
  induction d as [|[k' v'] d IH]; simpl; [reflexivity|].
  destruct (String.eqb k k'); [discriminate|].
  intros Hn. now rewrite IH.
Qed.

(** An existing key keeps its place: the keys do not change. *)
Lemma dict_keys_set_present d k v v0 :
  dict_get k d = Some v0 -> dict_keys (dict_set k v d) = dict_keys d.
Proof.
  induction d as [|[k' v'] d IH]; simpl; [discriminate|].
  destruct (String.eqb_spec k k') as [->|Hne]; simpl.
  - reflexivity.
  - intros Hg. f_equal. now apply IH.
Qed.

Lemma NoDup_dict_set d k v :
  NoDup (dict_keys d) -> NoDup (dict_keys (dict_set k v d)).
Proof.
  intros Hnd. destruct (dict_get k d) as [v0|] eqn:E.
  - erewrite dict_keys_set_present by eassumption. exact Hnd.
  - rewrite dict_set_fresh by assumption.
    unfold dict_keys. rewrite map_app. simpl.
    apply NoDup_app; [exact Hnd | repeat constructor; intros [] |].
    intros a Hin [<-|[]]. now apply dict_get_None_iff in E.
Qed.

Lemma dict_get_Some_In d k v : dict_get k d = Some v -> In (k, v) d.
Proof.
  induction d as [|[k' v'] d IH]; simpl; [discriminate|].
  destruct (String.eqb_spec k k') as [->|Hne].
  - intros [= ->]. now left.
  - intros Hg. right. now apply IH.
Qed.

Lemma Forall_dict_set (P : string * V -> Prop) d k v :
  Forall P d -> P (k, v) -> Forall P (dict_set k v d).
Proof.
  intros Hd Hkv. induction Hd as [|[k' v'] d Hx Hd IH]; simpl.
  - now constructor.
  - destruct (String.eqb k k'); constructor; assumption.
Qed.

End Dict.

(** *** Sorting by a datetime key *)

Lemma dt_lt_uniform (a b : datetime) (flag : bool) :
  naive a = flag -> naive b = flag ->
  dt_lt a b = Returns (instant a <? instant b).
Proof.
  unfold dt_lt, dt_compare, naive, instant.
  destruct (utcoffset a), (utcoffset b); intros <-; (discriminate || reflexivity).
Qed.

Section SortFacts.
Variable A : Type.
Variable key : A -> datetime.
Variable flag : bool.

Local Notation "'uniform'" := (Forall (fun x => naive (key x) = flag)).
Local Notation "'le'" := (fun x y : A => instant (key x) <= instant (key y)).
Local Notation "'at_instant'" := (fun (t : Z) (x : A) => instant (key x) =? t).

Lemma insert_by_key_sorted (x : A) (xs : list A) :
  naive (key x) = flag -> uniform xs ->
  exists ys,
    insert_by_key key x xs = Returns ys
    /\ Permutation (x :: xs) ys
    /\ (StronglySorted le xs -> StronglySorted le ys)
    /\ forall t, filter (at_instant t) ys = filter (at_instant t) (x :: xs).
Proof.
  intros Hx Hxs. induction Hxs as [|y xs Hy Hxs IH].
  - exists [x]. simpl. repeat split; auto.
    intros _. repeat constructor.
  - destruct IH as (ys & Hins & Hperm & Hsorted & Hstable).
    simpl. rewrite (dt_lt_uniform _ _ flag Hy Hx). cbn [bind].
    destruct (instant (key y) <? instant (key x)) eqn:Hlt.
    + apply Z.ltb_lt in Hlt. rewrite Hins. cbn [bind].
      exists (y :: ys). split; [reflexivity|]. split; [|split].
      * rewrite perm_swap. now constructor.
      * intros Hs. inversion Hs as [|? ? Hs' Hall]; subst.
        constructor; [now apply Hsorted|].
        apply (Permutation_Forall Hperm). constructor; [cbv beta; lia | exact Hall].
      * intros t. simpl. rewrite Hstable. simpl.
        cbv beta.
        destruct (Z.eqb_spec (instant (key x)) t), (Z.eqb_spec (instant (key y)) t);
          (reflexivity || lia).
    + apply Z.ltb_ge in Hlt. exists (x :: y :: xs).
      split; [reflexivity|]. split; [reflexivity|]. split; [|reflexivity].
      intros Hs. constructor; [exact Hs|].
      inversion Hs as [|? ? Hs' Hall]; subst.
      constructor; [exact Hlt|].
      eapply Forall_impl; [|exact Hall]. cbv beta. intros z Hz. lia.
Qed.

(** On keys that are all naive or all aware, [sort] returns the stable
    sort of its argument. *)
Lemma sort_by_key_sorted (xs : list A) :
  uniform xs ->
  exists ys,
    sort_by_key key xs = Returns ys
    /\ Permutation xs ys
    /\ StronglySorted le ys
    /\ forall t, filter (at_instant t) ys = filter (at_instant t) xs.
Proof.
  intros Hxs. induction Hxs as [|x xs Hx Hxs IH].
  - exists []. simpl. repeat split; auto. constructor.
  - destruct IH as (ys & Hsort & Hperm & Hsorted & Hstable).
    destruct (insert_by_key_sorted x ys Hx (Permutation_Forall Hperm Hxs))
      as (zs & Hins & Hperm' & Hsorted' & Hstable').
    exists zs. simpl. rewrite Hsort. cbn [bind]. split; [exact Hins|].
    split; [|split].
    + rewrite <- Hperm'. now constructor.
    + now apply Hsorted'.
    + intros t. rewrite Hstable'. simpl. now rewrite Hstable.
Qed.

End SortFacts.

(** *** The limits of [json] *)

Lemma first_excess_None (A : Type) (excess : A -> option json_limit) (xs : list A) :
  first_excess excess xs = None <-> Forall (fun x => excess x = None) xs.
Proof.
  induction xs as [|x xs IH]; simpl.
  - split; [constructor | reflexivity].
  - destruct (excess x) as [l|] eqn:E.
    + split; [discriminate|]. intros Hall. inversion Hall; congruence.
    + rewrite IH. split; [now constructor | intros Hall; now inversion Hall].
Qed.

Lemma first_excess_Some (A : Type) (excess : A -> option json_limit) (xs : list A) :
  first_excess excess xs <> None <-> Exists (fun x => excess x <> None) xs.
Proof.
  induction xs as [|x xs IH]; simpl.
  - split; [intros Hn; now elim Hn | intros Hex; inversion Hex].
  - destruct (excess x) as [l|] eqn:E.
    + split; [|discriminate]. intros _. left. now rewrite E.
    + rewrite IH. split; [now right|].
      intros Hex. inversion Hex as [? ? Hx|? ? Hx]; subst; [congruence | exact Hx].
Qed.

(** With more levels left, nothing new is exceeded. *)
Lemma json_excess_S (depth : nat) : forall j,
  json_excess depth j = None -> json_excess (S depth) j = None.
Proof.
  induction depth as [|depth IH]; intros j; destruct j as [|b|z|f|s|l|d];
    cbn [json_excess]; try discriminate; try (intros; assumption).
  - rewrite !first_excess_None. apply Forall_impl. intros j. apply IH.
  - rewrite !first_excess_None. apply Forall_impl. intros item. apply IH.
Qed.

Lemma json_excess_le (depth depth' : nat) (j : pyval) :
  (depth <= depth')%nat ->
  json_excess depth j = None -> json_excess depth' j = None.
Proof.
  induction 1 as [|depth' _ IH]; [auto|]. intros Hj. now apply json_excess_S, IH.
Qed.

(** With fewer levels left, what was exceeded stays so. *)
Lemma json_excess_ge (depth depth' : nat) (j : pyval) :
  (depth <= depth')%nat ->
  json_excess depth' j <> None -> json_excess depth j <> None.
Proof. intros Hle Hj Hn. apply Hj. now apply json_excess_le with depth. Qed.

Lemma json_excess_PStr (depth : nat) (s : string) : json_excess depth (PStr s) = None.
Proof. now destruct depth. Qed.

Lemma json_excess_PDict (depth : nat) (items : dict pyval) :
  json_excess (S depth) (PDict items) = None
  <-> Forall (fun item => json_excess depth (snd item) = None) items.
Proof. cbn [json_excess]. apply first_excess_None. Qed.

Lemma dict_get_excess (depth : nat) (items : dict pyval) (key : string) (v : pyval) :
  Forall (fun item => json_excess depth (snd item) = None) items ->
  dict_get key items = Some v -> json_excess depth v = None.
Proof.
  induction 1 as [|[k' v'] items Hx _ IH]; simpl; [discriminate|].
  destruct (String.eqb key k'); [intros [= <-]; exact Hx | exact IH].
Qed.

Lemma py_getitem_excess (depth : nat) (data : pyval) (key : string) (v : pyval) :
  json_excess (S depth) data = None ->
  py_getitem data key = Returns v -> json_excess depth v = None.
Proof.
  destruct data as [|b|z|f|s|l|d]; cbn [py_getitem]; try discriminate.
  rewrite json_excess_PDict. intros Hall.
  destruct (dict_get key d) as [v'|] eqn:Hg; [|discriminate].
  intros [= <-]. now apply dict_get_excess with d key.
Qed.

Lemma py_get_excess (depth : nat) (data : pyval) (key : string) (v : pyval) :
  json_excess (S depth) data = None ->
  py_get data key = Returns v -> json_excess depth v = None.
Proof.
  destruct data as [|b|z|f|s|l|d]; cbn [py_get]; try discriminate.
  rewrite json_excess_PDict. intros Hall.
  destruct (dict_get key d) as [v'|] eqn:Hg.
  - intros [= <-]. now apply dict_get_excess with d key.
  - intros [= <-]. now destruct depth.
Qed.

End PyFacts.

(** ** The validator *)

Module ValidatorFacts.
Import Py DataModels.

Section Facts.
Context `{FloatText} `{IsoCodec}.

Lemma nonempty_true_iff (A : Type) (xs : list A) : nonempty xs = true <-> xs <> [].
Proof. destruct xs; simpl; split; congruence. Qed.

(** What [validate] returns is assembled from what its blocks return. *)
Lemma validate_inv (g : GrantData) (fl : ValidationFlags) :
  validate g = Returns fl ->
  exists missing dates budget_errors amount_flags,
    check_required_fields g REQUIRED_FIELDS = Returns missing
    /\ check_dates (timeline g) = Returns dates
    /\ check_budget (budget g) = Returns budget_errors
    /\ check_award_amount g = Returns amount_flags
    /\ fl = mkValidationFlags missing dates budget_errors
              (amount_flags ++ low_confidence_entry g)
              (nonempty missing || nonempty dates || nonempty budget_errors
               || (2 <? Z.of_nat (List.length (amount_flags ++ low_confidence_entry g)))).
Proof.
  unfold validate, bind.
  destruct (check_required_fields g REQUIRED_FIELDS) as [missing|] eqn:E1; [|discriminate].
  destruct (check_dates (timeline g)) as [dates|] eqn:E2; [|discriminate].
  destruct (check_budget (budget g)) as [berr|] eqn:E3; [|discriminate].
  destruct (check_award_amount g) as [aflags|] eqn:E4; [|discriminate].
  intros [= <-]. now exists missing, dates, berr, aflags.
Qed.

(** The required-field loop on a record without principal investigator. *)
Lemma check_required_fields_no_investigator (g : GrantData) :
  principal_investigator g = None ->
  check_required_fields g REQUIRED_FIELDS =
  Returns ((if present (grant_id g) then [] else ["grant_id"%string])
           ++ (if present (grant_name g) then [] else ["grant_name"%string])
           ++ (if present (funding_agency g) then [] else ["funding_agency"%string])
           ++ (if present (award_amount g) then [] else ["award_amount"%string])
           ++ ["principal_investigator"%string]).
Proof.
  intros Hpi. unfold REQUIRED_FIELDS, check_required_fields, getattr. simpl.
  rewrite Hpi.
  destruct (grant_id g) as [f1|], (grant_name g) as [f2|],
           (funding_agency g) as [f3|], (award_amount g) as [f4|]; simpl;
    repeat match goal with
           | |- context [truthy ?v] => destruct (truthy v)
           end; reflexivity.
Qed.

(** The required-field loop on a record with a principal investigator. *)
Lemma check_required_fields_investigator (g : GrantData) (m : TeamMember) :
  principal_investigator g = Some m ->
  check_required_fields g REQUIRED_FIELDS =
  Raises (AttributeError "'TeamMember' object has no attribute 'value'").
Proof.
  intros Hpi. unfold REQUIRED_FIELDS, check_required_fields, getattr. simpl.
  rewrite Hpi.
  destruct (grant_id g) as [f1|], (grant_name g) as [f2|],
           (funding_agency g) as [f3|], (award_amount g) as [f4|]; reflexivity.
Qed.

Lemma low_confidence_entry_length (g : GrantData) :
  (List.length (low_confidence_entry g) <= 1)%nat.
Proof.
  unfold low_confidence_entry. destruct (low_confidence_fields g); simpl; lia.
Qed.

Lemma low_confidence_entry_not_amount_flag (g : GrantData) (msg : string) :
  In msg (low_confidence_entry g) ->
  msg <> MSG_ZERO_OR_NEGATIVE /\ msg <> MSG_UNUSUALLY_HIGH /\ msg <> MSG_NOT_A_NUMBER.
Proof.
  unfold low_confidence_entry.
  destruct (low_confidence_fields g); simpl; [intros []|].
  intros [<-|[]]. repeat split; discriminate.
Qed.

(** X1.  The award-amount block contributes at most one entry, and the
    entry is one of the three messages. *)
Lemma check_award_amount_shape (g : GrantData) (flags : list string) :
  check_award_amount g = Returns flags ->
  flags = [] \/ flags = [MSG_ZERO_OR_NEGATIVE] \/ flags = [MSG_UNUSUALLY_HIGH]
  \/ flags = [MSG_NOT_A_NUMBER].
Proof.
  unfold check_award_amount.
  destruct (award_amount g) as [a|]; [|intros [= <-]; now left].
  destruct (truthy (value a)); [|intros [= <-]; now left].
  unfold try_except, bind.
  destruct (py_float (value a)) as [amount|e].
  - destruct (amount <=? 0)%float; [intros [= <-]; tauto|].
    destruct (50000000 <? amount)%float; intros [= <-]; tauto.
  - unfold except_ValueError_TypeError.
    destruct (is_ValueError e || is_TypeError e); [intros [= <-]; tauto | discriminate].
Qed.

(** On a truthy value the award-amount block flags by the converted
    number, and flags the format when the conversion raises [ValueError]
    or [TypeError]. *)
Lemma check_award_amount_truthy (g : GrantData) (a : ExtractedField) :
  award_amount g = Some a -> truthy (value a) = true ->
  (forall amount, py_float (value a) = Returns amount ->
     check_award_amount g
     = Returns (if (amount <=? 0)%float then [MSG_ZERO_OR_NEGATIVE]
                else if (50000000 <? amount)%float then [MSG_UNUSUALLY_HIGH]
                else []))
  /\ (forall e, py_float (value a) = Raises e ->
        is_ValueError e || is_TypeError e = true ->
        check_award_amount g = Returns [MSG_NOT_A_NUMBER]).
Proof.
  intros Ha Ht. unfold check_award_amount. rewrite Ha, Ht. split.
  - intros amount ->. reflexivity.
  - intros e -> He. simpl. unfold except_ValueError_TypeError. now rewrite He.
Qed.

(** C2 (the code's behaviour at the failing input).  Whenever the record
    has a principal investigator, [validate] raises [AttributeError]
    instead of returning flags: the required-field loop asks the
    [TeamMember] for an attribute [value] it does not have. *)
Theorem validate_raises_with_investigator (g : GrantData) (m : TeamMember) :
  principal_investigator g = Some m ->
  validate g = Raises (AttributeError "'TeamMember' object has no attribute 'value'").
Proof.
  intros Hpi. unfold validate.
  now rewrite (check_required_fields_investigator g m Hpi).
Qed.

(** C3.  Whenever [validate] returns flags, [needs_human_review] holds
    exactly when a required field is missing, or a date inconsistency or
    a budget error was flagged, or [suspicious_values] has more than two
    entries; the low-confidence fields contribute at most one entry to
    [suspicious_values], after whatever the award-amount block flagged. *)
Theorem needs_human_review_iff (g : GrantData) (fl : ValidationFlags) :
  validate g = Returns fl ->
  (needs_human_review fl = true <->
     missing_required_fields fl <> []
     \/ inconsistent_dates fl <> []
     \/ budget_calculation_errors fl <> []
     \/ (2 < List.length (suspicious_values fl))%nat)
  /\ exists amount_flags,
       check_award_amount g = Returns amount_flags
       /\ suspicious_values fl = amount_flags ++ low_confidence_entry g
       /\ (List.length (low_confidence_entry g) <= 1)%nat.
Proof.
  intros Hv. apply validate_inv in Hv.
  destruct Hv as (missing & dates & berr & aflags & E1 & E2 & E3 & E4 & ->).
  simpl. split.
  - rewrite !orb_true_iff, !nonempty_true_iff, Z.ltb_lt. intuition lia.
  - exists aflags. auto using low_confidence_entry_length.
Qed.

Lemma truthy_empty_or_zero (v : pyval) :
  truthy v = negb (empty_value v || zero_like v).
Proof.
  destruct v as [| b | z | f | s | l | d]; simpl; try reflexivity.
  - now destruct b.
  - now rewrite orb_false_r.
  - now destruct l.
  - now destruct d.
Qed.

Lemma present_not_blank (f : option ExtractedField) :
  holds_zero f = false -> present f = negb (blank f).
Proof.
  destruct f as [e|]; simpl; [|reflexivity].
  intros Hz. now rewrite truthy_empty_or_zero, Hz, orb_false_r.
Qed.

(** X8.  A consequence of the required-field loop: flags are only ever
    returned for a record without principal investigator, they list it
    as missing, and so they always ask for review. *)
Lemma returned_flags_ask_for_review (g : GrantData) (fl : ValidationFlags) :
  validate g = Returns fl ->
  principal_investigator g = None
  /\ In "principal_investigator"%string (missing_required_fields fl)
  /\ needs_human_review fl = true.
Proof.
  intros Hv. apply validate_inv in Hv.
  destruct Hv as (missing & dates & berr & aflags & E1 & _ & _ & _ & ->).
  destruct (principal_investigator g) as [m|] eqn:Hpi.
  - rewrite (check_required_fields_investigator g m Hpi) in E1. discriminate.
  - rewrite (check_required_fields_no_investigator g Hpi) in E1.
    injection E1 as <-. split; [reflexivity|]. simpl. split.
    + rewrite !in_app_iff. simpl. tauto.
    + destruct (present (grant_id g)), (present (grant_name g)),
               (present (funding_agency g)), (present (award_amount g));
        reflexivity.
Qed.

(** C4 (as the code has it).  On a record without principal investigator
    the required-field loop returns.  When moreover none of the four
    required fields holds a zero-like value, the flags [validate] returns
    list a required field exactly when its attribute is unset or holds
    [None] or an empty string or list, and they list
    [principal_investigator].  No trimming takes place: every string but
    the empty one counts as a value, whitespace-only strings included. *)
Theorem missing_required_fields_exact (g : GrantData) :
  principal_investigator g = None ->
  returned (check_required_fields g REQUIRED_FIELDS) = true
  /\ (forall s c, s <> EmptyString -> blank (Some (field (PStr s) c)) = false)
  /\ (holds_zero (grant_id g) = false -> holds_zero (grant_name g) = false ->
      holds_zero (funding_agency g) = false -> holds_zero (award_amount g) = false ->
      forall fl, validate g = Returns fl ->
        forall field_name,
          In field_name (missing_required_fields fl) <->
            (field_name = "grant_id"%string /\ blank (grant_id g) = true)
            \/ (field_name = "grant_name"%string /\ blank (grant_name g) = true)
            \/ (field_name = "funding_agency"%string /\ blank (funding_agency g) = true)
            \/ (field_name = "award_amount"%string /\ blank (award_amount g) = true)
            \/ field_name = "principal_investigator"%string).
Proof.
  intros Hpi. pose proof (check_required_fields_no_investigator g Hpi) as Hreq.
  split; [now rewrite Hreq|]. split.
  - intros s c Hs. simpl. destruct (String.eqb_spec s ""); [contradiction | reflexivity].
  - intros Z1 Z2 Z3 Z4 fl Hv field_name. apply validate_inv in Hv.
    destruct Hv as (missing & dates & berr & aflags & E1 & _ & _ & _ & ->).
    simpl. rewrite Hreq in E1. injection E1 as <-.
    rewrite !in_app_iff.
    rewrite (present_not_blank _ Z1), (present_not_blank _ Z2),
            (present_not_blank _ Z3), (present_not_blank _ Z4).
    destruct (blank (grant_id g)), (blank (grant_name g)),
             (blank (funding_agency g)), (blank (award_amount g));
      simpl; intuition (subst; auto; try discriminate).
Qed.

(** C5 (the code's behaviour at the failing input).  An award amount of
    exactly [0] is falsy, so the suspicious-value block is skipped: it
    flags nothing, and no flags [validate] returns carry the
    zero-or-negative entry. *)
Theorem zero_award_amount_not_flagged (g : GrantData) (a : ExtractedField) :
  award_amount g = Some a ->
  value a = PInt 0 ->
  check_award_amount g = Returns []
  /\ forall fl, validate g = Returns fl ->
       ~ In MSG_ZERO_OR_NEGATIVE (suspicious_values fl)
       /\ In "award_amount"%string (missing_required_fields fl).
Proof.
  intros Ha Hv.
  assert (Hc : check_award_amount g = Returns []).
  { unfold check_award_amount. now rewrite Ha, Hv. }
  split; [exact Hc|].
  intros fl Hfl. apply validate_inv in Hfl.
  destruct Hfl as (missing & dates & berr & aflags & E1 & _ & _ & E4 & ->).
  simpl. rewrite Hc in E4. injection E4 as <-. simpl. split.
  - intros Hin. now apply low_confidence_entry_not_amount_flag in Hin.
  - destruct (principal_investigator g) as [m|] eqn:Hpi.
    + rewrite (check_required_fields_investigator g m Hpi) in E1. discriminate.
    + rewrite (check_required_fields_no_investigator g Hpi) in E1.
      injection E1 as <-. rewrite !in_app_iff.
      unfold present at 4. rewrite Ha, Hv. simpl. tauto.
Qed.

End Facts.
End ValidatorFacts.

(** ** The workflow manager *)

Module WorkflowFacts.
Import Py PyFacts Workflow.

Section Facts.
Context {limits : JsonLimits} `{IsoCodec} {Store : Type} `{StoreOps Store}.
Implicit Types (w : @World Store) (m : Ledger) (d : DocumentInfo).

(** The levels of the two depths. *)
Lemma load_depth_levels : load_depth = S (S (load_depth - 2)).
Proof. pose proof literals_load as Hl. apply Nat.leb_le in Hl. lia. Qed.

Lemma load_below_dump : (load_depth <= dump_depth)%nat.
Proof. apply Nat.leb_le, loaded_dumps. Qed.

(** *** Loading *)

Lemma get_workflow_status_eq w :
  get_workflow_status w = (Returns (read_ledger w), w).
Proof.
  unfold read_ledger, get_workflow_status.
  destruct (status_file w) as [c|]; simpl; [|reflexivity].
  now destruct (load_body c).
Qed.

Lemma read_ledger_no_file w : status_file w = None -> read_ledger w = [].
Proof. unfold read_ledger, get_workflow_status. now intros ->. Qed.

Lemma read_ledger_file w c :
  status_file w = Some c ->
  read_ledger w = match load_body c with Returns m => m | Raises _ => [] end.
Proof.
  unfold read_ledger, get_workflow_status. intros ->. simpl.
  now destruct (load_body c).
Qed.

Lemma documents_of_items_NoDup items : forall acc m,
  NoDup (dict_keys acc) ->
  documents_of_items items acc = Returns m ->
  NoDup (dict_keys m).
Proof.
  induction items as [|[k data] items IH]; simpl; intros acc m Hacc.
  - now intros [= <-].
  - unfold bind. destruct (document_of_json data) as [doc|]; [|discriminate].
    apply IH. now apply NoDup_dict_set.
Qed.

(** A loaded ledger never holds a filename twice. *)
Lemma read_ledger_NoDup w : NoDup (dict_keys (read_ledger w)).
Proof.
  destruct (status_file w) as [c|] eqn:E.
  - rewrite (read_ledger_file _ _ E).
    destruct (load_body c) as [m|] eqn:L; [|constructor].
    unfold load_body, bind in L.
    destruct (json_load c) as [status_data|]; [|discriminate].
    destruct (py_items status_data); [|discriminate].
    eapply documents_of_items_NoDup; [|exact L]. constructor.
  - rewrite (read_ledger_no_file _ E). constructor.
Qed.

(** *** Saving and reading back *)

Lemma WorkflowState_of_value_state_value (s : WorkflowState) :
  WorkflowState_of_value (PStr (state_value s)) = Returns s.
Proof. now destruct s. Qed.

Lemma json_of_document_items d :
  py_getitem (json_of_document d) "filename" = Returns (filename d)
  /\ py_getitem (json_of_document d) "original_path" = Returns (original_path d)
  /\ py_getitem (json_of_document d) "current_state"
     = Returns (PStr (state_value (current_state d)))
  /\ py_getitem (json_of_document d) "created_at"
     = Returns (PStr (isoformat (created_at d)))
  /\ py_getitem (json_of_document d) "updated_at"
     = Returns (PStr (isoformat (updated_at d)))
  /\ py_getitem (json_of_document d) "metadata" = Returns (metadata d)
  /\ py_get (json_of_document d) "error_message" = Returns (error_message d).
Proof. repeat split; reflexivity. Qed.

Lemma document_of_json_of_document d :
  roundtrips (created_at d) -> roundtrips (updated_at d) ->
  document_of_json (json_of_document d) = Returns d.
Proof.
  unfold roundtrips. intros Hc Hu.
  destruct (json_of_document_items d) as (F1 & F2 & F3 & F4 & F5 & F6 & F7).
  unfold document_of_json.
  rewrite F1, F2, F3, F4, F5, F6, F7. cbn [bind].
  rewrite WorkflowState_of_value_state_value. cbn [bind py_fromisoformat].
  rewrite Hc, Hu. cbn [bind]. now destruct d.
Qed.

Lemma NoDup_keys_head (A B : Type) (acc : dict A) (k : string) (x : B)
      (rest : dict B) :
  NoDup (dict_keys acc ++ dict_keys ((k, x) :: rest)) ->
  dict_get k acc = None
  /\ forall (a : A), NoDup (dict_keys (acc ++ [(k, a)]) ++ dict_keys rest).
Proof.
  simpl. intros Hnd. split.
  - apply dict_get_None_iff. intros Hin.
    apply NoDup_remove_2 in Hnd. apply Hnd. apply in_or_app. now left.
  - intros a. unfold dict_keys. rewrite map_app. simpl.
    now rewrite <- app_assoc.
Qed.

Lemma status_data_of_fresh m : forall acc,
  NoDup (dict_keys acc ++ dict_keys m) ->
  status_data_of m acc = acc ++ map json_item m.
Proof.
  induction m as [|[k d] m IH]; simpl; intros acc Hnd.
  - now rewrite app_nil_r.
  - destruct (NoDup_keys_head _ _ acc k d m Hnd) as [Hk Hrest].
    rewrite (dict_set_fresh _ _ _ _ Hk), IH by apply Hrest.
    now rewrite <- app_assoc.
Qed.

Lemma documents_of_items_json m : forall acc,
  NoDup (dict_keys acc ++ dict_keys m) ->
  ledger_roundtrips m ->
  documents_of_items (map json_item m) acc = Returns (acc ++ m).
Proof.
  induction m as [|[k d] m IH]; simpl; intros acc Hnd Hrt.
  - now rewrite app_nil_r.
  - inversion Hrt as [|? ? [Hc Hu] Hrt']; subst. simpl in Hc, Hu.
    rewrite (document_of_json_of_document _ Hc Hu). simpl.
    destruct (NoDup_keys_head _ _ acc k d m Hnd) as [Hk Hrest].
    rewrite (dict_set_fresh _ _ _ _ Hk), IH by (apply Hrest || assumption).
    now rewrite <- app_assoc.
Qed.

(** *** What is read can be written and read again *)

Lemma json_of_document_excess d :
  storable_document d ->
  json_excess (S (load_depth - 2)) (json_of_document d) = None.
Proof.
  intros (Hf & Ho & Hm & He). unfold json_of_document. apply json_excess_PDict.
  repeat constructor; cbn [snd]; try assumption; apply json_excess_PStr.
Qed.

Lemma status_data_excess m :
  NoDup (dict_keys m) -> storable_ledger m ->
  json_excess load_depth (PDict (status_data_of m [])) = None.
Proof.
  intros Hnd Hm. rewrite status_data_of_fresh by exact Hnd. cbn [app].
  rewrite load_depth_levels. apply json_excess_PDict.
  apply Forall_map. eapply Forall_impl; [|exact Hm].
  intros [k d] Hd. cbn [json_item fst snd] in *. now apply json_of_document_excess.
Qed.

(** A document with an attribute that is not [storable] is not read. *)
Lemma status_data_not_storable m k d :
  NoDup (dict_keys m) -> In (k, d) m -> ~ storable (metadata d) ->
  json_excess load_depth (PDict (status_data_of m [])) <> None.
Proof.
  intros Hnd Hin Hd. rewrite status_data_of_fresh by exact Hnd. cbn [app].
  rewrite load_depth_levels. cbn [json_excess]. apply first_excess_Some.
  apply Exists_exists. exists (json_item (k, d)). split; [now apply in_map|].
  cbn [json_item fst snd json_of_document json_excess]. apply first_excess_Some.
  apply Exists_exists. exists ("metadata"%string, metadata d).
  split; [simpl; tauto | exact Hd].
Qed.

Lemma document_of_json_storable (data : pyval) d :
  json_excess (S (load_depth - 2)) data = None ->
  document_of_json data = Returns d -> storable_document d.
Proof.
  intros Hdata. unfold document_of_json, bind.
  repeat match goal with
         | |- match ?c with Returns _ => _ | Raises _ => _ end = _ -> _ =>
             let E := fresh "E" in destruct c eqn:E; [|discriminate]
         end.
  intros [= <-]. unfold storable_document, storable.
  cbn [filename original_path metadata error_message].
  repeat split; eauto using py_getitem_excess, py_get_excess.
Qed.

Lemma documents_of_items_storable (items : list (string * pyval)) : forall acc m,
  Forall (fun item => json_excess (S (load_depth - 2)) (snd item) = None) items ->
  storable_ledger acc ->
  documents_of_items items acc = Returns m -> storable_ledger m.
Proof.
  induction items as [|[k data] items IH]; simpl; intros acc m Hitems Hacc.
  - now intros [= <-].
  - inversion Hitems as [|? ? Hdata Hrest]; subst. cbn [snd] in Hdata.
    unfold bind. destruct (document_of_json data) as [doc|] eqn:E; [|discriminate].
    apply IH; [exact Hrest|]. apply Forall_dict_set; [exact Hacc|].
    cbn [snd]. now apply document_of_json_storable with data.
Qed.

Lemma load_body_storable (c : file_content) m :
  load_body c = Returns m -> storable_ledger m.
Proof.
  unfold load_body, bind. destruct c as [j|s|j|l]; cbn [json_load]; try discriminate.
  destruct (json_excess load_depth j) eqn:Hj; [discriminate|].
  destruct j as [|b|z|f|s|l|items]; try discriminate. cbn [py_items].
  rewrite load_depth_levels in Hj. apply json_excess_PDict in Hj.
  apply documents_of_items_storable; [exact Hj | constructor].
Qed.

(** Every attribute of a loaded ledger can be written and read again. *)
Lemma read_ledger_storable w : storable_ledger (read_ledger w).
Proof.
  destruct (status_file w) as [c|] eqn:E.
  - rewrite (read_ledger_file _ _ E).
    destruct (load_body c) as [m|] eqn:L; [|constructor].
    now apply load_body_storable with c.
  - rewrite (read_ledger_no_file _ E). constructor.
Qed.

Lemma storable_ledger_get m k d :
  storable_ledger m -> dict_get k m = Some d -> storable_document d.
Proof.
  intros Hm. induction Hm as [|[k' d'] m Hx Hm IH]; simpl; [discriminate|].
  destruct (String.eqb k k'); [intros [= <-]; exact Hx | exact IH].
Qed.

Lemma storable_optional_str (error_message : option string) :
  storable (py_of_optional_str error_message).
Proof. destruct error_message; [apply json_excess_PStr | now destruct (load_depth - 2)%nat]. Qed.

Lemma storable_transitioned d new_state error_message now :
  storable_document d ->
  storable_document (transitioned d new_state error_message now).
Proof.
  intros (Hf & Ho & Hm & _). unfold storable_document. cbn.
  repeat split; try assumption. apply storable_optional_str.
Qed.

Lemma storable_new_document filepath metadata now :
  storable (metadata_or_empty metadata) ->
  storable_document (new_document filepath metadata now).
Proof.
  intros Hm. unfold storable_document. cbn.
  repeat split; try assumption; try apply json_excess_PStr.
Qed.

(** The document [save_workflow_status] writes for a ledger reads back
    as that ledger. *)
Lemma load_body_saved m :
  NoDup (dict_keys m) -> ledger_roundtrips m -> storable_ledger m ->
  load_body (Document (PDict (status_data_of m []))) = Returns m.
Proof.
  intros Hnd Hrt Hst. unfold load_body. cbn [json_load].
  rewrite status_data_excess by assumption. cbn [bind py_items].
  rewrite status_data_of_fresh by exact Hnd. simpl.
  now rewrite documents_of_items_json.
Qed.

(** What [save_workflow_status] leaves in a file it can open: the whole
    document, or its beginning when a value exceeds a limit. *)
Lemma save_workflow_status_leaves m w :
  status_writable w = true ->
  save_workflow_status m w
  = (Returns tt,
     with_status_file w
       (Some match json_excess dump_depth (PDict (status_data_of m [])) with
             | None => Document (PDict (status_data_of m []))
             | Some _ => Truncated (PDict (status_data_of m []))
             end)).
Proof.
  intros Hw. unfold save_workflow_status, atry, save_body, open_for_writing, json_dump.
  rewrite Hw. now destruct (json_excess dump_depth (PDict (status_data_of m []))).
Qed.

Lemma save_workflow_status_writable m w :
  status_writable w = true ->
  json_excess dump_depth (PDict (status_data_of m [])) = None ->
  save_workflow_status m w =
  (Returns tt, with_status_file w (Some (Document (PDict (status_data_of m []))))).
Proof. intros Hw Hm. now rewrite save_workflow_status_leaves, Hm. Qed.

Lemma save_workflow_status_not_writable m w :
  status_writable w = false -> save_workflow_status m w = (Returns tt, w).
Proof.
  intros Hw. unfold save_workflow_status, atry, save_body, open_for_writing.
  now rewrite Hw.
Qed.

Lemma save_workflow_status_returns m w :
  fst (save_workflow_status m w) = Returns tt.
Proof.
  destruct (status_writable w) eqn:Hw.
  - now rewrite save_workflow_status_leaves.
  - now rewrite save_workflow_status_not_writable.
Qed.

(** What is saved does not depend on the store. *)
Lemma save_workflow_status_with_store m w (s : Store) :
  save_workflow_status m (with_store w s)
  = (Returns tt, with_store (snd (save_workflow_status m w)) s).
Proof.
  destruct (status_writable w) eqn:Hw.
  - rewrite !save_workflow_status_leaves by exact Hw. reflexivity.
  - rewrite !save_workflow_status_not_writable by exact Hw. reflexivity.
Qed.

Lemma read_ledger_saved m w :
  NoDup (dict_keys m) -> ledger_roundtrips m -> storable_ledger m ->
  read_ledger (with_status_file w (Some (Document (PDict (status_data_of m []))))) = m.
Proof.
  intros Hnd Hrt Hst.
  erewrite read_ledger_file by reflexivity. now rewrite load_body_saved.
Qed.

(** A document that exceeds a limit of [json.load], and the beginning
    of a document, read as the empty ledger. *)
Lemma read_ledger_excess (j : pyval) w :
  json_excess load_depth j <> None ->
  read_ledger (with_status_file w (Some (Document j))) = [].
Proof.
  intros Hj. erewrite read_ledger_file by reflexivity.
  unfold load_body. cbn [json_load].
  now destruct (json_excess load_depth j).
Qed.

Lemma read_ledger_truncated (j : pyval) w :
  read_ledger (with_status_file w (Some (Truncated j))) = [].
Proof. reflexivity. Qed.

(** A load-mutate-save cycle on a healthy world: the next load yields
    the ledger that was saved, and the world stays healthy. *)
Lemma saved_world m w :
  status_writable w = true ->
  NoDup (dict_keys m) -> ledger_roundtrips m -> storable_ledger m ->
  exists w',
    save_workflow_status m w = (Returns tt, w')
    /\ read_ledger w' = m /\ store w' = store w /\ healthy w'.
Proof.
  intros Hw Hnd Hrt Hst.
  exists (with_status_file w (Some (Document (PDict (status_data_of m []))))).
  rewrite save_workflow_status_writable;
    [|exact Hw
     |apply json_excess_le with load_depth;
      [apply load_below_dump | now apply status_data_excess]].
  pose proof (read_ledger_saved m w Hnd Hrt Hst) as Hread.
  repeat split; try assumption. unfold healthy. now rewrite Hread.
Qed.

(** A save of a ledger with an attribute that is not [storable]: the
    next load yields the empty ledger. *)
Lemma unreadable_world m k d w :
  status_writable w = true ->
  NoDup (dict_keys m) -> In (k, d) m -> ~ storable (metadata d) ->
  exists w',
    save_workflow_status m w = (Returns tt, w')
    /\ read_ledger w' = [] /\ store w' = store w.
Proof.
  intros Hw Hnd Hin Hd. eexists. split; [now apply save_workflow_status_leaves|].
  split; [|reflexivity].
  destruct (json_excess dump_depth (PDict (status_data_of m []))).
  - apply read_ledger_truncated.
  - apply read_ledger_excess. now apply status_data_not_storable with k d.
Qed.

Lemma ledger_roundtrips_set m k d :
  ledger_roundtrips m -> roundtrips (created_at d) -> roundtrips (updated_at d) ->
  ledger_roundtrips (dict_set k d m).
Proof. intros Hm Hc Hu. apply Forall_dict_set; [exact Hm | now split]. Qed.

Lemma ledger_roundtrips_get m k d :
  ledger_roundtrips m -> dict_get k m = Some d ->
  roundtrips (created_at d) /\ roundtrips (updated_at d).
Proof.
  intros Hm. induction Hm as [|[k' d'] m Hx Hm IH]; simpl; [discriminate|].
  destruct (String.eqb k k'); [intros [= <-]; exact Hx | exact IH].
Qed.

(** *** The operations on a healthy world *)

Lemma read_ledger_with_store w (s : Store) : read_ledger (with_store w s) = read_ledger w.
Proof.
  unfold read_ledger, get_workflow_status. simpl. now destruct (status_file w).
Qed.

Lemma healthy_with_store w (s : Store) : healthy w -> healthy (with_store w s).
Proof. unfold healthy. now rewrite read_ledger_with_store. Qed.

Lemma register_document_healthy w filepath metadata now :
  healthy w -> roundtrips now -> storable (metadata_or_empty metadata) ->
  exists w',
    register_document filepath metadata now w = (Returns (path_name filepath), w')
    /\ read_ledger w'
       = dict_set (path_name filepath) (new_document filepath metadata now) (read_ledger w)
    /\ store w' = store w /\ healthy w'.
Proof.
  intros [Hw Hrt] Hnow Hmeta.
  destruct (saved_world
              (dict_set (path_name filepath) (new_document filepath metadata now)
                        (read_ledger w)) w Hw)
    as (w' & Hs & Hr & Hst & Hh).
  - apply NoDup_dict_set, read_ledger_NoDup.
  - now apply ledger_roundtrips_set.
  - apply Forall_dict_set; [apply read_ledger_storable|].
    now apply storable_new_document.
  - exists w'. unfold register_document, abind.
    rewrite get_workflow_status_eq. fold (new_document filepath metadata now).
    rewrite Hs. auto.
Qed.

Lemma transition_state_unknown w filename new_state error_message now :
  dict_get filename (read_ledger w) = None ->
  transition_state filename new_state error_message now w = (Returns false, w).
Proof.
  intros Hg. unfold transition_state, abind.
  now rewrite get_workflow_status_eq, Hg.
Qed.

Lemma transition_state_known w filename new_state error_message now d :
  dict_get filename (read_ledger w) = Some d ->
  healthy w -> roundtrips now ->
  exists w',
    transition_state filename new_state error_message now w = (Returns true, w')
    /\ read_ledger w'
       = dict_set filename (transitioned d new_state error_message now) (read_ledger w)
    /\ store w' = store w /\ healthy w'.
Proof.
  intros Hg [Hw Hrt] Hnow.
  destruct (ledger_roundtrips_get _ _ _ Hrt Hg) as [Hc _].
  destruct (saved_world
              (dict_set filename (transitioned d new_state error_message now)
                        (read_ledger w)) w Hw)
    as (w' & Hs & Hr & Hst & Hh).
  - apply NoDup_dict_set, read_ledger_NoDup.
  - now apply ledger_roundtrips_set.
  - apply Forall_dict_set; [apply read_ledger_storable|].
    apply storable_transitioned.
    apply storable_ledger_get with (read_ledger w) filename;
      [apply read_ledger_storable | exact Hg].
  - exists w'. unfold transition_state, abind.
    rewrite get_workflow_status_eq, Hg.
    fold (transitioned d new_state error_message now).
    rewrite Hs. auto.
Qed.

(** [transition_state] never raises and never touches the store. *)
Lemma transition_state_returns w filename new_state error_message now :
  exists w',
    transition_state filename new_state error_message now w
    = (Returns (dict_mem filename (read_ledger w)), w')
    /\ store w' = store w.
Proof.
  unfold transition_state, abind, dict_mem. rewrite get_workflow_status_eq.
  destruct (dict_get filename (read_ledger w)) as [d|].
  - destruct (status_writable w) eqn:Hw.
    + rewrite save_workflow_status_leaves by exact Hw. eexists. split; reflexivity.
    + rewrite save_workflow_status_not_writable by exact Hw. eexists. split; reflexivity.
  - now exists w.
Qed.

Lemma move_document_no_directory (self : WorkflowManager) w filename
      from_state to_state now :
  state_dirs self from_state = None \/ state_dirs self to_state = None ->
  move_document self filename from_state to_state now w = (Returns false, w).
Proof.
  unfold move_document, atry. intros [-> | ->]; [reflexivity|].
  now destruct (state_dirs self from_state).
Qed.

Lemma move_document_source_missing (self : WorkflowManager) w filename
      from_state to_state now from_dir to_dir :
  state_dirs self from_state = Some from_dir ->
  state_dirs self to_state = Some to_dir ->
  path_exists (store w) (joinpath from_dir filename) = false ->
  move_document self filename from_state to_state now w = (Returns false, w).
Proof.
  unfold move_document, atry. intros -> -> ->. reflexivity.
Qed.

Lemma move_document_relocated (self : WorkflowManager) w filename
      from_state to_state now from_dir to_dir r s' :
  state_dirs self from_state = Some from_dir ->
  state_dirs self to_state = Some to_dir ->
  path_exists (store w) (joinpath from_dir filename) = true ->
  relocate (store w) to_dir (joinpath from_dir filename) (joinpath to_dir filename)
  = (r, s') ->
  move_document self filename from_state to_state now w =
  match r with
  | Returns _ =>
      (Returns true, snd (transition_state filename to_state None now (with_store w s')))
  | Raises e =>
      (Returns false,
       snd (transition_state filename ERROR (Some (str_exn e)) now (with_store w s')))
  end.
Proof.
  unfold move_document, atry, relocate. intros -> -> -> Hrel.
  unfold abind, store_action, ret. simpl negb. cbv iota.
  destruct (mkdir_parents (store w) to_dir) as [[[]|e1] s1].
  - cbn [store with_store]. rewrite Hrel. destruct r as [[]|e2].
    + change (with_store (with_store w s1) s') with (with_store w s').
      destruct (transition_state_returns (with_store w s') filename to_state None now)
        as (w3 & -> & _). reflexivity.
    + change (with_store (with_store w s1) s') with (with_store w s').
      destruct (transition_state_returns (with_store w s') filename ERROR
                                         (Some (str_exn e2)) now)
        as (w3 & -> & _). reflexivity.
  - injection Hrel as <- <-.
    destruct (transition_state_returns (with_store w s1) filename ERROR
                                       (Some (str_exn e1)) now)
      as (w3 & -> & _). reflexivity.
Qed.

Lemma filter_key_absent m k :
  ~ In k (dict_keys m) -> filter (fun item => String.eqb (fst item) k) m = [].
Proof.
  induction m as [|[k' d'] m IH]; simpl; [reflexivity|].
  intros Hn. destruct (String.eqb_spec k' k) as [->|Hne].
  - exfalso. apply Hn. now left.
  - apply IH. intros Hin. apply Hn. now right.
Qed.

(** In a ledger a present key has exactly one item. *)
Lemma filter_key_present m k d :
  NoDup (dict_keys m) -> dict_get k m = Some d ->
  filter (fun item => String.eqb (fst item) k) m = [(k, d)].
Proof.
  induction m as [|[k' d'] m IH]; simpl; [discriminate|].
  intros Hnd. apply NoDup_cons_iff in Hnd as [Hk' Hnd].
  rewrite (String.eqb_sym k' k).
  destruct (String.eqb_spec k k') as [->|Hne].
  - intros [= ->]. now rewrite filter_key_absent.
  - now apply IH.
Qed.

(** *** The claims on the ledger *)

(** C8 (as the code has it).  [get_workflow_status] never raises and
    leaves the world as it is.  It returns the empty mapping when the
    status file does not exist and also whenever reading or converting
    the file raises, whatever the exception: text that is not JSON, a
    JSON value that is not an object, an entry without a required key, an
    unknown state, a timestamp that does not parse.  Only a file whose
    body converts yields that ledger. *)
Theorem get_workflow_status_never_fails w :
  get_workflow_status w = (Returns (read_ledger w), w)
  /\ (status_file w = None -> read_ledger w = [])
  /\ (forall c e, status_file w = Some c -> load_body c = Raises e ->
        read_ledger w = [])
  /\ (forall c m, status_file w = Some c -> load_body c = Returns m ->
        read_ledger w = m)
  /\ (forall text, exists e, load_body (Text text) = Raises e)
  /\ (forall j, (forall items, j <> PDict items) ->
        exists e, load_body (Document j) = Raises e).
Proof.
  split; [apply get_workflow_status_eq|].
  split; [apply read_ledger_no_file|].
  split; [|split; [|split]].
  - intros c e Hc Hl. now rewrite (read_ledger_file _ _ Hc), Hl.
  - intros c m Hc Hl. now rewrite (read_ledger_file _ _ Hc), Hl.
  - intros text. eexists. reflexivity.
  - intros j Hj. unfold load_body. cbn [json_load].
    destruct (json_excess load_depth j); [eexists; reflexivity|].
    destruct j as [|b|z|f|s|l|d]; try (eexists; reflexivity).
    now contradiction (Hj d).
Qed.

(** C9 (as the code has it).  [save_workflow_status] never raises.  When
    the status file can be opened for writing, the file is first emptied
    in place and then receives the serialised mapping: there is no
    temporary file and no rename.  The emptied file, which is what an
    interruption between the two steps leaves, loads as the empty
    ledger.  When a value of the mapping exceeds a limit of [json.dump],
    the write stops there, the exception is swallowed and the file keeps
    the beginning of the document, which loads as the empty ledger too.
    Otherwise the file holds the full mapping; it reads back as the
    mapping when its keys are distinct, its timestamps survive the text
    form and its attributes are within the limits of [json.load], and as
    the empty ledger when something in it exceeds those limits.  When
    the file cannot be opened, nothing is written. *)
Theorem save_workflow_status_in_place m w :
  (status_writable w = true ->
     let document := PDict (status_data_of m []) in
     let emptied := with_status_file w (Some (Text "")) in
     let written := with_status_file w (Some (Document document)) in
     let cut := with_status_file w (Some (Truncated document)) in
     let left := match json_excess dump_depth document with
                 | None => written
                 | Some _ => cut
                 end in
     save_steps m w = [emptied; left]
     /\ save_workflow_status m w = (Returns tt, left)
     /\ save_may_leave m w emptied
     /\ read_ledger emptied = []
     /\ read_ledger cut = []
     /\ (NoDup (dict_keys m) -> ledger_roundtrips m -> storable_ledger m ->
         left = written /\ read_ledger written = m)
     /\ (json_excess load_depth document <> None -> read_ledger left = []))
  /\ (status_writable w = false ->
       save_steps m w = [] /\ save_workflow_status m w = (Returns tt, w)).
Proof.
  split.
  - intros Hw document emptied written cut left.
    assert (Hsteps : save_steps m w = [emptied; left]).
    { unfold save_steps, open_for_writing, json_dump. rewrite Hw.
      unfold left. fold document. now destruct (json_excess dump_depth document). }
    split; [exact Hsteps|].
    split.
    { rewrite save_workflow_status_leaves by exact Hw. unfold left. fold document.
      now destruct (json_excess dump_depth document). }
    split; [right; rewrite Hsteps; now left|].
    split; [reflexivity|]. split; [reflexivity|]. split.
    + intros Hnd Hrt Hst. split; [|now apply read_ledger_saved].
      unfold left.
      rewrite (json_excess_le load_depth dump_depth document load_below_dump);
        [reflexivity | now apply status_data_excess].
    + intros Hexcess. unfold left.
      destruct (json_excess dump_depth document); [reflexivity|].
      now apply read_ledger_excess.
  - intros Hw. split; [|now apply save_workflow_status_not_writable].
    unfold save_steps, open_for_writing. now rewrite Hw.
Qed.

(** C10 (as the code has it).  A ledger never holds a filename twice,
    in whatever world it is loaded, hence after every operation.  On a
    healthy world, and with metadata within the limits of [json],
    [register_document] returns the basename of the path and the next
    load yields the old ledger with the item at that key set to the
    fresh record (state [PENDING], [created_at = updated_at = now]),
    nothing of an earlier record being kept; registering afterwards a
    second path with the same basename leaves exactly one item at that
    key, the second record.  With metadata that exceeds a limit of
    [json], the call returns the basename all the same, but the next
    load yields the empty ledger: the record is not there and the
    earlier ones are lost. *)
Theorem register_document_keeps_one_record w filepath metadata now :
  NoDup (dict_keys (read_ledger w))
  /\ (healthy w -> roundtrips now -> storable (metadata_or_empty metadata) ->
      exists w',
        register_document filepath metadata now w = (Returns (path_name filepath), w')
        /\ healthy w'
        /\ NoDup (dict_keys (read_ledger w'))
        /\ read_ledger w'
           = dict_set (path_name filepath) (new_document filepath metadata now)
                      (read_ledger w)
        /\ dict_get (path_name filepath) (read_ledger w')
           = Some (new_document filepath metadata now)
        /\ current_state (new_document filepath metadata now) = PENDING
        /\ created_at (new_document filepath metadata now) = now
        /\ updated_at (new_document filepath metadata now) = now
        /\ forall filepath2 metadata2 now2,
             path_name filepath2 = path_name filepath -> roundtrips now2 ->
             storable (metadata_or_empty metadata2) ->
             exists w2,
               register_document filepath2 metadata2 now2 w'
               = (Returns (path_name filepath), w2)
               /\ filter (fun item => String.eqb (fst item) (path_name filepath))
                         (read_ledger w2)
                  = [(path_name filepath, new_document filepath2 metadata2 now2)])
  /\ (status_writable w = true -> ~ storable (metadata_or_empty metadata) ->
      exists w',
        register_document filepath metadata now w = (Returns (path_name filepath), w')
        /\ read_ledger w' = []).
Proof.
  split; [apply read_ledger_NoDup|]. split.
  - intros Hh Hnow Hmeta.
    destruct (register_document_healthy w filepath metadata now Hh Hnow Hmeta)
      as (w' & Hreg & Hread & _ & Hh').
    exists w'. split; [exact Hreg|]. split; [exact Hh'|].
    split; [apply read_ledger_NoDup|]. split; [exact Hread|].
    split; [rewrite Hread; apply dict_get_set_same|].
    repeat (split; [reflexivity|]).
    intros filepath2 metadata2 now2 Hname Hnow2 Hmeta2.
    destruct (register_document_healthy w' filepath2 metadata2 now2 Hh' Hnow2 Hmeta2)
      as (w2 & Hreg2 & Hread2 & _ & _).
    rewrite Hname in Hreg2, Hread2.
    exists w2. split; [exact Hreg2|].
    apply filter_key_present; [apply read_ledger_NoDup|].
    rewrite Hread2. apply dict_get_set_same.
  - intros Hw Hmeta.
    destruct (unreadable_world
                (dict_set (path_name filepath) (new_document filepath metadata now)
                          (read_ledger w))
                (path_name filepath) (new_document filepath metadata now) w Hw)
      as (w' & Hs & Hr & _).
    + apply NoDup_dict_set, read_ledger_NoDup.
    + apply dict_get_Some_In, dict_get_set_same.
    + exact Hmeta.
    + exists w'. unfold register_document, abind.
      rewrite get_workflow_status_eq. fold (new_document filepath metadata now).
      rewrite Hs. auto.
Qed.

(** C6 (as the code has it).  [transition_state] returns [False] and
    leaves the world as it is when the filename is not in the ledger.
    When it is, on a healthy world, it returns [True] and the next load
    yields the old ledger with that record's [current_state] set to
    [new_state], its [updated_at] set to the clock and its
    [error_message] set to the argument, whatever [new_state] is: the
    message is cleared exactly when the argument is omitted.  The other
    records are untouched, and a further transition stamps the record
    with the later clock reading, so [updated_at] follows the clock. *)
Theorem transition_state_rewrites_record w filename new_state error_message now :
  (dict_get filename (read_ledger w) = None ->
     transition_state filename new_state error_message now w = (Returns false, w))
  /\ (forall d,
       dict_get filename (read_ledger w) = Some d -> healthy w -> roundtrips now ->
       let d' := transitioned d new_state error_message now in
       exists w',
         transition_state filename new_state error_message now w = (Returns true, w')
         /\ healthy w'
         /\ read_ledger w' = dict_set filename d' (read_ledger w)
         /\ dict_get filename (read_ledger w') = Some d'
         /\ (forall other, other <> filename ->
               dict_get other (read_ledger w') = dict_get other (read_ledger w))
         /\ current_state d' = new_state
         /\ updated_at d' = now
         /\ Workflow.error_message d' = py_of_optional_str error_message
         /\ (Workflow.error_message d' = PNone <-> error_message = None)
         /\ forall state2 message2 now2,
              roundtrips now2 ->
              exists w2 d2,
                transition_state filename state2 message2 now2 w' = (Returns true, w2)
                /\ dict_get filename (read_ledger w2) = Some d2
                /\ current_state d2 = state2
                /\ updated_at d2 = now2
                /\ (instant now <= instant now2 ->
                      instant (updated_at d') <= instant (updated_at d2))).
Proof.
  split; [apply transition_state_unknown|].
  intros d Hg Hh Hnow d'.
  destruct (transition_state_known w filename new_state error_message now d Hg Hh Hnow)
    as (w' & Htr & Hread & _ & Hh').
  fold d' in Hread.
  assert (Hg' : dict_get filename (read_ledger w') = Some d').
  { rewrite Hread. apply dict_get_set_same. }
  exists w'. split; [exact Htr|]. split; [exact Hh'|]. split; [exact Hread|].
  split; [exact Hg'|].
  split; [intros other Hne; rewrite Hread; apply dict_get_set_other; congruence|].
  repeat (split; [reflexivity|]).
  split; [destruct error_message; simpl; split; congruence|].
  intros state2 message2 now2 Hnow2.
  destruct (transition_state_known w' filename state2 message2 now2 d' Hg' Hh' Hnow2)
    as (w2 & Htr2 & Hread2 & _ & _).
  exists w2, (transitioned d' state2 message2 now2).
  split; [exact Htr2|].
  split; [rewrite Hread2; apply dict_get_set_same|].
  repeat (split; [reflexivity|]). simpl. tauto.
Qed.

(** C1 (as the code has it).  [move_document] never raises, and it
    returns [True] exactly when the file was relocated.  When a state has
    no directory or the source file is not there, it returns [False] and
    leaves the world, the ledger with it, as it is.  When the relocation
    itself raises, it returns [False] and, on a healthy world with the
    filename in the ledger, the record goes to [ERROR] with the
    exception's text as message; when the relocation succeeds the record
    goes to [to_state] with the message cleared. *)
Theorem move_document_outcomes (self : WorkflowManager) w filename
        from_state to_state now :
  (state_dirs self from_state = None \/ state_dirs self to_state = None ->
     move_document self filename from_state to_state now w = (Returns false, w))
  /\ forall from_dir to_dir,
       state_dirs self from_state = Some from_dir ->
       state_dirs self to_state = Some to_dir ->
       let from_path := joinpath from_dir filename in
       let to_path := joinpath to_dir filename in
       (path_exists (store w) from_path = false ->
          move_document self filename from_state to_state now w = (Returns false, w))
       /\ (path_exists (store w) from_path = true ->
           forall r s',
             relocate (store w) to_dir from_path to_path = (r, s') ->
             exists w',
               move_document self filename from_state to_state now w
               = (Returns (returned r), w')
               /\ store w' = s'
               /\ forall d,
                    dict_get filename (read_ledger w) = Some d ->
                    healthy w -> roundtrips now ->
                    dict_get filename (read_ledger w')
                    = Some match r with
                           | Returns _ => transitioned d to_state None now
                           | Raises e => transitioned d ERROR (Some (str_exn e)) now
                           end).
Proof.
  split; [apply move_document_no_directory|].
  intros from_dir to_dir Hfrom Hto from_path to_path.
  split; [now apply move_document_source_missing with (to_dir := to_dir)|].
  intros Hex r s' Hrel.
  rewrite (move_document_relocated self w filename from_state to_state now
             from_dir to_dir r s' Hfrom Hto Hex Hrel).
  assert (Hrec : forall st msg,
             exists w',
               snd (transition_state filename st msg now (with_store w s')) = w'
               /\ store w' = s'
               /\ forall d, dict_get filename (read_ledger w) = Some d ->
                    healthy w -> roundtrips now ->
                    dict_get filename (read_ledger w')
                    = Some (transitioned d st msg now)).
  { intros st msg. eexists. split; [reflexivity|]. split.
    - destruct (transition_state_returns (with_store w s') filename st msg now)
        as (w3 & -> & Hs). exact Hs.
    - intros d Hg Hh Hnow.
      destruct (transition_state_known (with_store w s') filename st msg now d)
        as (w3 & -> & Hread & _ & _); auto using healthy_with_store.
      + now rewrite read_ledger_with_store.
      + simpl. rewrite Hread. apply dict_get_set_same. }
  destruct r as [[]|e]; simpl returned.
  - destruct (Hrec to_state None) as (w' & <- & Hs & Hd). eauto.
  - destruct (Hrec ERROR (Some (str_exn e))) as (w' & <- & Hs & Hd). eauto.
Qed.

Lemma state_eqb_eq (a b : WorkflowState) : state_eqb a b = true <-> a = b.
Proof. destruct a, b; simpl; split; (reflexivity || discriminate). Qed.

(** C7 (as the code has it).  [list_documents_by_state] returns exactly
    the records whose state is [state], in the order the ledger holds
    them, not sorted.  [get_next_documents_for_processing] sorts those
    records by [created_at], oldest first, keeps the ledger order among
    records created at the same instant (no tie-break by filename), and
    returns the [filename] fields of the first [limit] of them; this
    holds when the timestamps are all naive or all aware.  Both leave
    the world as it is. *)
Theorem documents_by_state_ordering w state limit :
  let documents :=
    filter (fun doc => state_eqb (current_state doc) state)
           (dict_values (read_ledger w)) in
  list_documents_by_state state w = (Returns documents, w)
  /\ (forall d, In d documents <->
                 In d (dict_values (read_ledger w)) /\ current_state d = state)
  /\ forall flag,
       Forall (fun d => naive (created_at d) = flag) documents ->
       exists sorted,
         get_next_documents_for_processing state limit w
         = (Returns (map Workflow.filename (slice_to limit sorted)), w)
         /\ Permutation documents sorted
         /\ StronglySorted
              (fun a b => instant (created_at a) <= instant (created_at b)) sorted
         /\ forall t,
              filter (fun d => instant (created_at d) =? t) sorted
              = filter (fun d => instant (created_at d) =? t) documents.
Proof.
  intros documents.
  assert (Hlist : list_documents_by_state state w = (Returns documents, w)).
  { unfold list_documents_by_state, abind. now rewrite get_workflow_status_eq. }
  split; [exact Hlist|]. split.
  - intros d. unfold documents. rewrite filter_In, state_eqb_eq. tauto.
  - intros flag Huniform.
    destruct (sort_by_key_sorted DocumentInfo created_at flag documents Huniform)
      as (sorted & Hsort & Hperm & Hsorted & Hstable).
    exists sorted. split; [|auto].
    unfold get_next_documents_for_processing, abind, lift.
    now rewrite Hlist, Hsort.
Qed.

End Facts.
End WorkflowFacts.

(** ** The theorems at the sample data *)

Module Examples.
Import Py DataModels Workflow Ref Samples ValidatorFacts WorkflowFacts.

(** *** The validator *)

(** [create_sample_grant_data()] has a principal investigator: validating
    it raises. *)
Lemma sample_grant_data_raises :
  (exists m, principal_investigator create_sample_grant_data = Some m)
  /\ validate create_sample_grant_data
     = Raises (AttributeError "'TeamMember' object has no attribute 'value'").
Proof.
  split; [eexists; reflexivity|].
  exact (validate_raises_with_investigator create_sample_grant_data _ eq_refl).
Defined.

(** The sample record without its investigator validates; the only flag
    is the missing investigator, and the verdict follows. *)
Lemma sample_review_verdict :
  exists fl,
    validate sample_without_investigator = Returns fl
    /\ missing_required_fields fl = ["principal_investigator"%string]
    /\ (needs_human_review fl = true <->
          missing_required_fields fl <> []
          \/ inconsistent_dates fl <> []
          \/ budget_calculation_errors fl <> []
          \/ (2 < List.length (suspicious_values fl))%nat).
Proof.
  eexists. split; [vm_compute; reflexivity|]. split; [reflexivity|].
  apply (needs_human_review_iff sample_without_investigator).
  vm_compute. reflexivity.
Defined.

(** A [grant_id] of three spaces is not reported missing. *)
Lemma whitespace_grant_id_not_reported :
  value (field (PStr "   ") HIGH) = PStr "   "
  /\ exists fl,
       validate whitespace_grant_id = Returns fl
       /\ missing_required_fields fl
          = ["grant_name"; "funding_agency"; "award_amount";
             "principal_investigator"]%string
       /\ existsb (String.eqb "grant_id") (missing_required_fields fl) = false.
Proof.
  split; [reflexivity|]. eexists. split; [vm_compute; reflexivity|].
  split; reflexivity.
Qed.

Lemma whitespace_grant_id_required_fields :
  principal_investigator whitespace_grant_id = None
  /\ blank (grant_id whitespace_grant_id) = false
  /\ exists fl,
       validate whitespace_grant_id = Returns fl
       /\ (In "funding_agency"%string (missing_required_fields fl) <->
           ("funding_agency" = "grant_id" /\ blank (grant_id whitespace_grant_id) = true)
           \/ ("funding_agency" = "grant_name"
               /\ blank (grant_name whitespace_grant_id) = true)
           \/ ("funding_agency" = "funding_agency"
               /\ blank (funding_agency whitespace_grant_id) = true)
           \/ ("funding_agency" = "award_amount"
               /\ blank (award_amount whitespace_grant_id) = true)
           \/ "funding_agency" = "principal_investigator")%string.
Proof.
  split; [reflexivity|]. split; [reflexivity|].
  eexists. split; [vm_compute; reflexivity|].
  destruct (missing_required_fields_exact whitespace_grant_id eq_refl)
    as (_ & _ & Hexact).
  apply (Hexact eq_refl eq_refl eq_refl eq_refl).
  vm_compute. reflexivity.
Defined.

(** An award amount of 0 raises no suspicious-value flag, while -5 and
    the string ["0"] do. *)
Lemma zero_award_amount_skipped :
  award_amount zero_award_amount = Some (field (PInt 0) HIGH)
  /\ check_award_amount zero_award_amount = Returns [].
Proof.
  split; [reflexivity|].
  exact (proj1 (zero_award_amount_not_flagged zero_award_amount
                  (field (PInt 0) HIGH) eq_refl eq_refl)).
Defined.

Lemma negative_award_amount_flagged :
  check_award_amount (with_award_amount empty_grant_data (field (PInt (-5)) HIGH))
  = Returns [MSG_ZERO_OR_NEGATIVE]
  /\ check_award_amount (with_award_amount empty_grant_data (field (PStr "0") HIGH))
     = Returns [MSG_ZERO_OR_NEGATIVE]
  /\ check_award_amount (with_award_amount empty_grant_data (field (PInt 60000000) HIGH))
     = Returns [MSG_UNUSUALLY_HIGH].
Proof. repeat split; vm_compute; reflexivity. Qed.

(** The amount -5 is flagged once, as zero or negative. *)
Lemma negative_award_amount_flagged_once :
  check_award_amount (with_award_amount empty_grant_data (field (PInt (-5)) HIGH))
  = Returns [MSG_ZERO_OR_NEGATIVE]
  /\ ([MSG_ZERO_OR_NEGATIVE] = [] \/ [MSG_ZERO_OR_NEGATIVE] = [MSG_ZERO_OR_NEGATIVE]
      \/ [MSG_ZERO_OR_NEGATIVE] = [MSG_UNUSUALLY_HIGH]
      \/ [MSG_ZERO_OR_NEGATIVE] = [MSG_NOT_A_NUMBER]).
Proof.
  split; [vm_compute; reflexivity|].
  apply (check_award_amount_shape
           (with_award_amount empty_grant_data (field (PInt (-5)) HIGH))).
  vm_compute. reflexivity.
Defined.

(** The flags of the sample record without its investigator ask for
    review. *)
Lemma sample_flags_ask_for_review :
  exists fl,
    validate sample_without_investigator = Returns fl
    /\ principal_investigator sample_without_investigator = None
    /\ In "principal_investigator"%string (missing_required_fields fl)
    /\ needs_human_review fl = true.
Proof.
  eexists. split; [vm_compute; reflexivity|].
  apply (returned_flags_ask_for_review sample_without_investigator).
  vm_compute. reflexivity.
Defined.

(** Three more inputs on which [validate] raises: dates that are not
    strings, a naive date against an aware one, an integer beyond the
    range of floats.  A budget component that is a list is skipped, and
    the mismatch of 10000 against 8000 is flagged with both figures. *)
Lemma other_uncaught_exceptions :
  validate integer_dates = Raises (TypeError "fromisoformat: argument must be str")
  /\ validate mixed_dates
     = Raises (TypeError "can't compare offset-naive and offset-aware datetimes")
  /\ validate huge_award_amount
     = Raises (OverflowError "int too large to convert to float").
Proof. repeat split; vm_compute; reflexivity. Qed.

Lemma list_valued_budget_component_skipped :
  check_budget (budget budget_with_list)
  = Returns ["Budget total (10000.0) doesn't match sum of components (8000.0)"%string]
  /\ returned (validate budget_with_list) = true.
Proof. split; vm_compute; reflexivity. Qed.

(** *** The ledger *)

(** The two hypotheses on the environment, decided by running the codec. *)
Ltac roundtrip_by_evaluation := unfold roundtrips; vm_compute; reflexivity.

Ltac healthy_by_evaluation :=
  split;
  [ reflexivity
  | unfold ledger_roundtrips;
    match goal with
    | |- Forall ?P ?l => let l' := eval vm_compute in l in change (Forall P l')
    end;
    repeat (apply Forall_cons; [split; roundtrip_by_evaluation|]);
    apply Forall_nil ].

Lemma sample_worlds_healthy :
  healthy empty_world /\ healthy world_registered /\ healthy world_locked
  /\ healthy world_reregistered.
Proof. split; [|split; [|split]]; healthy_by_evaluation. Qed.

Lemma clock_readings_roundtrip : roundtrips t0900 /\ roundtrips t1000 /\ roundtrips t1100.
Proof. split; [|split]; roundtrip_by_evaluation. Qed.

(** A file missing from [intake/pending], or a target state without
    directory: the move fails and the record stays [PENDING], without
    message. *)
Lemma failed_move_keeps_state :
  move_document manager "a.pdf" PENDING PROCESSING t1000 world_registered
  = (Returns false, world_registered)
  /\ move_document manager "a.pdf" PENDING COMPLETED t1000 world_registered
     = (Returns false, world_registered)
  /\ dict_get "a.pdf" (read_ledger world_registered) = Some doc_a
  /\ current_state doc_a = PENDING
  /\ Workflow.error_message doc_a = PNone.
Proof. repeat split; vm_compute; reflexivity. Qed.

(** A relocation that raises: the record goes to [ERROR] with the
    exception's text. *)
Lemma locked_store_move_recorded :
  exists w',
    move_document manager "a.pdf" PENDING PROCESSING t1000 world_locked
    = (Returns false, w')
    /\ dict_get "a.pdf" (read_ledger w')
       = Some (transitioned doc_a ERROR (Some "[Errno 13] Permission denied"%string) t1000).
Proof.
  destruct (move_document_outcomes manager world_locked "a.pdf" PENDING PROCESSING t1000)
    as [_ Hdirs].
  destruct (Hdirs _ _ eq_refl eq_refl) as [_ Hmove].
  destruct (Hmove eq_refl _ _ eq_refl) as (w' & Hres & _ & Hrec).
  exists w'. split; [exact Hres|].
  apply (Hrec doc_a); [reflexivity | healthy_by_evaluation | roundtrip_by_evaluation].
Defined.

(** A relocation that succeeds: the file is in [intake/processing] and
    the record in [PROCESSING]. *)
Lemma successful_move_recorded :
  exists w',
    move_document manager "a.pdf" PENDING PROCESSING t1000 world_ready
    = (Returns true, w')
    /\ files (store w') = ["./intake/processing/a.pdf"%string]
    /\ dict_get "a.pdf" (read_ledger w')
       = Some (transitioned doc_a PROCESSING None t1000).
Proof.
  eexists. split; [vm_compute; reflexivity|].
  split; vm_compute; reflexivity.
Qed.

(** A message passed along with a state other than [ERROR] is kept. *)
Lemma message_kept_outside_error :
  exists w' d,
    transition_state "a.pdf" PROCESSING (Some "bad format"%string) t1000 world_registered
    = (Returns true, w')
    /\ dict_get "a.pdf" (read_ledger w') = Some d
    /\ current_state d = PROCESSING
    /\ Workflow.error_message d = PStr "bad format".
Proof.
  do 2 eexists.
  split; [vm_compute; reflexivity|].
  split; [vm_compute; reflexivity|].
  split; reflexivity.
Qed.

Lemma transition_of_registered_document :
  exists w',
    transition_state "a.pdf" PROCESSING None t1000 world_registered = (Returns true, w')
    /\ dict_get "a.pdf" (read_ledger w')
       = Some (transitioned doc_a PROCESSING None t1000)
    /\ transition_state "b.pdf" PROCESSING None t1000 world_registered
       = (Returns false, world_registered).
Proof.
  destruct (transition_state_rewrites_record world_registered "a.pdf" PROCESSING None t1000)
    as [_ Hknown].
  destruct (Hknown doc_a) as (w' & Htr & _ & _ & Hget & _);
    [reflexivity | healthy_by_evaluation | roundtrip_by_evaluation |].
  exists w'. split; [exact Htr|]. split; [exact Hget|].
  exact (proj1 (transition_state_rewrites_record world_registered "b.pdf"
                  PROCESSING None t1000) eq_refl).
Defined.

(** After a re-registration the ledger lists the newer record first, and
    records created at the same instant come out in ledger order, [b.pdf]
    before [a.pdf]. *)
Lemma ledger_order_not_creation_order :
  fst (list_documents_by_state PENDING world_reregistered)
  = Returns [new_document "intake/pending/a.pdf" None t1100;
             new_document "intake/pending/b.pdf" None t1000]
  /\ instant t1000 < instant t1100
  /\ fst (list_documents_by_state PENDING world_tie)
     = Returns [new_document "intake/pending/b.pdf" None t0900;
                new_document "intake/pending/a.pdf" None t0900]
  /\ fst (get_next_documents_for_processing PENDING 10 world_tie)
     = Returns [PStr "b.pdf"; PStr "a.pdf"].
Proof. repeat split; vm_compute; reflexivity. Qed.

Lemma next_documents_of_reregistered :
  exists sorted,
    get_next_documents_for_processing PENDING 10 world_reregistered
    = (Returns (map Workflow.filename (slice_to 10 sorted)), world_reregistered)
    /\ StronglySorted
         (fun a b => instant (created_at a) <= instant (created_at b)) sorted.
Proof.
  destruct (documents_by_state_ordering world_reregistered PENDING 10)
    as (_ & _ & Hnext).
  destruct (Hnext true) as (sorted & Hres & _ & Hsorted & _);
    [vm_compute; repeat constructor|].
  exists sorted. split; [exact Hres | exact Hsorted].
Defined.

(** A status file that is not JSON loads as the empty ledger. *)
Lemma corrupt_status_file_loads_empty :
  load_body (Text "{ not json") = Raises (JSONDecodeError "Expecting value")
  /\ get_workflow_status world_corrupt = (Returns [], world_corrupt).
Proof. split; reflexivity. Qed.

Lemma corrupt_status_file_read :
  status_file world_corrupt = Some (Text "{ not json")
  /\ read_ledger world_corrupt = [].
Proof.
  split; [reflexivity|].
  destruct (get_workflow_status_never_fails world_corrupt) as (_ & _ & Hraise & _).
  exact (Hraise _ _ eq_refl eq_refl).
Defined.

(** A save interrupted after the file was opened leaves it empty: the
    one record the file held and the two being saved are gone. *)
Lemma interrupted_save_truncates :
  exists w1,
    save_may_leave (read_ledger world_reregistered) world_registered w1
    /\ status_file w1 = Some (Text "")
    /\ read_ledger w1 = []
    /\ List.length (read_ledger world_registered) = 1%nat
    /\ List.length (read_ledger world_reregistered) = 2%nat.
Proof.
  eexists. split; [right; left; reflexivity|].
  split; [reflexivity|]. split; [reflexivity|].
  split; vm_compute; reflexivity.
Qed.

Lemma save_of_two_records :
  save_workflow_status (read_ledger world_reregistered) world_registered
  = (Returns tt, world_of (status_file world_reregistered) [] false)
  /\ status_writable world_registered = true.
Proof.
  split; [|reflexivity].
  destruct (save_workflow_status_in_place (read_ledger world_reregistered) world_registered)
    as [Hwritable _].
  destruct (Hwritable eq_refl) as (_ & Hsave & _).
  rewrite Hsave. vm_compute. reflexivity.
Defined.

(** Registering [a.pdf] in a fresh repository. *)
Lemma first_registration :
  exists w',
    register_document "intake/pending/a.pdf" None t0900 empty_world
    = (Returns "a.pdf"%string, w')
    /\ read_ledger w' = [("a.pdf"%string, doc_a)].
Proof.
  destruct (register_document_keeps_one_record empty_world "intake/pending/a.pdf"
              None t0900) as (_ & Hreg & _).
  destruct Hreg as (w' & Hres & _ & _ & Hread & _);
    [healthy_by_evaluation | roundtrip_by_evaluation | vm_compute; reflexivity |].
  exists w'. split; [exact Hres|].
  rewrite Hread. vm_compute. reflexivity.
Defined.

(** Registering [b.pdf] with a number of 4301 digits in its metadata,
    after [a.pdf]: the call returns the name, the status file keeps the
    beginning of the document, and the next load finds no record at
    all, the one of [a.pdf] included. *)
Lemma oversized_metadata_loses_ledger :
  let metadata := PDict [("n"%string, PInt (10 ^ 4300))] in
  exists w',
    register_document "intake/pending/b.pdf" (Some metadata) t1000 world_registered
    = (Returns "b.pdf"%string, w')
    /\ read_ledger world_registered = [("a.pdf"%string, doc_a)]
    /\ read_ledger w' = []
    /\ get_document_info "b.pdf" w' = (Returns None, w')
    /\ get_document_info "a.pdf" w' = (Returns None, w').
Proof.
  intros metadata. eexists. split; [vm_compute; reflexivity|].
  repeat split; vm_compute; reflexivity.
Qed.

End Examples.

(** ** The remaining operations of the workflow manager *)

Module WorkflowMoreFacts.
Import Py PyFacts Workflow WorkflowFacts WorkflowMore.

(** *** More on dictionaries *)

Section DictMore.
Variable V : Type.
Implicit Types (d : dict V) (k : string) (v : V).

Lemma dict_get_In d k v : NoDup (dict_keys d) -> In (k, v) d -> dict_get k d = Some v.
Proof.
  induction d as [|[k' v'] d IH]; simpl; [intros _ []|].
  intros Hnd [Heq|Hin].
  - injection Heq as -> ->. now rewrite String.eqb_refl.
  - apply NoDup_cons_iff in Hnd as [Hk' Hnd].
    destruct (String.eqb_spec k k') as [->|Hne].
    + exfalso. apply Hk'. change k' with (fst (k', v)). now apply in_map.
    + now apply IH.
Qed.

Lemma dict_keys_set_fresh d k v :
  dict_get k d = None -> dict_keys (dict_set k v d) = dict_keys d ++ [k].
Proof.
  intros Hg. rewrite dict_set_fresh by exact Hg.
  unfold dict_keys. now rewrite map_app.
Qed.

Lemma dict_get_key_In d k v : dict_get k d = Some v -> In k (dict_keys d).
Proof.
  intros Hg. apply dict_get_Some_In in Hg.
  change k with (fst (k, v)). now apply in_map.
Qed.

Lemma dict_key_In_get d k : In k (dict_keys d) -> exists v, dict_get k d = Some v.
Proof.
  intros Hin. destruct (dict_get k d) as [v|] eqn:E; [now exists v|].
  now apply dict_get_None_iff in E.
Qed.

End DictMore.

Section Facts.
Context {limits : JsonLimits} `{IsoCodec} {Store : Type} `{StoreOps Store}.
Implicit Types (w : @World Store) (m : Ledger) (d : DocumentInfo).

(** *** The file-backed ledger as a dictionary *)

Lemma perform_refines (c : call) w :
  healthy w -> roundtrips (call_time c) -> call_storable c ->
  healthy (perform c w)
  /\ read_ledger (perform c w) = apply_call c (read_ledger w)
  /\ store (perform c w) = store w.
Proof.
  intros Hh Hnow Hfits. destruct c as [filepath metadata now | filename st msg now];
    simpl in Hnow, Hfits |- *.
  - destruct (register_document_healthy w filepath metadata now Hh Hnow Hfits)
      as (w' & -> & Hread & Hst & Hh'). simpl. auto.
  - destruct (dict_get filename (read_ledger w)) as [d|] eqn:Hg.
    + destruct (transition_state_known w filename st msg now d Hg Hh Hnow)
        as (w' & -> & Hread & Hst & Hh'). simpl. auto.
    + rewrite (transition_state_unknown w filename st msg now Hg). simpl. auto.
Qed.

Lemma perform_all_refines (calls : list call) : forall w,
  healthy w -> Forall (fun c => roundtrips (call_time c)) calls ->
  Forall call_storable calls ->
  healthy (perform_all calls w)
  /\ read_ledger (perform_all calls w) = apply_calls calls (read_ledger w)
  /\ store (perform_all calls w) = store w.
Proof.
  induction calls as [|c calls IH]; intros w Hh Hall Hfit; simpl.
  - auto.
  - inversion Hall as [|? ? Hc Hrest]; subst.
    inversion Hfit as [|? ? Hf Hfrest]; subst.
    destruct (perform_refines c w Hh Hc Hf) as (Hh1 & Hr1 & Hs1).
    destruct (IH (perform c w) Hh1 Hrest Hfrest) as (Hh2 & Hr2 & Hs2).
    unfold perform_all, apply_calls in *. simpl.
    rewrite Hr2, Hr1, Hs2, Hs1. auto.
Qed.

(** *** Consistency of keys and [filename] attributes *)

Lemma consistent_get m k d :
  consistent m -> dict_get k m = Some d -> Workflow.filename d = PStr k.
Proof.
  intros Hc Hg. apply dict_get_Some_In in Hg.
  unfold consistent in Hc. rewrite Forall_forall in Hc.
  exact (Hc (k, d) Hg).
Qed.

Lemma consistent_set m k d :
  consistent m -> Workflow.filename d = PStr k -> consistent (dict_set k d m).
Proof. intros Hc Hd. now apply Forall_dict_set. Qed.

Lemma apply_call_consistent (c : call) m :
  consistent m -> consistent (apply_call c m).
Proof.
  intros Hc. destruct c as [filepath metadata now | filename st msg now]; simpl.
  - now apply consistent_set.
  - destruct (dict_get filename m) as [d|] eqn:Hg; [|exact Hc].
    apply consistent_set; [exact Hc|]. simpl. now apply consistent_get with (m := m).
Qed.

Lemma apply_calls_consistent (calls : list call) : forall m,
  consistent m -> consistent (apply_calls calls m).
Proof.
  induction calls as [|c calls IH]; intros m Hc; simpl; [exact Hc|].
  apply IH. now apply apply_call_consistent.
Qed.

(** *** What a call leaves alone *)

Lemma apply_call_other (c : call) m name :
  registers name c = false -> transitions name c = false ->
  dict_get name (apply_call c m) = dict_get name m.
Proof.
  destruct c as [filepath metadata now | filename st msg now]; simpl; intros Hr Ht.
  - apply dict_get_set_other. intros Heq. rewrite Heq, String.eqb_refl in Hr.
    discriminate.
  - destruct (dict_get filename m); [|reflexivity].
    apply dict_get_set_other. intros Heq. rewrite Heq, String.eqb_refl in Ht.
    discriminate.
Qed.

Lemma apply_call_transition (c : call) m name d :
  transitions name c = true -> dict_get name m = Some d ->
  exists st msg now,
    c = Transition name st msg now
    /\ dict_get name (apply_call c m) = Some (transitioned d st msg now).
Proof.
  destruct c as [filepath metadata now | filename st msg now]; simpl;
    [discriminate|].
  intros Ht Hg. apply String.eqb_eq in Ht. subst filename.
  exists st, msg, now. rewrite Hg. split; [reflexivity|]. apply dict_get_set_same.
Qed.

Lemma apply_calls_keep_origin (calls : list call) name : forall m d,
  Forall (fun c => registers name c = false) calls ->
  dict_get name m = Some d ->
  exists d', dict_get name (apply_calls calls m) = Some d' /\ same_origin d d'.
Proof.
  induction calls as [|c calls IH]; intros m d Hall Hg; simpl.
  - exists d. unfold same_origin. auto.
  - inversion Hall as [|? ? Hc Hrest]; subst.
    destruct (transitions name c) eqn:Ht.
    + destruct (apply_call_transition c m name d Ht Hg)
        as (st & msg & now & -> & Hg').
      destruct (IH _ _ Hrest Hg') as (d' & Hd' & Ho).
      exists d'. split; [exact Hd'|]. unfold same_origin in *. simpl in Ho. exact Ho.
    + rewrite <- (apply_call_other c m name Hc Ht) in Hg.
      exact (IH _ _ Hrest Hg).
Qed.

Lemma apply_calls_untouched (calls : list call) name : forall m,
  Forall (fun c => registers name c = false) calls ->
  Forall (fun c => transitions name c = false) calls ->
  dict_get name (apply_calls calls m) = dict_get name m.
Proof.
  induction calls as [|c calls IH]; intros m Hr Ht; simpl; [reflexivity|].
  inversion Hr; inversion Ht; subst.
  rewrite IH by assumption. now apply apply_call_other.
Qed.

Lemma apply_call_keys_transition m filename st msg now :
  dict_keys (apply_call (Transition filename st msg now) m) = dict_keys m.
Proof.
  simpl. destruct (dict_get filename m) as [d|] eqn:Hg; [|reflexivity].
  now apply dict_keys_set_present with (v0 := d).
Qed.

(** *** [get_document_info] after a history of calls *)

Lemma get_document_info_eq w name :
  get_document_info name w = (Returns (dict_get name (read_ledger w)), w).
Proof. unfold get_document_info, abind. now rewrite get_workflow_status_eq. Qed.

Lemma apply_calls_app (calls calls' : list call) m :
  apply_calls (calls ++ calls') m = apply_calls calls' (apply_calls calls m).
Proof. unfold apply_calls. apply fold_left_app. Qed.

(** X2.  A status file that can be written, with timestamps that survive
    [isoformat]/[fromisoformat], behaves as a dictionary held in memory
    as long as the metadata of the registrations are within the limits
    of [json]: after any sequence of such [register_document] and of
    [transition_state] calls, loading the file yields the dictionary
    obtained by applying the same updates in memory.  The file stays in
    that good condition, the document store is not touched, and a
    ledger in which every record carries its key as [filename] stays
    so. *)
Theorem status_file_behaves_as_dictionary (calls : list call) w :
  healthy w -> Forall (fun c => roundtrips (call_time c)) calls ->
  Forall call_storable calls ->
  read_ledger (perform_all calls w) = apply_calls calls (read_ledger w)
  /\ healthy (perform_all calls w)
  /\ store (perform_all calls w) = store w
  /\ NoDup (dict_keys (read_ledger (perform_all calls w)))
  /\ (consistent (read_ledger w) -> consistent (read_ledger (perform_all calls w))).
Proof.
  intros Hh Hall Hfit.
  destruct (perform_all_refines calls w Hh Hall Hfit) as (Hh' & Hread & Hst).
  split; [exact Hread|]. split; [exact Hh'|]. split; [exact Hst|].
  split; [apply read_ledger_NoDup|].
  intros Hc. rewrite Hread. now apply apply_calls_consistent.
Qed.

(** X3.  The record [get_document_info] returns for a document
    registered at [t0] with metadata within the limits of [json], after
    any later calls that do not register the same name again and whose
    metadata are within those limits too: [filename], [original_path],
    [created_at] and
    [metadata] are those of the registration; without a transition of
    the document the record is the registered one; otherwise
    [current_state], [updated_at] and [error_message] are those of the
    last transition of the document.  Calls about other documents do
    not matter. *)
Theorem document_info_after_history w filepath metadata t0 (rest : list call) :
  healthy w -> roundtrips t0 -> storable (metadata_or_empty metadata) ->
  Forall (fun c => roundtrips (call_time c)) rest ->
  Forall call_storable rest ->
  Forall (fun c => registers (path_name filepath) c = false) rest ->
  exists d,
    get_document_info (path_name filepath)
      (perform_all (Register filepath metadata t0 :: rest) w)
    = (Returns (Some d), perform_all (Register filepath metadata t0 :: rest) w)
    /\ same_origin (new_document filepath metadata t0) d
    /\ (Forall (fun c => transitions (path_name filepath) c = false) rest ->
        d = new_document filepath metadata t0)
    /\ (forall before st msg now later,
          rest = before ++ Transition (path_name filepath) st msg now :: later ->
          Forall (fun c => transitions (path_name filepath) c = false) later ->
          current_state d = st /\ updated_at d = now
          /\ Workflow.error_message d = py_of_optional_str msg).
Proof.
  intros Hh Ht0 Hmeta Htimes Hfit Hreg.
  set (name := path_name filepath) in *.
  set (calls := Register filepath metadata t0 :: rest).
  assert (Hall : Forall (fun c => roundtrips (call_time c)) calls)
    by (constructor; assumption).
  assert (Hfits : Forall call_storable calls) by (constructor; assumption).
  destruct (perform_all_refines calls w Hh Hall Hfits) as (_ & Hread & _).
  set (m1 := dict_set name (new_document filepath metadata t0) (read_ledger w)).
  assert (Hm : read_ledger (perform_all calls w) = apply_calls rest m1) by exact Hread.
  assert (Hg1 : dict_get name m1 = Some (new_document filepath metadata t0))
    by apply dict_get_set_same.
  destruct (apply_calls_keep_origin rest name m1 _ Hreg Hg1) as (d & Hd & Ho).
  exists d. rewrite get_document_info_eq, Hm, Hd.
  split; [reflexivity|]. split; [exact Ho|]. split.
  - intros Hnone.
    rewrite (apply_calls_untouched rest name m1 Hreg Hnone), Hg1 in Hd.
    now injection Hd.
  - intros before st msg now later -> Hlater.
    apply Forall_app in Hreg as [Hreg1 Hreg2].
    inversion Hreg2 as [|? ? _ Hreg3]; subst.
    destruct (apply_calls_keep_origin before name m1 _ Hreg1 Hg1) as (d1 & Hd1 & _).
    rewrite apply_calls_app in Hd. change (Transition name st msg now :: later)
      with ([Transition name st msg now] ++ later) in Hd.
    rewrite apply_calls_app in Hd.
    rewrite (apply_calls_untouched later name _ Hreg3 Hlater) in Hd.
    unfold apply_calls in Hd at 1. cbn [fold_left apply_call] in Hd.
    fold (apply_calls before m1) in Hd. rewrite Hd1 in Hd.
    rewrite dict_get_set_same in Hd. injection Hd as <-. simpl. auto.
Qed.

(** *** [move_document] as a transition *)

Lemma move_document_as_calls (self : WorkflowManager) w filename
      from_state to_state now :
  exists b s' calls,
    move_document self filename from_state to_state now w
    = (Returns b, perform_all calls (with_store w s'))
    /\ (calls = []
        \/ exists st msg, calls = [Transition filename st msg now]).
Proof.
  destruct (state_dirs self from_state) as [from_dir|] eqn:Hfrom;
    [destruct (state_dirs self to_state) as [to_dir|] eqn:Hto|].
  - destruct (path_exists (store w) (joinpath from_dir filename)) eqn:Hex.
    + destruct (relocate (store w) to_dir (joinpath from_dir filename)
                         (joinpath to_dir filename)) as [r s'] eqn:Hrel.
      rewrite (move_document_relocated self w filename from_state to_state now
                 from_dir to_dir r s' Hfrom Hto Hex Hrel).
      destruct r as [[]|e].
      * exists true, s', [Transition filename to_state None now].
        split; [reflexivity|]. right. eauto.
      * exists false, s', [Transition filename ERROR (Some (str_exn e)) now].
        split; [reflexivity|]. right. eauto.
    + rewrite (move_document_source_missing self w filename from_state to_state now
                 from_dir to_dir Hfrom Hto Hex).
      exists false, (store w), []. split; [now destruct w|]. now left.
  - rewrite (move_document_no_directory self w filename from_state to_state now)
      by now right.
    exists false, (store w), []. split; [now destruct w|]. now left.
  - rewrite (move_document_no_directory self w filename from_state to_state now)
      by now left.
    exists false, (store w), []. split; [now destruct w|]. now left.
Qed.

(** X4.  On a status file in good condition, and for a [filename] that
    names a document of a state directory (a single path component, so
    that the move cannot reach the status file), [move_document] never
    raises and, whatever happens to the file, it changes the ledger at
    most in the record of [filename]: no record is added, removed or
    moved to another position, every other record stays as it is, the
    record of [filename] keeps its [filename], [original_path],
    [created_at] and [metadata], and an unregistered [filename] leaves
    the ledger as it is. *)
Theorem move_document_changes_one_record (self : WorkflowManager) w filename
        from_state to_state now :
  document_name filename -> healthy w -> roundtrips now ->
  exists b w',
    move_document self filename from_state to_state now w = (Returns b, w')
    /\ healthy w'
    /\ dict_keys (read_ledger w') = dict_keys (read_ledger w)
    /\ (forall other, other <> filename ->
          dict_get other (read_ledger w') = dict_get other (read_ledger w))
    /\ (forall d, dict_get filename (read_ledger w) = Some d ->
          exists d', dict_get filename (read_ledger w') = Some d' /\ same_origin d d')
    /\ (dict_get filename (read_ledger w) = None -> read_ledger w' = read_ledger w)
    /\ (consistent (read_ledger w) -> consistent (read_ledger w')).
Proof.
  intros _ Hh Hnow.
  destruct (move_document_as_calls self w filename from_state to_state now)
    as (b & s' & calls & Hmove & Hcalls).
  exists b, (perform_all calls (with_store w s')). split; [exact Hmove|].
  assert (Hh1 : healthy (with_store w s')) by now apply healthy_with_store.
  assert (Hall : Forall (fun c => roundtrips (call_time c)) calls).
  { destruct Hcalls as [->|(st & msg & ->)]; repeat constructor. exact Hnow. }
  assert (Hfit : Forall call_storable calls).
  { destruct Hcalls as [->|(st & msg & ->)]; repeat constructor. }
  destruct (perform_all_refines calls _ Hh1 Hall Hfit) as (Hh' & Hread & _).
  rewrite read_ledger_with_store in Hread. rewrite Hread.
  split; [exact Hh'|].
  destruct Hcalls as [->|(st & msg & ->)].
  - simpl. repeat split; auto. intros d Hd. exists d. unfold same_origin. auto.
  - unfold apply_calls. cbn [fold_left].
    split; [apply apply_call_keys_transition|]. split; [|split; [|split]].
    + intros other Hne. apply apply_call_other; simpl; [reflexivity|].
      apply String.eqb_neq. congruence.
    + intros d Hd. simpl. rewrite Hd. rewrite dict_get_set_same.
      eexists. split; [reflexivity|]. unfold same_origin. simpl. auto.
    + intros Hnone. simpl. now rewrite Hnone.
    + apply apply_call_consistent.
Qed.

(** X5.  When the status file cannot be opened for writing, the three
    operations that record something still report what they report on
    success ([register_document] the name, [transition_state] whether
    the document is known, [move_document] whether the file was moved),
    but the status file is left as it was: nothing of the call is
    recorded, and no exception tells the caller.  For [move_document]
    this is said of a [filename] that names a document of a state
    directory: through a [..] component the move can reach the status
    file itself, which a rename takes away even when it cannot be
    written. *)
Theorem unwritable_status_file_goes_unnoticed (self : WorkflowManager) w filepath
        metadata filename new_state error_message from_state to_state now :
  status_writable w = false ->
  register_document filepath metadata now w = (Returns (path_name filepath), w)
  /\ transition_state filename new_state error_message now w
     = (Returns (dict_mem filename (read_ledger w)), w)
  /\ (document_name filename ->
      exists b w',
        move_document self filename from_state to_state now w = (Returns b, w')
        /\ status_file w' = status_file w
        /\ read_ledger w' = read_ledger w).
Proof.
  intros Hro.
  assert (Htrans : forall s st msg (w0 : @World Store),
             status_writable w0 = false ->
             transition_state s st msg now w0
             = (Returns (dict_mem s (read_ledger w0)), w0)).
  { intros s st msg w0 Hw0. unfold transition_state, abind, dict_mem.
    rewrite get_workflow_status_eq.
    destruct (dict_get s (read_ledger w0)); [|reflexivity].
    now rewrite save_workflow_status_not_writable. }
  split; [|split].
  - unfold register_document, abind. rewrite get_workflow_status_eq.
    now rewrite save_workflow_status_not_writable.
  - now apply Htrans.
  - intros _.
    destruct (move_document_as_calls self w filename from_state to_state now)
      as (b & s' & calls & Hmove & Hcalls).
    exists b, (perform_all calls (with_store w s')). split; [exact Hmove|].
    assert (Hsame : perform_all calls (with_store w s') = with_store w s').
    { destruct Hcalls as [->|(st & msg & ->)]; [reflexivity|].
      unfold perform_all. cbn [fold_left perform].
      now rewrite Htrans. }
    rewrite Hsame. split; [reflexivity|]. apply read_ledger_with_store.
Qed.

(** *** [cleanup_error_documents] *)

Lemma filter_values (P : DocumentInfo -> bool) m :
  filter P (dict_values m) = map snd (filter (fun item => P (snd item)) m).
Proof.
  induction m as [|[k d] m IH]; simpl; [reflexivity|].
  destruct (P d); simpl; now rewrite IH.
Qed.

Lemma NoDup_keys_filter (P : string * DocumentInfo -> bool) m :
  NoDup (dict_keys m) -> NoDup (dict_keys (filter P m)).
Proof.
  induction m as [|[k d] m IH]; simpl; [auto|].
  intros Hnd. apply NoDup_cons_iff in Hnd as [Hk Hnd].
  destruct (P (k, d)); simpl; [|now apply IH].
  constructor; [|now apply IH].
  intros Hin. apply Hk. unfold dict_keys in *.
  apply in_map_iff in Hin as (item & <- & Hin). apply filter_In in Hin as [Hin _].
  now apply in_map.
Qed.

Lemma filter_none (A : Type) (P : A -> bool) (xs : list A) :
  (forall x, In x xs -> P x = false) -> filter P xs = [].
Proof.
  induction xs as [|x xs IH]; simpl; [reflexivity|].
  intros Hall. rewrite (Hall x) by now left. apply IH. intros y Hy. apply Hall. now right.
Qed.

Lemma cleanup_loop_calls (clock : nat -> datetime) items : forall k w,
  consistent items ->
  cleanup_loop (map snd items) clock k w
  = (Returns tt, perform_all (retry_calls items clock k) w).
Proof.
  induction items as [|[name d] items IH]; intros k w Hc; [reflexivity|].
  inversion Hc as [|? ? Hd Hrest]; subst. simpl in Hd.
  cbn [map snd cleanup_loop retry_calls fst]. unfold abind. rewrite Hd.
  cbn [transition_state_any].
  destruct (transition_state_returns w name PENDING None (clock k)) as (w1 & Hw1 & _).
  unfold perform_all. cbn [fold_left perform]. rewrite Hw1. cbn [snd].
  apply IH. exact Hrest.
Qed.

Lemma retry_calls_times (clock : nat -> datetime) items : forall k,
  (forall i, roundtrips (clock i)) ->
  Forall (fun c => roundtrips (call_time c)) (retry_calls items clock k).
Proof.
  induction items as [|item items IH]; intros k Hclock; simpl; constructor.
  - apply Hclock.
  - now apply IH.
Qed.

Lemma retry_calls_storable (clock : nat -> datetime) items : forall k,
  Forall call_storable (retry_calls items clock k).
Proof.
  induction items as [|item items IH]; intros k; simpl; constructor.
  - exact I.
  - apply IH.
Qed.

Lemma apply_retry_calls (clock : nat -> datetime) items : forall k m,
  NoDup (dict_keys items) ->
  Forall (fun item => dict_get (fst item) m = Some (snd item)) items ->
  dict_keys (apply_calls (retry_calls items clock k) m) = dict_keys m
  /\ (forall name, ~ In name (dict_keys items) ->
        dict_get name (apply_calls (retry_calls items clock k) m) = dict_get name m)
  /\ (forall i name d, nth_error items i = Some (name, d) ->
        dict_get name (apply_calls (retry_calls items clock k) m)
        = Some (transitioned d PENDING None (clock (k + i)%nat))).
Proof.
  induction items as [|[n d0] items IH]; intros k m Hnd Hget.
  - simpl. repeat split; auto. intros [|i] name d; discriminate.
  - cbn [dict_keys map fst] in Hnd. apply NoDup_cons_iff in Hnd as [Hn Hnd].
    inversion Hget as [|? ? Hg0 Hrest]; subst. cbn [fst snd] in Hg0.
    cbn [retry_calls fst]. unfold apply_calls. cbn [fold_left].
    fold (apply_calls (retry_calls items clock (S k))
            (apply_call (Transition n PENDING None (clock k)) m)).
    set (m1 := apply_call (Transition n PENDING None (clock k)) m).
    assert (Hm1 : m1 = dict_set n (transitioned d0 PENDING None (clock k)) m).
    { unfold m1. simpl. now rewrite Hg0. }
    assert (Hrest1 : Forall (fun item => dict_get (fst item) m1 = Some (snd item)) items).
    { rewrite Forall_forall in Hrest |- *. intros [n' d'] Hin. cbn [fst snd].
      rewrite Hm1, dict_get_set_other; [exact (Hrest _ Hin)|].
      intros ->. apply Hn. change n' with (fst (n', d')). now apply in_map. }
    destruct (IH (S k) m1 Hnd Hrest1) as (Hkeys & Hother & Hnth).
    split; [|split].
    + rewrite Hkeys. apply apply_call_keys_transition.
    + intros name Hname. rewrite Hother.
      * rewrite Hm1. apply dict_get_set_other. intros ->. apply Hname. now left.
      * intros Hin. apply Hname. now right.
    + intros [|i] name d Hi.
      * injection Hi as -> ->. rewrite Hother by exact Hn.
        rewrite Hm1, dict_get_set_same. now rewrite Nat.add_0_r.
      * simpl in Hi. rewrite (Hnth i name d Hi). now rewrite Nat.add_succ_r.
Qed.

(** X6.  [cleanup_error_documents] on a status file in good condition
    whose records carry their keys as [filename]: it never raises; it
    leaves the document store, the set and the order of the records as
    they are; a record that was not in [ERROR] is untouched; the record
    that [list_documents_by_state ERROR] listed at position [i] is set
    to [PENDING] with its message cleared and [updated_at] the clock
    reading of the transition numbered [i]; afterwards no record is in
    [ERROR], so that running it again changes nothing. *)
Theorem cleanup_error_documents_retries_all (clock : nat -> datetime) w :
  healthy w -> consistent (read_ledger w) -> (forall i, roundtrips (clock i)) ->
  exists w',
    cleanup_error_documents clock w = (Returns tt, w')
    /\ healthy w' /\ consistent (read_ledger w') /\ store w' = store w
    /\ dict_keys (read_ledger w') = dict_keys (read_ledger w)
    /\ (forall name d,
          dict_get name (read_ledger w) = Some d -> current_state d <> ERROR ->
          dict_get name (read_ledger w') = Some d)
    /\ (forall name d,
          dict_get name (read_ledger w) = Some d -> current_state d = ERROR ->
          exists i error_docs,
            list_documents_by_state ERROR w = (Returns error_docs, w)
            /\ nth_error error_docs i = Some d
            /\ dict_get name (read_ledger w')
               = Some (transitioned d PENDING None (clock i)))
    /\ list_documents_by_state ERROR w' = (Returns [], w')
    /\ forall clock', cleanup_error_documents clock' w' = (Returns tt, w').
Proof.
  intros Hh Hc Hclock.
  set (m := read_ledger w) in *.
  set (items := filter in_error m).
  assert (Hlist : list_documents_by_state ERROR w = (Returns (map snd items), w)).
  { unfold list_documents_by_state, abind. rewrite get_workflow_status_eq.
    unfold ret. fold m. now rewrite filter_values. }
  assert (Hnd : NoDup (dict_keys m)) by apply read_ledger_NoDup.
  assert (Hci : consistent items).
  { unfold consistent in *. rewrite Forall_forall in Hc |- *.
    intros item Hin. apply Hc. now apply filter_In in Hin as [Hin _]. }
  assert (Hndi : NoDup (dict_keys items)) by now apply NoDup_keys_filter.
  assert (Hgi : Forall (fun item => dict_get (fst item) m = Some (snd item)) items).
  { rewrite Forall_forall. intros [n d] Hin. apply filter_In in Hin as [Hin _].
    now apply dict_get_In. }
  set (calls := retry_calls items clock 0).
  destruct (perform_all_refines calls w Hh (retry_calls_times clock items 0 Hclock)
              (retry_calls_storable clock items 0))
    as (Hh' & Hread & Hst).
  destruct (apply_retry_calls clock items 0 m Hndi Hgi) as (Hkeys & Hother & Hnth).
  fold calls in Hkeys, Hother, Hnth. fold m in Hread.
  set (w' := perform_all calls w) in *.
  assert (Hrun : cleanup_error_documents clock w = (Returns tt, w')).
  { unfold cleanup_error_documents, abind. rewrite Hlist.
    now apply cleanup_loop_calls. }
  assert (Hkept : forall name d, dict_get name m = Some d -> current_state d <> ERROR ->
                                 dict_get name (read_ledger w') = Some d).
  { intros name d Hg Hst'. rewrite Hread, Hother; [exact Hg|].
    intros Hin. unfold dict_keys in Hin.
    apply in_map_iff in Hin as ([n d'] & Hn & Hin). simpl in Hn. subst n.
    apply filter_In in Hin as [Hin Herr].
    rewrite (dict_get_In _ m name d' Hnd Hin) in Hg. injection Hg as ->.
    apply Hst'. now apply state_eqb_eq. }
  assert (Hreset : forall name d, dict_get name m = Some d -> current_state d = ERROR ->
             exists i, nth_error (map snd items) i = Some d
                       /\ dict_get name (read_ledger w')
                          = Some (transitioned d PENDING None (clock i))).
  { intros name d Hg Hst'.
    assert (Hin : In (name, d) items).
    { apply filter_In. split; [now apply dict_get_Some_In|].
      unfold in_error. simpl. now apply state_eqb_eq. }
    apply In_nth_error in Hin as (i & Hi). exists i. split.
    - now rewrite (map_nth_error snd i items Hi).
    - rewrite Hread. exact (Hnth i name d Hi). }
  assert (Hnone : list_documents_by_state ERROR w' = (Returns [], w')).
  { unfold list_documents_by_state, abind. rewrite get_workflow_status_eq.
    unfold ret. f_equal. f_equal. apply filter_none.
    intros d' Hin. unfold dict_values in Hin.
    apply in_map_iff in Hin as ([name d''] & Hd & Hin). simpl in Hd. subst d''.
    assert (Hg' : dict_get name (read_ledger w') = Some d')
      by (apply dict_get_In; [apply read_ledger_NoDup | exact Hin]).
    assert (Hk : In name (dict_keys m)).
    { rewrite <- Hkeys, <- Hread. now apply dict_get_key_In with (v := d'). }
    apply dict_key_In_get in Hk as (d & Hg).
    destruct (state_eqb (current_state d) ERROR) eqn:Hs.
    - apply state_eqb_eq in Hs.
      destruct (Hreset name d Hg Hs) as (i & _ & Hg2).
      rewrite Hg2 in Hg'. injection Hg' as <-. reflexivity.
    - assert (Hne : current_state d <> ERROR).
      { intros Heq. apply state_eqb_eq in Heq. congruence. }
      rewrite (Hkept name d Hg Hne) in Hg'. injection Hg' as <-. exact Hs. }
  exists w'. split; [exact Hrun|]. split; [exact Hh'|].
  split; [rewrite Hread; now apply apply_calls_consistent|].
  split; [exact Hst|]. split; [now rewrite Hread|].
  split; [exact Hkept|]. split; [|split; [exact Hnone|]].
  - intros name d Hg Hs. destruct (Hreset name d Hg Hs) as (i & Hi & Hg').
    exists i, (map snd items). auto.
  - intros clock'. unfold cleanup_error_documents, abind. now rewrite Hnone.
Qed.

(** *** The limits of [get_next_documents_for_processing] *)

Lemma dt_lt_mixed (a b : datetime) :
  naive a <> naive b ->
  dt_lt a b = Raises (TypeError "can't compare offset-naive and offset-aware datetimes").
Proof.
  unfold dt_lt, dt_compare, naive.
  destruct (utcoffset a), (utcoffset b); intros Hne; (reflexivity || now elim Hne).
Qed.

Lemma sort_by_key_mixed (A : Type) (key : A -> datetime) (xs : list A) :
  (exists flag, Forall (fun x => naive (key x) = flag) xs)
  \/ sort_by_key key xs
     = Raises (TypeError "can't compare offset-naive and offset-aware datetimes").
Proof.
  induction xs as [|x xs IH].
  - left. exists true. constructor.
  - destruct IH as [[flag Hu]|Hraise].
    + destruct (Bool.bool_dec (naive (key x)) flag) as [Hx|Hx].
      * left. exists flag. now constructor.
      * destruct (sort_by_key_sorted A key flag xs Hu) as (ys & Hsort & Hperm & _).
        destruct ys as [|y ys].
        -- apply Permutation_sym, Permutation_nil in Hperm. subst xs.
           left. exists (naive (key x)). repeat constructor.
        -- right. simpl. rewrite Hsort. cbn [bind insert_by_key].
           rewrite dt_lt_mixed; [reflexivity|].
           assert (Hy : naive (key y) = flag).
           { apply (Permutation_Forall Hperm) in Hu. now inversion Hu. }
           congruence.
    + right. simpl. now rewrite Hraise.
Qed.

Lemma slice_to_length (A : Type) (limit : Z) (xs : list A) :
  Z.of_nat (List.length (slice_to limit xs))
  = if 0 <=? limit then Z.min limit (Z.of_nat (List.length xs))
    else Z.max 0 (Z.of_nat (List.length xs) + limit).
Proof.
  unfold slice_to. destruct (0 <=? limit) eqn:Hl; rewrite length_firstn.
  - apply Z.leb_le in Hl. lia.
  - apply Z.leb_gt in Hl. lia.
Qed.

Lemma firstn_subset (A : Type) (k : nat) (xs : list A) (x : A) :
  In x (firstn k xs) -> In x xs.
Proof.
  intros Hin. rewrite <- (firstn_skipn k xs). apply in_or_app. now left.
Qed.

Lemma slice_to_all (A : Type) (limit : Z) (xs : list A) :
  Z.of_nat (List.length xs) <= limit -> slice_to limit xs = xs.
Proof.
  intros Hl. unfold slice_to.
  destruct (0 <=? limit) eqn:Hpos; [|apply Z.leb_gt in Hpos; lia].
  apply firstn_all2. lia.
Qed.

(** X7.  [get_next_documents_for_processing] returns exactly when the
    [created_at] of the documents in the state are all naive or all
    aware, and raises [TypeError] otherwise, whatever the limit; it
    never changes anything.  When it returns [names]: with a limit of 0
    or more there are [min(limit, n)] of them, [n] being the number of
    documents in the state; a negative limit does not fail but leaves
    out the last [-limit] documents; every name is the [filename] of a
    document in the state; and a limit of [n] or more returns all of
    them. *)
Theorem next_documents_limits w state limit :
  let documents :=
    filter (fun doc => state_eqb (current_state doc) state)
           (dict_values (read_ledger w)) in
  let n := Z.of_nat (List.length documents) in
  ((exists d1 d2, In d1 documents /\ In d2 documents
                  /\ naive (created_at d1) <> naive (created_at d2)) ->
   get_next_documents_for_processing state limit w
   = (Raises (TypeError "can't compare offset-naive and offset-aware datetimes"), w))
  /\ ((forall d1 d2, In d1 documents -> In d2 documents ->
                     naive (created_at d1) = naive (created_at d2)) ->
      exists names,
        get_next_documents_for_processing state limit w = (Returns names, w)
        /\ Z.of_nat (List.length names)
           = (if 0 <=? limit then Z.min limit n else Z.max 0 (n + limit))
        /\ (forall name, In name names ->
              exists d, In d documents /\ Workflow.filename d = name)
        /\ (n <= limit -> Permutation (map Workflow.filename documents) names)).
Proof.
  intros documents n.
  assert (Hlist : list_documents_by_state state w = (Returns documents, w)).
  { unfold list_documents_by_state, abind. now rewrite get_workflow_status_eq. }
  split.
  - intros (d1 & d2 & H1 & H2 & Hne).
    unfold get_next_documents_for_processing, abind, lift. rewrite Hlist.
    destruct (sort_by_key_mixed DocumentInfo created_at documents)
      as [[flag Hu]|Hraise]; [|now rewrite Hraise].
    rewrite Forall_forall in Hu. elim Hne. now rewrite (Hu d1 H1), (Hu d2 H2).
  - intros Hsame.
    assert (Hu : exists flag, Forall (fun d => naive (created_at d) = flag) documents).
    { destruct documents as [|d0 ds] eqn:Hdocs.
      - exists true. constructor.
      - exists (naive (created_at d0)). rewrite Forall_forall.
        intros d Hd. apply Hsame; [exact Hd | now left]. }
    destruct Hu as [flag Hu].
    destruct (sort_by_key_sorted DocumentInfo created_at flag documents Hu)
      as (sorted & Hsort & Hperm & _).
    exists (map Workflow.filename (slice_to limit sorted)).
    split; [|split; [|split]].
    + unfold get_next_documents_for_processing, abind, lift.
      now rewrite Hlist, Hsort.
    + rewrite length_map, slice_to_length. unfold n.
      now rewrite (Permutation_length Hperm).
    + intros name Hin. apply in_map_iff in Hin as (d & Hd & Hin).
      exists d. split; [|exact Hd].
      apply (Permutation_in d (Permutation_sym Hperm)).
      unfold slice_to in Hin.
      destruct (0 <=? limit); eapply firstn_subset; exact Hin.
    + intros Hall. rewrite slice_to_all.
      * now apply Permutation_map.
      * rewrite <- (Permutation_length Hperm). exact Hall.
Qed.

End Facts.
End WorkflowMoreFacts.

(** ** The remaining operations at the sample data *)

Module MoreExamples.
Import Py PyFacts Workflow WorkflowFacts Ref Samples Examples.
Import WorkflowMore WorkflowMoreFacts MoreSamples.

Ltac call_times_by_evaluation :=
  repeat (apply Forall_cons; [cbv beta; roundtrip_by_evaluation|]); apply Forall_nil.

Ltac calls_storable_by_evaluation :=
  repeat (apply Forall_cons; [first [exact I | vm_compute; reflexivity]|]);
  apply Forall_nil.

Ltac consistent_by_evaluation :=
  unfold consistent;
  match goal with
  | |- Forall ?P ?l => let l' := eval vm_compute in l in change (Forall P l')
  end;
  repeat (apply Forall_cons; [reflexivity|]); apply Forall_nil.

(** The sample history on the status file and in memory. *)
Lemma history_on_status_file :
  read_ledger world_failed = apply_calls registration_and_history []
  /\ healthy world_failed
  /\ consistent (read_ledger world_failed).
Proof.
  destruct (status_file_behaves_as_dictionary registration_and_history empty_world)
    as (Hread & Hh & _ & _ & Hc).
  - healthy_by_evaluation.
  - unfold registration_and_history, history. call_times_by_evaluation.
  - unfold registration_and_history, history. calls_storable_by_evaluation.
  - split; [exact Hread|]. split; [exact Hh|]. apply Hc. apply Forall_nil.
Defined.


(** What [get_document_info] returns for [a.pdf] after the sample
    history. *)
Lemma failed_document_info :
  exists d,
    get_document_info "a.pdf" world_failed = (Returns (Some d), world_failed)
    /\ created_at d = t0900
    /\ current_state d = ERROR
    /\ updated_at d = t1100
    /\ Workflow.error_message d = PStr "Failed to extract text".
Proof.
  destruct (document_info_after_history empty_world "intake/pending/a.pdf" None
              t0900 history)
    as (d & Hinfo & (_ & _ & Hc & _) & _ & Hlast).
  - healthy_by_evaluation.
  - roundtrip_by_evaluation.
  - vm_compute. reflexivity.
  - unfold history. call_times_by_evaluation.
  - unfold history. calls_storable_by_evaluation.
  - unfold history. repeat (apply Forall_cons; [reflexivity|]). apply Forall_nil.
  - exists d. split; [exact Hinfo|]. split; [exact Hc|].
    apply (Hlast [Transition "a.pdf" PROCESSING None t1000;
                  Register "intake/pending/b.pdf" None t1000]%string
                 ERROR (Some "Failed to extract text"%string) t1100
                 [Transition "b.pdf" PROCESSING None t1100]%string).
    + reflexivity.
    + repeat (apply Forall_cons; [reflexivity|]). apply Forall_nil.
Defined.

(** A successful move rewrites the record of the document in place. *)
Lemma moved_document_keeps_origin :
  exists b w',
    move_document manager "a.pdf" PENDING PROCESSING t1000 world_ready
    = (Returns b, w')
    /\ dict_keys (read_ledger w') = ["a.pdf"%string]
    /\ exists d', dict_get "a.pdf" (read_ledger w') = Some d' /\ same_origin doc_a d'.
Proof.
  destruct (move_document_changes_one_record manager world_ready "a.pdf"
              PENDING PROCESSING t1000)
    as (b & w' & Hmove & _ & Hkeys & _ & Hrec & _).
  - split; [reflexivity | split; discriminate].
  - healthy_by_evaluation.
  - roundtrip_by_evaluation.
  - exists b, w'. split; [exact Hmove|]. split.
    + rewrite Hkeys. vm_compute. reflexivity.
    + apply Hrec. vm_compute. reflexivity.
Defined.

(** A status file that cannot be written: the transition of [a.pdf]
    reports success and the registration of [b.pdf] returns its name,
    with nothing recorded. *)
Lemma read_only_calls_report_success :
  transition_state "a.pdf" COMPLETED None t1000 world_read_only
  = (Returns true, world_read_only)
  /\ register_document "intake/pending/b.pdf" None t1000 world_read_only
     = (Returns "b.pdf"%string, world_read_only).
Proof.
  destruct (unwritable_status_file_goes_unnoticed manager world_read_only
              "intake/pending/b.pdf" None "a.pdf" COMPLETED None PENDING PROCESSING
              t1000 eq_refl)
    as (Hreg & Htr & _).
  split.
  - rewrite Htr. vm_compute. reflexivity.
  - rewrite Hreg. vm_compute. reflexivity.
Defined.

(** The cleanup after the sample history: [a.pdf] is pending again. *)
Lemma failed_document_retried :
  exists w',
    cleanup_error_documents (fun _ => t1100) world_failed = (Returns tt, w')
    /\ dict_keys (read_ledger w') = ["a.pdf"; "b.pdf"]%string
    /\ dict_get "a.pdf" (read_ledger w')
       = Some (transitioned doc_a_failed PENDING None t1100)
    /\ list_documents_by_state ERROR w' = (Returns [], w').
Proof.
  destruct (cleanup_error_documents_retries_all (fun _ => t1100) world_failed)
    as (w' & Hrun & _ & _ & _ & Hkeys & _ & Hreset & Hnone & _).
  - healthy_by_evaluation.
  - consistent_by_evaluation.
  - intros i. roundtrip_by_evaluation.
  - exists w'. split; [exact Hrun|]. split; [|split; [|exact Hnone]].
    + rewrite Hkeys. vm_compute. reflexivity.
    + destruct (Hreset "a.pdf"%string doc_a_failed) as (i & docs & _ & _ & Hrec).
      * vm_compute. reflexivity.
      * reflexivity.
      * exact Hrec.
Defined.

(** A negative limit leaves out the newest pending document; a ledger
    that mixes naive and aware [created_at] makes the call raise. *)
Lemma negative_limit_and_mixed_timestamps :
  (exists names,
     get_next_documents_for_processing PENDING (-1) world_reregistered
     = (Returns names, world_reregistered)
     /\ Z.of_nat (List.length names) = 1)
  /\ get_next_documents_for_processing PENDING 10 world_mixed
     = (Raises (TypeError "can't compare offset-naive and offset-aware datetimes"),
        world_mixed).
Proof.
  split.
  - destruct (next_documents_limits world_reregistered PENDING (-1)) as [_ Hret].
    destruct Hret as (names & Hnext & Hlen & _).
    + match goal with
      | |- forall d1 d2, In d1 ?l -> _ =>
          let l' := eval vm_compute in l in change l with l'
      end.
      intros d1 d2 [<-|[<-|[]]] [<-|[<-|[]]]; reflexivity.
    + exists names. split; [exact Hnext|]. rewrite Hlen. vm_compute. reflexivity.
  - destruct (next_documents_limits world_mixed PENDING 10) as [Hraise _].
    apply Hraise. exists doc_a, doc_b_aware.
    split; [vm_compute; left; reflexivity|].
    split; [vm_compute; right; left; reflexivity|].
    vm_compute. discriminate.
Defined.

End MoreExamples.

(** ** More on the validator *)

Module ValidatorMoreFacts.
Import Py DataModels ValidatorFacts ValidatorMore.

Section Facts.
Context `{FloatText} `{IsoCodec}.

(** *** What the blocks can raise *)

Lemma float_of_int_raises (z : Z) (e : exn) :
  float_of_int z = Raises e -> e = OverflowError MSG_TOO_LARGE.
Proof.
  unfold float_of_int.
  match goal with |- context [if ?c then Raises _ else _] => destruct c end;
    [intros [= <-]; reflexivity | discriminate].
Qed.

Lemma py_float_raises (v : pyval) (e : exn) :
  py_float v = Raises e ->
  is_ValueError e || is_TypeError e = true \/ e = OverflowError MSG_TOO_LARGE.
Proof.
  destruct v as [|b|z|f|s|l|d]; cbn [py_float]; try discriminate.
  - intros [= <-]. now left.
  - intros Hz. right. now apply float_of_int_raises with (z := z).
  - destruct (float_of_string s); [discriminate|]. intros [= <-]. now left.
  - intros [= <-]. now left.
  - intros [= <-]. now left.
Qed.

Lemma sum_components_raises (b : BudgetSummary) (names : list string) (e : exn) :
  forall acc, sum_components b names acc = Raises e -> e = OverflowError MSG_TOO_LARGE.
Proof.
  induction names as [|field_name names IH]; intros acc; cbn [sum_components];
    [discriminate|].
  destruct (budget_getattr b field_name) as [f|]; [|apply IH].
  destruct (truthy (value f)); [|apply IH].
  destruct (py_float (value f)) as [x|e0] eqn:Hf; cbn [bind try_except].
  - apply IH.
  - destruct (py_float_raises _ _ Hf) as [Hcaught| ->].
    + unfold except_ValueError_TypeError. rewrite Hcaught. cbn [bind]. apply IH.
    + cbn. intros [= <-]. reflexivity.
Qed.

Lemma check_budget_raises (b : BudgetSummary) (e : exn) :
  check_budget b = Raises e -> e = OverflowError MSG_TOO_LARGE.
Proof.
  unfold check_budget. destruct (total b) as [t|]; [|discriminate].
  destruct (truthy (value t)); [|discriminate].
  destruct (py_float (value t)) as [x|e0] eqn:Hf; cbn [bind try_except].
  - destruct (sum_components b BUDGET_COMPONENTS (NInt 0)) as [c|e1] eqn:Hs;
      cbn [bind try_except]; [discriminate|].
    rewrite (sum_components_raises _ _ _ _ Hs). cbn. intros [= <-]. reflexivity.
  - destruct (py_float_raises _ _ Hf) as [Hcaught| ->].
    + unfold except_ValueError_TypeError. rewrite Hcaught. discriminate.
    + cbn. intros [= <-]. reflexivity.
Qed.

Lemma check_award_amount_raises (g : GrantData) (e : exn) :
  check_award_amount g = Raises e -> e = OverflowError MSG_TOO_LARGE.
Proof.
  unfold check_award_amount. destruct (award_amount g) as [a|]; [|discriminate].
  destruct (truthy (value a)); [|discriminate].
  destruct (py_float (value a)) as [x|e0] eqn:Hf; cbn [bind try_except].
  - discriminate.
  - destruct (py_float_raises _ _ Hf) as [Hcaught| ->].
    + unfold except_ValueError_TypeError. rewrite Hcaught. discriminate.
    + cbn. intros [= <-]. reflexivity.
Qed.

Lemma py_fromisoformat_raises (v : pyval) (e : exn) :
  py_fromisoformat v = Raises e ->
  is_ValueError e = true \/ e = TypeError MSG_NOT_STR.
Proof.
  destruct v as [|b|z|f|s|l|d]; cbn [py_fromisoformat];
    try (intros [= <-]; now right).
  destruct (fromisoformat s); [discriminate|]. intros [= <-]. now left.
Qed.

Lemma dt_ge_uniform (a b : datetime) :
  naive a = naive b -> dt_ge a b = Returns (instant a >=? instant b).
Proof.
  unfold dt_ge, dt_compare, naive, instant.
  destruct (utcoffset a), (utcoffset b); (discriminate || reflexivity).
Qed.

Lemma dt_ge_mixed (a b : datetime) :
  naive a <> naive b -> dt_ge a b = Raises (TypeError MSG_NAIVE_AWARE).
Proof.
  unfold dt_ge, dt_compare, naive.
  destruct (utcoffset a), (utcoffset b); intros Hne; (reflexivity || now elim Hne).
Qed.

Lemma check_dates_raises (t : Timeline) (e : exn) :
  check_dates t = Raises e ->
  e = TypeError MSG_NOT_STR \/ e = TypeError MSG_NAIVE_AWARE.
Proof.
  unfold check_dates.
  destruct (project_start_date t) as [s|]; [|discriminate].
  destruct (project_end_date t) as [d|]; [|discriminate].
  destruct (truthy (value s) && truthy (value d)); [|discriminate].
  destruct (py_fromisoformat (value s)) as [ds|e0] eqn:Hs; cbn [bind try_except].
  - destruct (py_fromisoformat (value d)) as [de|e1] eqn:Hd; cbn [bind try_except].
    + destruct (Bool.bool_dec (naive ds) (naive de)) as [Hu|Hm].
      * rewrite (dt_ge_uniform _ _ Hu). discriminate.
      * rewrite (dt_ge_mixed _ _ Hm). cbn. intros [= <-]. now right.
    + destruct (py_fromisoformat_raises _ _ Hd) as [Hcaught| ->].
      * unfold except_ValueError. rewrite Hcaught. discriminate.
      * cbn. intros [= <-]. now left.
  - destruct (py_fromisoformat_raises _ _ Hs) as [Hcaught| ->].
    + unfold except_ValueError. rewrite Hcaught. discriminate.
    + cbn. intros [= <-]. now left.
Qed.

(** X9.  The exceptions of [validate]: with a principal investigator it
    raises [AttributeError]; without one, the only exceptions are the
    [TypeError] of [fromisoformat] on a date that is not a string, the
    [TypeError] of comparing a naive with an aware date, and the
    [OverflowError] of converting an integer beyond the range of floats.
    A conversion that fails with [ValueError] is always turned into a
    flag: [validate] never raises [ValueError]. *)
Theorem validate_exceptions (g : GrantData) (e : exn) :
  validate g = Raises e ->
  is_ValueError e = false
  /\ ((exists m, principal_investigator g = Some m
                 /\ e = AttributeError "'TeamMember' object has no attribute 'value'")
      \/ (principal_investigator g = None
          /\ check_dates (timeline g) = Raises e
          /\ (e = TypeError MSG_NOT_STR \/ e = TypeError MSG_NAIVE_AWARE))
      \/ (principal_investigator g = None
          /\ e = OverflowError MSG_TOO_LARGE
          /\ (check_budget (budget g) = Raises e
              \/ check_award_amount g = Raises e))).
Proof.
  unfold validate. destruct (principal_investigator g) as [m|] eqn:Hpi.
  - rewrite (check_required_fields_investigator g m Hpi). cbn [bind].
    intros [= <-]. split; [reflexivity|]. left. eauto.
  - rewrite (check_required_fields_no_investigator g Hpi). cbn [bind].
    destruct (check_dates (timeline g)) as [dates|e1] eqn:Hd; cbn [bind].
    + destruct (check_budget (budget g)) as [errs|e2] eqn:Hb; cbn [bind].
      * destruct (check_award_amount g) as [flags|e3] eqn:Ha; cbn [bind];
          [discriminate|].
        intros [= <-]. rewrite (check_award_amount_raises _ _ Ha) in *.
        split; [reflexivity|]. right. right. auto.
      * intros [= <-]. rewrite (check_budget_raises _ _ Hb) in *.
        split; [reflexivity|]. right. right. auto.
    + intros [= <-].
      destruct (check_dates_raises _ _ Hd) as [-> | ->];
        (split; [reflexivity|]); right; left; auto.
Qed.

(** *** The verdict on the project dates *)

Lemma check_dates_verdict (t : Timeline) (dates : list string) :
  check_dates t = Returns dates ->
  (present (project_start_date t) && present (project_end_date t) = false ->
   dates = [])
  /\ forall s d,
       project_start_date t = Some s -> project_end_date t = Some d ->
       truthy (value s) = true -> truthy (value d) = true ->
       exists s_text,
         value s = PStr s_text
         /\ (fromisoformat s_text = None -> dates = [MSG_INVALID_DATE])
         /\ forall ds, fromisoformat s_text = Some ds ->
              exists d_text,
                value d = PStr d_text
                /\ (fromisoformat d_text = None -> dates = [MSG_INVALID_DATE])
                /\ forall de, fromisoformat d_text = Some de ->
                     naive ds = naive de
                     /\ dates = if instant ds >=? instant de
                                then [MSG_START_AFTER_END] else [].
Proof.
  unfold check_dates. intros Hc. split.
  - unfold present.
    destruct (project_start_date t) as [s|]; [|now injection Hc].
    destruct (project_end_date t) as [d|]; [|now injection Hc].
    intros Hp. rewrite Hp in Hc. now injection Hc.
  - intros s d Hs Hd Hts Htd. rewrite Hs, Hd, Hts, Htd in Hc. cbn [andb] in Hc.
    destruct (value s) as [|b|z|f|s_text|l|items]; try discriminate Hc.
    exists s_text. split; [reflexivity|]. cbn [py_fromisoformat] in Hc.
    destruct (fromisoformat s_text) as [ds|].
    + split; [discriminate|]. intros ? [= <-]. cbn [bind] in Hc.
      destruct (value d) as [|b|z|f|d_text|l|items]; try discriminate Hc.
      exists d_text. split; [reflexivity|]. cbn [py_fromisoformat] in Hc.
      destruct (fromisoformat d_text) as [de|].
      * split; [discriminate|]. intros ? [= <-]. cbn [bind] in Hc.
        destruct (Bool.bool_dec (naive ds) (naive de)) as [Hu|Hm].
        -- rewrite (dt_ge_uniform _ _ Hu) in Hc. cbn in Hc. injection Hc as <-.
           auto.
        -- rewrite (dt_ge_mixed _ _ Hm) in Hc. discriminate Hc.
      * split; [|discriminate]. intros _. cbn in Hc. now injection Hc.
    + split; [|discriminate]. intros _. cbn in Hc. now injection Hc.
Qed.

(** X10.  The date flags [validate] returns.  When a date is unset or
    holds a falsy value nothing is checked.  Otherwise the start date is
    a string; if it does not parse the one flag is the invalid-format
    one, whatever the end date holds; if it parses, the end date is a
    string too, an end date that does not parse gives the
    invalid-format flag, and two dates that parse are both naive or both
    aware and are flagged as start after end exactly when the start is
    not before the end: equal dates are flagged. *)
Theorem project_dates_verdict (g : GrantData) (fl : ValidationFlags) :
  validate g = Returns fl ->
  (present (project_start_date (timeline g))
   && present (project_end_date (timeline g)) = false ->
   inconsistent_dates fl = [])
  /\ forall s d,
       project_start_date (timeline g) = Some s ->
       project_end_date (timeline g) = Some d ->
       truthy (value s) = true -> truthy (value d) = true ->
       exists s_text,
         value s = PStr s_text
         /\ (fromisoformat s_text = None -> inconsistent_dates fl = [MSG_INVALID_DATE])
         /\ forall ds, fromisoformat s_text = Some ds ->
              exists d_text,
                value d = PStr d_text
                /\ (fromisoformat d_text = None ->
                    inconsistent_dates fl = [MSG_INVALID_DATE])
                /\ forall de, fromisoformat d_text = Some de ->
                     naive ds = naive de
                     /\ inconsistent_dates fl
                        = (if instant ds >=? instant de
                           then [MSG_START_AFTER_END] else [])
                     /\ (instant ds = instant de ->
                         inconsistent_dates fl = [MSG_START_AFTER_END]).
Proof.
  intros Hv. apply validate_inv in Hv.
  destruct Hv as (missing & dates & berr & aflags & _ & Hd & _ & _ & ->).
  cbn [inconsistent_dates].
  destruct (check_dates_verdict _ _ Hd) as [Hnone Hboth].
  split; [exact Hnone|].
  intros s d Hs Hdd Hts Htd.
  destruct (Hboth s d Hs Hdd Hts Htd) as (s_text & Hsv & Hsbad & Hsok).
  exists s_text. split; [exact Hsv|]. split; [exact Hsbad|].
  intros ds Hds. destruct (Hsok ds Hds) as (d_text & Hdv & Hdbad & Hdok).
  exists d_text. split; [exact Hdv|]. split; [exact Hdbad|].
  intros de Hde. destruct (Hdok de Hde) as [Hu Hres].
  split; [exact Hu|]. split; [exact Hres|].
  intros Heq. rewrite Hres, Heq.
  destruct (Z.geb_spec (instant de) (instant de)); [reflexivity | lia].
Qed.

(** *** The verdict on the budget *)

Lemma budget_mismatch_not_format (x : float) (c : number) :
  budget_mismatch x c <> MSG_INVALID_TOTAL.
Proof. unfold budget_mismatch, MSG_INVALID_TOTAL. cbn [String.append]. discriminate. Qed.

Lemma check_budget_verdict (b : BudgetSummary) (errs : list string) :
  check_budget b = Returns errs ->
  (present (total b) = false -> errs = [])
  /\ (forall t e, total b = Some t -> truthy (value t) = true ->
        py_float (value t) = Raises e -> errs = [MSG_INVALID_TOTAL])
  /\ (forall t x, total b = Some t -> truthy (value t) = true ->
        py_float (value t) = Returns x ->
        exists c,
          sum_components b BUDGET_COMPONENTS (NInt 0) = Returns c
          /\ errs = if (1000 <? PrimFloat.abs (x - number_to_float c))%float
                    then [budget_mismatch x c] else []).
Proof.
  unfold check_budget, present. intros Hc.
  destruct (total b) as [t|]; [|injection Hc as <-; repeat split; discriminate].
  destruct (truthy (value t)) eqn:Ht.
  - split; [discriminate|]. split.
    + intros ? e [= <-] _ Hf. rewrite Hf in Hc. cbn [bind try_except] in Hc.
      destruct (py_float_raises _ _ Hf) as [Hcaught| ->].
      * unfold except_ValueError_TypeError in Hc. rewrite Hcaught in Hc.
        now injection Hc.
      * discriminate Hc.
    + intros ? x [= <-] _ Hf. rewrite Hf in Hc. cbn [bind] in Hc.
      destruct (sum_components b BUDGET_COMPONENTS (NInt 0)) as [c|e1] eqn:Hs.
      * exists c. split; [reflexivity|]. cbn [bind try_except] in Hc.
        now injection Hc.
      * rewrite (sum_components_raises _ _ _ _ Hs) in Hc. discriminate Hc.
  - injection Hc as <-. split; [reflexivity|]. split; intros; congruence.
Qed.

(** X11.  The budget flags [validate] returns: there is at most one;
    a total that is unset or falsy (0 included) is not checked at all;
    the invalid-format flag is raised exactly when the total is truthy
    and [float] rejects it, so a component that does not convert is
    skipped without any flag; and when the total converts, the one
    possible flag is the mismatch with the sum of the components that
    convert. *)
Theorem budget_errors_verdict (g : GrantData) (fl : ValidationFlags) :
  validate g = Returns fl ->
  (List.length (budget_calculation_errors fl) <= 1)%nat
  /\ (present (total (budget g)) = false -> budget_calculation_errors fl = [])
  /\ (In MSG_INVALID_TOTAL (budget_calculation_errors fl) <->
      exists t e, total (budget g) = Some t /\ truthy (value t) = true
                  /\ py_float (value t) = Raises e)
  /\ (forall t x, total (budget g) = Some t -> truthy (value t) = true ->
        py_float (value t) = Returns x ->
        exists c,
          sum_components (budget g) BUDGET_COMPONENTS (NInt 0) = Returns c
          /\ budget_calculation_errors fl
             = if (1000 <? PrimFloat.abs (x - number_to_float c))%float
               then [budget_mismatch x c] else []).
Proof.
  intros Hv. apply validate_inv in Hv.
  destruct Hv as (missing & dates & berr & aflags & _ & _ & Hb & _ & ->).
  cbn [budget_calculation_errors].
  destruct (check_budget_verdict _ _ Hb) as (Hnone & Hbad & Hok).
  assert (Hcases :
            (present (total (budget g)) = false /\ berr = [])
            \/ (exists t e, total (budget g) = Some t /\ truthy (value t) = true
                            /\ py_float (value t) = Raises e
                            /\ berr = [MSG_INVALID_TOTAL])
            \/ (exists t x c, total (budget g) = Some t /\ truthy (value t) = true
                              /\ py_float (value t) = Returns x
                              /\ (berr = [budget_mismatch x c] \/ berr = []))).
  { destruct (total (budget g)) as [t|] eqn:Ht; [|left; auto].
    destruct (truthy (value t)) eqn:Htt; [|left; unfold present in *; auto].
    destruct (py_float (value t)) as [x|e] eqn:Hf.
    - right. right. destruct (Hok t x eq_refl Htt Hf) as (c & _ & Hres).
      exists t, x, c. repeat split; auto.
      destruct (1000 <? PrimFloat.abs (x - number_to_float c))%float; auto.
    - right. left. exists t, e. repeat split; auto. exact (Hbad t e eq_refl Htt Hf). }
  split; [|split; [exact Hnone|split; [|exact Hok]]].
  - destruct Hcases as [[_ ->]|[(t & e & _ & _ & _ & ->)|(t & x & c & _ & _ & _ & [->| ->])]];
      simpl; lia.
  - split.
    + intros Hin.
      destruct Hcases as [[_ ->]|[(t & e & Ht & Htt & Hf & _)
                                  |(t & x & c & _ & _ & _ & [->| ->])]].
      * destruct Hin.
      * exists t, e. auto.
      * destruct Hin as [Heq|[]]. now apply budget_mismatch_not_format in Heq.
      * destruct Hin.
    + intros (t & e & Ht & Htt & Hf). rewrite (Hbad t e Ht Htt Hf). now left.
Qed.

End Facts.
End ValidatorMoreFacts.

(** ** The validator at more sample data *)

Module ValidatorExamples.
Import Py DataModels ValidatorFacts Ref Samples.
Import ValidatorMore ValidatorMoreFacts ValidatorSamples.

(** An award amount of 401 digits: the one exception is the
    [OverflowError] of the award-amount block. *)
Lemma huge_award_amount_overflow :
  validate huge_award_amount = Raises (OverflowError MSG_TOO_LARGE)
  /\ check_award_amount huge_award_amount = Raises (OverflowError MSG_TOO_LARGE).
Proof.
  assert (Hv : validate huge_award_amount = Raises (OverflowError MSG_TOO_LARGE))
    by (vm_compute; reflexivity).
  split; [exact Hv|].
  destruct (validate_exceptions huge_award_amount _ Hv)
    as [_ [(m & Hpi & _)|[(_ & _ & [He|He])|(_ & _ & [Hb|Ha])]]].
  - discriminate Hpi.
  - discriminate He.
  - discriminate He.
  - vm_compute in Hb. discriminate Hb.
  - exact Ha.
Defined.

(** A project that starts and ends on the same day is flagged. *)
Lemma same_day_dates_flagged :
  validate same_day_dates = Returns same_day_flags
  /\ inconsistent_dates same_day_flags = [MSG_START_AFTER_END].
Proof.
  assert (Hv : validate same_day_dates = Returns same_day_flags)
    by (vm_compute; reflexivity).
  split; [exact Hv|].
  destruct (project_dates_verdict same_day_dates same_day_flags Hv) as [_ Hboth].
  destruct (Hboth (field (PStr "2024-01-01") HIGH) (field (PStr "2024-01-01") HIGH)
                  eq_refl eq_refl eq_refl eq_refl)
    as (s_text & Hs & _ & Hok).
  injection Hs as <-.
  assert (Hday : fromisoformat "2024-01-01" = Some day_2024_01_01)
    by (vm_compute; reflexivity).
  destruct (Hok day_2024_01_01 Hday) as (d_text & Hd & _ & Hcmp).
  injection Hd as <-.
  destruct (Hcmp day_2024_01_01 Hday) as (_ & _ & Hsame).
  apply Hsame. reflexivity.
Defined.

(** A total given in words is flagged as invalid; the component of 4000
    plays no part. *)
Lemma worded_total_flagged :
  validate worded_total = Returns worded_total_flags
  /\ In MSG_INVALID_TOTAL (budget_calculation_errors worded_total_flags).
Proof.
  assert (Hv : validate worded_total = Returns worded_total_flags)
    by (vm_compute; reflexivity).
  split; [exact Hv|].
  destruct (budget_errors_verdict worded_total worded_total_flags Hv)
    as (_ & _ & Hformat & _).
  apply Hformat.
  exists (field (PStr "about ten thousand") LOW),
         (ValueError "could not convert string to float").
  split; [reflexivity|]. split; [reflexivity|]. vm_compute. reflexivity.
Defined.

End ValidatorExamples.

(** ** The extraction agent *)

Module AgentFacts.
Import Py PyFacts DataModels ValidatorFacts Workflow Agent.

(** *** What the operations on the response can raise *)

Lemma py_contains_raises (key : string) (data : pyval) (e : exn) :
  py_contains key data = Raises e -> is_TypeError e = true.
Proof.
  destruct data; cbn [py_contains]; try discriminate; intros [= <-]; reflexivity.
Qed.

Lemma py_contains_not_iterable (key : string) (data : pyval) :
  not_iterable data = true ->
  py_contains key data
  = Raises (TypeError ("argument of type '" ++ type_name data ++ "' is not iterable")).
Proof. destruct data; cbn [not_iterable]; try discriminate; reflexivity. Qed.

(** After [key in data] has held, [data[key]] cannot raise [KeyError]. *)
Lemma py_getitem_found (key : string) (data : pyval) :
  py_contains key data = Returns true ->
  (exists v, py_getitem data key = Returns v)
  \/ (exists m, py_getitem data key = Raises (TypeError m)).
Proof.
  destruct data as [|b|z|f|s|l|d]; cbn [py_contains py_getitem]; try discriminate.
  - intros _. right. eauto.
  - intros _. right. eauto.
  - unfold dict_mem. destruct (dict_get key d) as [v|]; [|discriminate].
    intros _. left. eauto.
Qed.

Lemma py_get_raises (data : pyval) (key : string) (e : exn) :
  py_get data key = Raises e -> is_AttributeError e = true.
Proof.
  destruct data as [|b|z|f|s|l|d]; cbn [py_get]; try (intros [= <-]; reflexivity).
  destruct (dict_get key d); discriminate.
Qed.

Lemma py_get_default_raises (data : pyval) (key : string) (default : pyval) (e : exn) :
  py_get_default data key default = Raises e -> is_AttributeError e = true.
Proof.
  destruct data as [|b|z|f|s|l|d]; cbn [py_get_default];
    try (intros [= <-]; reflexivity).
  destruct (dict_get key d); discriminate.
Qed.

Lemma create_field_raises (v c : pyval) (e : exn) :
  create_field v c = Raises e -> is_AttributeError e = true.
Proof.
  destruct v; destruct c; cbn [create_field]; try discriminate;
    intros [= <-]; reflexivity.
Qed.

Local Notation "'harmless' e" := (is_TypeError e || is_AttributeError e = true)
  (at level 10, e at level 9).

Lemma harmless_TypeError (e : exn) : is_TypeError e = true -> harmless e.
Proof. intros ->. reflexivity. Qed.

Lemma harmless_AttributeError (e : exn) : is_AttributeError e = true -> harmless e.
Proof. intros ->. apply orb_true_r. Qed.

Lemma extract_entry_raises (data : pyval) (key : string) (e : exn) :
  py_contains key data = Returns true ->
  extract_entry data key = Raises e -> harmless e.
Proof.
  intros Hc. unfold extract_entry.
  destruct (py_getitem_found key data Hc) as [[v Hv]|[m Hm]].
  - rewrite Hv. cbn [bind].
    destruct (py_get v "value") as [value|e0] eqn:Hg; cbn [bind];
      [|intros [= <-]; apply harmless_AttributeError;
        exact (py_get_raises _ _ _ Hg)].
    destruct (py_get_default v "confidence" (PStr "uncertain")) as [c|e0] eqn:Hd;
      cbn [bind];
      [|intros [= <-]; apply harmless_AttributeError;
        exact (py_get_default_raises _ _ _ _ Hd)].
    intros Hf. apply harmless_AttributeError. exact (create_field_raises _ _ _ Hf).
  - rewrite Hm. cbn [bind]. intros [= <-]. reflexivity.
Qed.

Lemma parse_basic_raises (data : pyval) (name : string) (g : GrantData) (e : exn) :
  parse_basic data name g = Raises e -> harmless e.
Proof.
  unfold parse_basic.
  destruct (py_contains name data) as [[|]|e0] eqn:Hc; cbn [bind].
  - destruct (extract_entry data name) as [f|e1] eqn:He; cbn [bind]; [discriminate|].
    intros [= <-]. exact (extract_entry_raises _ _ _ Hc He).
  - discriminate.
  - intros [= <-]. apply harmless_TypeError. exact (py_contains_raises _ _ _ Hc).
Qed.

Lemma parse_section_raises (S : Type)
      (setattr : S -> string -> option ExtractedField -> S)
      (section_data : pyval) (names : list string) :
  forall (section : S) (e : exn),
    parse_section setattr section_data names section = Raises e -> harmless e.
Proof.
  induction names as [|name names IH]; intros section e; cbn [parse_section];
    [discriminate|].
  destruct (py_contains name section_data) as [[|]|e0] eqn:Hc; cbn [bind].
  - destruct (extract_entry section_data name) as [f|e1] eqn:He; cbn [bind].
    + apply IH.
    + intros [= <-]. exact (extract_entry_raises _ _ _ Hc He).
  - apply IH.
  - intros [= <-]. apply harmless_TypeError. exact (py_contains_raises _ _ _ Hc).
Qed.

Lemma parse_timeline_raises (data : pyval) (g : GrantData) (e : exn) :
  parse_timeline data g = Raises e -> harmless e.
Proof.
  unfold parse_timeline.
  destruct (py_contains "timeline" data) as [[|]|e0] eqn:Hc; cbn [bind].
  - destruct (py_getitem_found _ _ Hc) as [[v Hv]|[m Hm]]; rewrite ?Hv, ?Hm;
      cbn [bind]; [|intros [= <-]; reflexivity].
    destruct (parse_section timeline_setattr v TIMELINE_FIELDS no_timeline)
      as [t|e1] eqn:Hs; cbn [bind]; [discriminate|].
    intros [= <-]. exact (parse_section_raises _ _ _ _ _ _ Hs).
  - discriminate.
  - intros [= <-]. apply harmless_TypeError. exact (py_contains_raises _ _ _ Hc).
Qed.

Lemma parse_budget_raises (data : pyval) (g : GrantData) (e : exn) :
  parse_budget data g = Raises e -> harmless e.
Proof.
  unfold parse_budget.
  destruct (py_contains "budget" data) as [[|]|e0] eqn:Hc; cbn [bind].
  - destruct (py_getitem_found _ _ Hc) as [[v Hv]|[m Hm]]; rewrite ?Hv, ?Hm;
      cbn [bind]; [|intros [= <-]; reflexivity].
    destruct (parse_section budget_setattr v BUDGET_FIELDS no_budget)
      as [b|e1] eqn:Hs; cbn [bind]; [discriminate|].
    intros [= <-]. exact (parse_section_raises _ _ _ _ _ _ Hs).
  - discriminate.
  - intros [= <-]. apply harmless_TypeError. exact (py_contains_raises _ _ _ Hc).
Qed.

Lemma parse_project_raises (data : pyval) (e : exn) :
  parse_project data = Raises e -> harmless e.
Proof.
  unfold parse_project.
  destruct (py_contains "project" data) as [[|]|e0] eqn:Hc; cbn [bind].
  - destruct (py_getitem_found _ _ Hc) as [[v Hv]|[m Hm]]; rewrite ?Hv, ?Hm;
      cbn [bind]; [|intros [= <-]; reflexivity].
    destruct (py_contains "abstract" v) as [[|]|e1] eqn:Ha; cbn [bind].
    + intros He. exact (extract_entry_raises _ _ _ Ha He).
    + discriminate.
    + intros [= <-]. apply harmless_TypeError. exact (py_contains_raises _ _ _ Ha).
  - discriminate.
  - intros [= <-]. apply harmless_TypeError. exact (py_contains_raises _ _ _ Hc).
Qed.

Lemma parse_principal_investigator_raises (data : pyval) (g : GrantData) (e : exn) :
  parse_principal_investigator data g = Raises e -> harmless e.
Proof.
  unfold parse_principal_investigator.
  destruct (py_contains "principal_investigator" data) as [[|]|e0] eqn:Hc;
    cbn [bind];
    [| discriminate
     | intros [= <-]; apply harmless_TypeError; exact (py_contains_raises _ _ _ Hc)].
  destruct (py_getitem_found _ _ Hc) as [[v Hv]|[m Hm]]; rewrite ?Hv, ?Hm;
    cbn [bind]; [|intros [= <-]; reflexivity].
  destruct (py_contains "name" v) as [[|]|e1] eqn:Hn; cbn [bind];
    [| discriminate
     | intros [= <-]; apply harmless_TypeError; exact (py_contains_raises _ _ _ Hn)].
  destruct (extract_entry v "name") as [name|e2] eqn:He; cbn [bind];
    [|intros [= <-]; exact (extract_entry_raises _ _ _ Hn He)].
  destruct (py_get_default v "role" (PDict [])) as [role_data|e3] eqn:Hr; cbn [bind];
    [|intros [= <-]; apply harmless_AttributeError;
      exact (py_get_default_raises _ _ _ _ Hr)].
  destruct (py_get_default role_data "value" (PStr "Principal Investigator"))
    as [role_value|e4] eqn:Hrv; cbn [bind];
    [|intros [= <-]; apply harmless_AttributeError;
      exact (py_get_default_raises _ _ _ _ Hrv)].
  destruct (py_get_default role_data "confidence" (PStr "high"))
    as [role_confidence|e5] eqn:Hrc; cbn [bind];
    [|intros [= <-]; apply harmless_AttributeError;
      exact (py_get_default_raises _ _ _ _ Hrc)].
  destruct (create_field role_value role_confidence) as [role|e6] eqn:Hcf; cbn [bind];
    [discriminate|].
  intros [= <-]. apply harmless_AttributeError. exact (create_field_raises _ _ _ Hcf).
Qed.

Lemma parse_data_raises (data : pyval) (e : exn) :
  parse_data data = Raises e -> harmless e.
Proof.
  unfold parse_data.
  destruct (parse_basic data "grant_id" empty_grant_data) as [g1|e1] eqn:H1;
    cbn [bind]; [|intros [= <-]; exact (parse_basic_raises _ _ _ _ H1)].
  destruct (parse_basic data "grant_name" g1) as [g2|e2] eqn:H2;
    cbn [bind]; [|intros [= <-]; exact (parse_basic_raises _ _ _ _ H2)].
  destruct (parse_basic data "funding_agency" g2) as [g3|e3] eqn:H3;
    cbn [bind]; [|intros [= <-]; exact (parse_basic_raises _ _ _ _ H3)].
  destruct (parse_basic data "award_amount" g3) as [g4|e4] eqn:H4;
    cbn [bind]; [|intros [= <-]; exact (parse_basic_raises _ _ _ _ H4)].
  destruct (parse_basic data "grant_type" g4) as [g5|e5] eqn:H5;
    cbn [bind]; [|intros [= <-]; exact (parse_basic_raises _ _ _ _ H5)].
  destruct (parse_timeline data g5) as [g6|e6] eqn:H6;
    cbn [bind]; [|intros [= <-]; exact (parse_timeline_raises _ _ _ H6)].
  destruct (parse_principal_investigator data g6) as [g7|e7] eqn:H7;
    cbn [bind]; [|intros [= <-]; exact (parse_principal_investigator_raises _ _ _ H7)].
  destruct (parse_project data) as [a|e8] eqn:H8;
    cbn [bind]; [|intros [= <-]; exact (parse_project_raises _ _ H8)].
  destruct (parse_budget data g7) as [g9|e9] eqn:H9;
    cbn [bind]; [discriminate|].
  intros [= <-]. exact (parse_budget_raises _ _ _ H9).
Qed.

(** *** A response without any of the keys *)

Lemma py_contains_absent (key : string) (d : dict pyval) :
  dict_get key d = None -> py_contains key (PDict d) = Returns false.
Proof. intros Hg. cbn [py_contains]. unfold dict_mem. now rewrite Hg. Qed.

Lemma parse_data_no_keys (d : dict pyval) :
  Forall (fun key => dict_get key d = None) RESPONSE_KEYS ->
  parse_data (PDict d) = Returns _create_empty_grant_data.
Proof.
  unfold RESPONSE_KEYS. intros Hall.
  repeat match goal with
         | H : Forall _ (_ :: _) |- _ => inversion H; clear H; subst
         end.
  unfold parse_data, parse_basic, parse_timeline, parse_principal_investigator,
    parse_project, parse_budget.
  repeat (rewrite py_contains_absent by assumption; cbn [bind]).
  reflexivity.
Qed.

(** *** What [json.loads] makes of a response *)

Section Parsing.
Context {limits : JsonLimits}.

Lemma load_error_not_malformed (l : json_limit) (m : string) :
  load_error l <> JSONDecodeError m.
Proof. destruct l; discriminate. Qed.

Lemma load_error_not_KeyError (l : json_limit) (m : string) :
  load_error l <> KeyError m.
Proof. destruct l; discriminate. Qed.

Lemma parse_ai_response_excess (text : file_content) (l : json_limit) :
  json_load text = Raises (load_error l) ->
  parse_ai_response (Some text) = Raises (load_error l).
Proof. cbn [parse_ai_response]. intros ->. now destruct l. Qed.

(** The simulated response is within the limits of every interpreter. *)
Lemma simulated_response_parsed :
  parse_ai_response (Some _simulate_ai_response) = Returns simulated_extraction.
Proof.
  unfold _simulate_ai_response. cbn [parse_ai_response json_load].
  rewrite (json_excess_le 3 load_depth SIMULATED_DATA);
    [vm_compute; reflexivity | apply Nat.leb_le, literals_load
     | vm_compute; reflexivity].
Qed.

(** The four ways of a response: none, a document within the limits,
    a malformed text, a text beyond a limit. *)
Lemma parse_ai_response_cases (response : option file_content) :
  (response = None
   /\ parse_ai_response response
      = Raises (TypeError "the JSON object must be str, bytes or bytearray, not NoneType"))
  \/ (exists j, response = Some (Document j) /\ json_excess load_depth j = None
                /\ parse_ai_response response = parse_data j)
  \/ (exists text m, response = Some text /\ json_load text = Raises (JSONDecodeError m)
                     /\ parse_ai_response response = Returns _create_empty_grant_data)
  \/ (exists text l, response = Some text /\ json_load text = Raises (load_error l)
                     /\ parse_ai_response response = Raises (load_error l)).
Proof.
  destruct response as [[j|text|j|l]|]; cbn [parse_ai_response json_load].
  - destruct (json_excess load_depth j) as [l|] eqn:Hj.
    + right. right. right. exists (Document j), l. cbn [json_load]. rewrite Hj.
      split; [reflexivity|]. split; [reflexivity|]. now destruct l.
    + right. left. exists j. auto.
  - right. right. left. eexists _, _. split; [reflexivity|]. split; reflexivity.
  - right. right. left. eexists _, _. split; [reflexivity|]. split; reflexivity.
  - right. right. right. exists (Excessive l), l.
    split; [reflexivity|]. split; [reflexivity|]. now destruct l.
  - left. split; reflexivity.
Qed.

(** X12.  The errors of [parse_ai_response].  A response that
    [json.loads] rejects as malformed gives the empty [GrantData()],
    without exception.  One on which [json.loads] gives up at a limit of
    the interpreter, an integer of more than 4300 digits or containers
    nested beyond the levels left, makes [parse_ai_response] raise the
    [ValueError] or the [RecursionError] of [json.loads], which the
    handler for [JSONDecodeError] does not catch.  Every other
    exception it raises is a [TypeError] or an [AttributeError]; none is
    a [KeyError], since every subscript is guarded by [in].  A response
    that is the JSON [null], a boolean or a number within the limits
    raises the [TypeError] of [in]; a missing response raises
    [TypeError] as well.  A JSON object within the limits with none of
    the nine keys, the empty object among them, gives the empty
    [GrantData()]. *)
Theorem parse_ai_response_errors :
  (forall text m, json_load text = Raises (JSONDecodeError m) ->
      parse_ai_response (Some text) = Returns _create_empty_grant_data)
  /\ (forall text e, json_load text = Raises e -> (forall m, e <> JSONDecodeError m) ->
        parse_ai_response (Some text) = Raises e)
  /\ (forall l, parse_ai_response (Some (Excessive l)) = Raises (load_error l))
  /\ (forall j l, json_excess load_depth j = Some l ->
        parse_ai_response (Some (Document j)) = Raises (load_error l))
  /\ (forall response e,
        parse_ai_response response = Raises e ->
        (is_TypeError e || is_AttributeError e = true \/ exists l, e = load_error l)
        /\ forall m, e <> KeyError m)
  /\ (exists m, parse_ai_response None = Raises (TypeError m))
  /\ (forall j, json_excess load_depth j = None -> not_iterable j = true ->
        parse_ai_response (Some (Document j))
        = Raises (TypeError ("argument of type '" ++ type_name j
                             ++ "' is not iterable")))
  /\ (forall d, json_excess load_depth (PDict d) = None ->
        Forall (fun key => dict_get key d = None) RESPONSE_KEYS ->
        parse_ai_response (Some (Document (PDict d)))
        = Returns _create_empty_grant_data).
Proof.
  split; [|split; [|split; [|split; [|split; [|split; [|split]]]]]].
  - intros text m Hload. cbn [parse_ai_response]. now rewrite Hload.
  - intros text e Hload Hne. cbn [parse_ai_response]. rewrite Hload.
    destruct e; try reflexivity. now elim (Hne msg).
  - intros l. now apply parse_ai_response_excess.
  - intros j l Hj. apply parse_ai_response_excess. cbn [json_load]. now rewrite Hj.
  - intros response e Hraise.
    destruct (parse_ai_response_cases response)
      as [[_ Hp]|[(j & _ & _ & Hp)|[(text & m & _ & _ & Hp)|(text & l & _ & _ & Hp)]]];
      rewrite Hp in Hraise.
    + injection Hraise as <-. split; [now left | discriminate].
    + pose proof (parse_data_raises j e Hraise) as Hharmless.
      split; [now left|]. intros m ->. discriminate.
    + discriminate.
    + injection Hraise as <-. split; [right; now exists l|].
      intros m. apply load_error_not_KeyError.
  - eexists. reflexivity.
  - intros j Hfits Hj. cbn [parse_ai_response json_load]. rewrite Hfits.
    unfold parse_data, parse_basic.
    now rewrite (py_contains_not_iterable "grant_id" j Hj).
  - intros d Hfits Hd. cbn [parse_ai_response json_load]. rewrite Hfits.
    now apply parse_data_no_keys.
Qed.

(** *** The attributes the parser never sets *)

(** The attributes of a record the parser leaves at their defaults. *)
Local Notation "'untouched' g" :=
  (current_status g = None /\ progress_notes g = None
   /\ duration_months (timeline g) = None
   /\ supplies (budget g) = None /\ indirect_costs (budget g) = None
   /\ other (budget g) = None
   /\ forall m, principal_investigator g = Some m ->
                institution m = None /\ email m = None)
  (at level 10, g at level 9).

Lemma untouched_empty : untouched empty_grant_data.
Proof. cbn. repeat split; discriminate. Qed.

Lemma set_basic_untouched (g : GrantData) (name : string) (f : option ExtractedField) :
  untouched g -> untouched (set_basic g name f).
Proof.
  intros Hg. unfold set_basic.
  repeat match goal with
         | |- context [if ?c then _ else _] => destruct c
         end; exact Hg.
Qed.

Lemma parse_basic_untouched (data : pyval) (name : string) (g g' : GrantData) :
  parse_basic data name g = Returns g' -> untouched g -> untouched g'.
Proof.
  unfold parse_basic.
  destruct (py_contains name data) as [[|]|e0]; cbn [bind]; [| |discriminate].
  - destruct (extract_entry data name) as [f|e1]; cbn [bind]; [|discriminate].
    intros [= <-]. apply set_basic_untouched.
  - now intros [= <-].
Qed.

Lemma parse_section_timeline (section_data : pyval) (names : list string) :
  forall t t',
    parse_section timeline_setattr section_data names t = Returns t' ->
    duration_months t = None -> duration_months t' = None.
Proof.
  induction names as [|name names IH]; intros t t'; cbn [parse_section].
  - now intros [= <-].
  - destruct (py_contains name section_data) as [[|]|e0]; cbn [bind];
      [| apply IH | discriminate].
    destruct (extract_entry section_data name) as [f|e1]; cbn [bind]; [|discriminate].
    intros Hs Ht. apply (IH _ _ Hs). unfold timeline_setattr.
    repeat match goal with
           | |- context [if ?c then _ else _] => destruct c
           end; exact Ht.
Qed.

Lemma parse_section_budget (section_data : pyval) (names : list string) :
  forall b b',
    parse_section budget_setattr section_data names b = Returns b' ->
    supplies b = None /\ indirect_costs b = None /\ other b = None ->
    supplies b' = None /\ indirect_costs b' = None /\ other b' = None.
Proof.
  induction names as [|name names IH]; intros b b'; cbn [parse_section].
  - now intros [= <-].
  - destruct (py_contains name section_data) as [[|]|e0]; cbn [bind];
      [| apply IH | discriminate].
    destruct (extract_entry section_data name) as [f|e1]; cbn [bind]; [|discriminate].
    intros Hs Hb. apply (IH _ _ Hs). unfold budget_setattr.
    repeat match goal with
           | |- context [if ?c then _ else _] => destruct c
           end; exact Hb.
Qed.

Lemma parse_timeline_untouched (data : pyval) (g g' : GrantData) :
  parse_timeline data g = Returns g' -> untouched g -> untouched g'.
Proof.
  unfold parse_timeline.
  destruct (py_contains "timeline" data) as [[|]|e0]; cbn [bind];
    [| now intros [= <-] | discriminate].
  destruct (py_getitem data "timeline") as [v|e1]; cbn [bind]; [|discriminate].
  destruct (parse_section timeline_setattr v TIMELINE_FIELDS no_timeline)
    as [t|e2] eqn:Hs; cbn [bind]; [|discriminate].
  intros [= <-] (H1 & H2 & _ & H4 & H5 & H6 & H7). cbn.
  repeat split; try assumption; try (now apply H7).
  exact (parse_section_timeline _ _ _ _ Hs eq_refl).
Qed.

Lemma parse_budget_untouched (data : pyval) (g g' : GrantData) :
  parse_budget data g = Returns g' -> untouched g -> untouched g'.
Proof.
  unfold parse_budget.
  destruct (py_contains "budget" data) as [[|]|e0]; cbn [bind];
    [| now intros [= <-] | discriminate].
  destruct (py_getitem data "budget") as [v|e1]; cbn [bind]; [|discriminate].
  destruct (parse_section budget_setattr v BUDGET_FIELDS no_budget)
    as [b|e2] eqn:Hs; cbn [bind]; [|discriminate].
  intros [= <-] (H1 & H2 & H3 & _ & _ & _ & H7). cbn.
  destruct (parse_section_budget _ _ _ _ Hs (conj eq_refl (conj eq_refl eq_refl)))
    as (Hb1 & Hb2 & Hb3).
  repeat split; try assumption; now apply H7.
Qed.

Lemma parse_principal_investigator_untouched (data : pyval) (g g' : GrantData) :
  parse_principal_investigator data g = Returns g' -> untouched g -> untouched g'.
Proof.
  unfold parse_principal_investigator.
  destruct (py_contains "principal_investigator" data) as [[|]|e0]; cbn [bind];
    [| now intros [= <-] | discriminate].
  destruct (py_getitem data "principal_investigator") as [v|e1]; cbn [bind];
    [|discriminate].
  destruct (py_contains "name" v) as [[|]|e2]; cbn [bind];
    [| now intros [= <-] | discriminate].
  destruct (extract_entry v "name") as [name|e3]; cbn [bind]; [|discriminate].
  destruct (py_get_default v "role" (PDict [])) as [role_data|e4]; cbn [bind];
    [|discriminate].
  destruct (py_get_default role_data "value" (PStr "Principal Investigator"))
    as [role_value|e5]; cbn [bind]; [|discriminate].
  destruct (py_get_default role_data "confidence" (PStr "high"))
    as [role_confidence|e6]; cbn [bind]; [|discriminate].
  destruct (create_field role_value role_confidence) as [role|e7]; cbn [bind];
    [|discriminate].
  intros [= <-] (H1 & H2 & H3 & H4 & H5 & H6 & _). cbn.
  repeat split; try assumption; injection H as <-; reflexivity.
Qed.

Lemma parse_data_untouched (data : pyval) (x : Extraction) :
  parse_data data = Returns x ->
  untouched (grant_data x) /\ validation_flags x = no_flags.
Proof.
  unfold parse_data.
  destruct (parse_basic data "grant_id" empty_grant_data) as [g1|e1] eqn:H1;
    cbn [bind]; [|discriminate].
  destruct (parse_basic data "grant_name" g1) as [g2|e2] eqn:H2;
    cbn [bind]; [|discriminate].
  destruct (parse_basic data "funding_agency" g2) as [g3|e3] eqn:H3;
    cbn [bind]; [|discriminate].
  destruct (parse_basic data "award_amount" g3) as [g4|e4] eqn:H4;
    cbn [bind]; [|discriminate].
  destruct (parse_basic data "grant_type" g4) as [g5|e5] eqn:H5;
    cbn [bind]; [|discriminate].
  destruct (parse_timeline data g5) as [g6|e6] eqn:H6;
    cbn [bind]; [|discriminate].
  destruct (parse_principal_investigator data g6) as [g7|e7] eqn:H7;
    cbn [bind]; [|discriminate].
  destruct (parse_project data) as [a|e8] eqn:H8;
    cbn [bind]; [|discriminate].
  destruct (parse_budget data g7) as [g9|e9] eqn:H9;
    cbn [bind]; [|discriminate].
  intros [= <-]. split; [|reflexivity]. cbn [grant_data].
  apply (parse_budget_untouched _ _ _ H9).
  apply (parse_principal_investigator_untouched _ _ _ H7).
  apply (parse_timeline_untouched _ _ _ H6).
  apply (parse_basic_untouched _ _ _ _ H5).
  apply (parse_basic_untouched _ _ _ _ H4).
  apply (parse_basic_untouched _ _ _ _ H3).
  apply (parse_basic_untouched _ _ _ _ H2).
  apply (parse_basic_untouched _ _ _ _ H1).
  apply untouched_empty.
Qed.

(** X13.  What [parse_ai_response] never sets, whatever the response
    holds: [current_status] and [progress_notes], the [duration_months]
    of the timeline, the [supplies], [indirect_costs] and [other] of the
    budget, the [institution] and [email] of the principal investigator,
    and the validation flags, which stay the default ones.  Of the
    budget only [personnel], [equipment], [travel] and [total] can be
    set, so the budget check of the validator sums at most these three
    components. *)
Theorem parse_ai_response_never_sets (response : option file_content)
        (x : Extraction) :
  parse_ai_response response = Returns x ->
  current_status (grant_data x) = None
  /\ progress_notes (grant_data x) = None
  /\ duration_months (timeline (grant_data x)) = None
  /\ supplies (budget (grant_data x)) = None
  /\ indirect_costs (budget (grant_data x)) = None
  /\ other (budget (grant_data x)) = None
  /\ (forall m, principal_investigator (grant_data x) = Some m ->
                institution m = None /\ email m = None)
  /\ validation_flags x = no_flags.
Proof.
  destruct (parse_ai_response_cases response)
    as [[_ Hp]|[(j & _ & _ & Hp)|[(text & m & _ & _ & Hp)|(text & l & _ & _ & Hp)]]];
    rewrite Hp.
  - discriminate.
  - intros Hj. destruct (parse_data_untouched j x Hj) as [Hu Hf].
    destruct Hu as (H1 & H2 & H3 & H4 & H5 & H6 & H7).
    repeat split; try assumption; now apply H7.
  - intros [= <-]. cbn. repeat split; discriminate.
  - discriminate.
Qed.

End Parsing.

(** *** [process_document] *)

Section Processing.
Context {limits : JsonLimits} `{FloatText} `{IsoCodec} `{StrOps}.

Lemma flags_only_without_investigator (g : GrantData) (fl : ValidationFlags) :
  validate g = Returns fl ->
  principal_investigator g = None
  /\ In "principal_investigator"%string (missing_required_fields fl)
  /\ needs_human_review fl = true.
Proof.
  intros Hv. apply validate_inv in Hv.
  destruct Hv as (missing & dates & berr & aflags & E1 & _ & _ & _ & ->).
  destruct (principal_investigator g) as [m|] eqn:Hpi.
  - rewrite (check_required_fields_investigator g m Hpi) in E1. discriminate.
  - rewrite (check_required_fields_no_investigator g Hpi) in E1.
    injection E1 as <-. split; [reflexivity|]. cbn [missing_required_fields
      needs_human_review]. split.
    + rewrite !in_app_iff. simpl. tauto.
    + destruct (present (grant_id g)), (present (grant_name g)),
               (present (funding_agency g)), (present (award_amount g));
        reflexivity.
Qed.

Lemma validate_with_investigator (g : GrantData) :
  principal_investigator g <> None ->
  validate g = Raises (AttributeError "'TeamMember' object has no attribute 'value'").
Proof.
  destruct (principal_investigator g) as [m|] eqn:Hpi; [|now intros []].
  intros _. unfold validate.
  now rewrite (check_required_fields_investigator g m Hpi).
Qed.

(** X14.  Every extraction that [process_document] reports as
    successful comes from a response without a named principal
    investigator: its flags are those of the validator, they list
    [principal_investigator] as missing and ask for human review; the
    document had text and the message is the one of success.  Every
    failure returns the empty [GrantData()]. *)
Theorem process_document_success (api_key : option string)
        (extracted : agent_exn + string) (api : api_reply)
        (ok : bool) (x : Extraction) (message : string) :
  process_document api_key extracted api = (ok, x, message) ->
  (ok = false -> x = _create_empty_grant_data)
  /\ (ok = true ->
      message = MSG_SUCCESSFUL
      /\ validate (grant_data x) = Returns (validation_flags x)
      /\ principal_investigator (grant_data x) = None
      /\ In "principal_investigator"%string
            (missing_required_fields (validation_flags x))
      /\ needs_human_review (validation_flags x) = true
      /\ exists text response,
           extracted = inr text /\ py_strip text <> EmptyString
           /\ _call_openai api_key api = inr response
           /\ exists parsed,
                parse_ai_response response = Returns parsed
                /\ grant_data parsed = grant_data x
                /\ project_abstract parsed = project_abstract x).
Proof.
  unfold process_document, failed.
  destruct extracted as [e|text]; [intros [= <- <- <-]; split; [auto|discriminate]|].
  destruct (String.eqb_spec (py_strip text) "") as [Hblank|Htext];
    [intros [= <- <- <-]; split; [auto|discriminate]|].
  destruct (_call_openai api_key api) as [e|response] eqn:Hcall;
    [intros [= <- <- <-]; split; [auto|discriminate]|].
  destruct (parse_ai_response response) as [parsed|e] eqn:Hparse;
    [|intros [= <- <- <-]; split; [auto|discriminate]].
  destruct (validate (grant_data parsed)) as [flags|e] eqn:Hv;
    [|intros [= <- <- <-]; split; [auto|discriminate]].
  intros [= <- <- <-]. split; [discriminate|]. intros _.
  cbn [grant_data validation_flags project_abstract].
  destruct (flags_only_without_investigator _ _ Hv) as (Hpi & Hin & Hreview).
  split; [reflexivity|]. split; [exact Hv|]. split; [exact Hpi|].
  split; [exact Hin|]. split; [exact Hreview|].
  exists text, response. repeat split; auto. exists parsed. auto.
Qed.

(** X15.  A response whose parse has a principal investigator makes
    [process_document] fail with the [AttributeError] of the validator
    as message.  The simulated response is one: without API key, or
    when the API call raises anything but [ImportError], every document
    that has text is reported as failed, with the empty [GrantData()]. *)
Theorem process_document_simulation_fails (api_key : option string) (text : string)
        (api : api_reply) :
  py_strip text <> EmptyString ->
  (forall response parsed,
     _call_openai api_key api = inr response ->
     parse_ai_response response = Returns parsed ->
     principal_investigator (grant_data parsed) <> None ->
     process_document api_key (inr text) api
     = (false, _create_empty_grant_data,
        (MSG_FAILED ++ "'TeamMember' object has no attribute 'value'")%string))
  /\ (no_api_key api_key = true
      \/ (exists e, api = ApiFailed e /\ forall m, e <> ImportError m) ->
      _call_openai api_key api = inr (Some _simulate_ai_response)
      /\ parse_ai_response (Some _simulate_ai_response) = Returns simulated_extraction
      /\ process_document api_key (inr text) api
         = (false, _create_empty_grant_data,
            (MSG_FAILED ++ "'TeamMember' object has no attribute 'value'")%string)).
Proof.
  intros Htext.
  assert (Hgeneral :
            forall response parsed,
              _call_openai api_key api = inr response ->
              parse_ai_response response = Returns parsed ->
              principal_investigator (grant_data parsed) <> None ->
              process_document api_key (inr text) api
              = (false, _create_empty_grant_data,
                 (MSG_FAILED ++ "'TeamMember' object has no attribute 'value'")%string)).
  { intros response parsed Hcall Hparse Hpi. unfold process_document.
    destruct (String.eqb_spec (py_strip text) "") as [Hblank|_]; [contradiction|].
    rewrite Hcall, Hparse, (validate_with_investigator _ Hpi). reflexivity. }
  split; [exact Hgeneral|].
  intros Hsim.
  assert (Hcall : _call_openai api_key api = inr (Some _simulate_ai_response)).
  { unfold _call_openai. destruct Hsim as [-> | (e & -> & He)]; [reflexivity|].
    destruct (no_api_key api_key); [reflexivity|].
    destruct e as [m| |]; [now elim (He m) | reflexivity | reflexivity]. }
  assert (Hparse : parse_ai_response (Some _simulate_ai_response)
                   = Returns simulated_extraction)
    by apply simulated_response_parsed.
  split; [exact Hcall|]. split; [exact Hparse|].
  apply (Hgeneral _ _ Hcall Hparse). discriminate.
Qed.

End Processing.

End AgentFacts.

(** ** The agent at the sample data *)

Module AgentExamples.
Import Py DataModels Workflow Ref Agent AgentFacts AgentSamples.

(** A response that is a number raises the [TypeError] of [in]; one
    that is no JSON gives the empty record; two thousand opening
    brackets, and an array with a number of 4301 digits, make
    [json.loads] and with it [parse_ai_response] raise. *)
Lemma number_response_raises :
  parse_ai_response (Some response_number)
  = Raises (TypeError "argument of type 'int' is not iterable")
  /\ parse_ai_response (Some (Text "I could not read the document."))
     = Returns _create_empty_grant_data
  /\ parse_ai_response (Some (Excessive (Nesting false)))
     = Raises (RecursionError
                 "maximum recursion depth exceeded while decoding a JSON array from a unicode string")
  /\ parse_ai_response (Some (Document (PList [PInt (10 ^ 4300)])))
     = Raises (ValueError
                 "Exceeds the limit (4300 digits) for integer string conversion: value has 4301 digits; use sys.set_int_max_str_digits() to increase the limit").
Proof.
  destruct parse_ai_response_errors
    as (Hmalformed & _ & Hexcess & Hdigits & _ & _ & Hscalar & _).
  split; [apply (Hscalar (PInt 5)); vm_compute; reflexivity|].
  split; [apply (Hmalformed _ "Expecting value"%string); reflexivity|].
  split; [rewrite Hexcess; reflexivity|].
  rewrite (Hdigits _ (IntDigits (10 ^ 4300))); vm_compute; reflexivity.
Defined.

(** The [supplies] of a response are dropped: the extraction has none,
    and the validator reports a total of 100000 against a sum of
    50000. *)
Lemma supplies_of_response_dropped :
  parse_ai_response (Some response_budget) = Returns extraction_budget
  /\ supplies (budget (grant_data extraction_budget)) = None
  /\ validate (grant_data extraction_budget) = Returns flags_budget
  /\ budget_calculation_errors flags_budget
     = ["Budget total (100000.0) doesn't match sum of components (50000.0)"%string].
Proof.
  assert (Hp : parse_ai_response (Some response_budget) = Returns extraction_budget)
    by (vm_compute; reflexivity).
  destruct (parse_ai_response_never_sets _ _ Hp) as (_ & _ & _ & Hs & _).
  split; [exact Hp|]. split; [exact Hs|].
  split; vm_compute; reflexivity.
Defined.

(** A document for which the API answers with the budget response is
    processed successfully, and its flags ask for review. *)
Lemma budget_response_processed :
  process_document (Some "sk-test"%string) (inr "Award letter"%string)
                   (Replied (Some response_budget))
  = (true, mkExtraction (grant_data extraction_budget) None flags_budget,
     MSG_SUCCESSFUL)
  /\ needs_human_review flags_budget = true
  /\ principal_investigator (grant_data extraction_budget) = None.
Proof.
  assert (Hrun : process_document (Some "sk-test"%string) (inr "Award letter"%string)
                                  (Replied (Some response_budget))
                 = (true, mkExtraction (grant_data extraction_budget) None flags_budget,
                    MSG_SUCCESSFUL))
    by (vm_compute; reflexivity).
  split; [exact Hrun|].
  destruct (process_document_success _ _ _ _ _ _ Hrun) as [_ Hok].
  destruct (Hok eq_refl) as (_ & _ & Hpi & _ & Hreview & _).
  split; [exact Hreview | exact Hpi].
Defined.

(** Without API key a document with text is reported as failed; so is
    one for which the API names a principal investigator. *)
Lemma simulation_reported_as_failed :
  process_document None (inr "Award letter"%string) (Replied None)
  = (false, _create_empty_grant_data,
     "Document processing failed: 'TeamMember' object has no attribute 'value'"%string)
  /\ process_document (Some "sk-test"%string) (inr "Award letter"%string)
                      (Replied (Some response_investigator))
     = (false, _create_empty_grant_data,
        "Document processing failed: 'TeamMember' object has no attribute 'value'"%string).
Proof.
  split.
  - destruct (process_document_simulation_fails None "Award letter" (Replied None))
      as [_ Hsim]; [vm_compute; discriminate|].
    destruct Hsim as (_ & _ & Hrun); [now left|]. exact Hrun.
  - destruct (process_document_simulation_fails (Some "sk-test"%string) "Award letter"
                (Replied (Some response_investigator)))
      as [Hgeneral _]; [vm_compute; discriminate|].
    eapply Hgeneral; [reflexivity | vm_compute; reflexivity | vm_compute; discriminate].
Defined.

End AgentExamples.

(** ** [trigger_ai_processing] *)

Module UploaderFacts.
Import Py PyFacts Workflow WorkflowFacts WorkflowMore WorkflowMoreFacts Agent Uploader.

Section Facts.
Context {limits : JsonLimits} `{IsoCodec} {Store : Type} `{StoreOps Store}.
Implicit Types (w : @World Store) (m : Ledger) (d : DocumentInfo).

(** *** One move *)

(** [move_document] as the transition it records, with its result. *)
Lemma move_document_cases (self : WorkflowManager) w filename from_state to_state now :
  exists b s' calls,
    move_document self filename from_state to_state now w
    = (Returns b, perform_all calls (with_store w s'))
    /\ ((b = false /\ calls = [])
        \/ (b = true /\ calls = [Transition filename to_state None now])
        \/ (b = false
            /\ exists e, calls = [Transition filename ERROR (Some (str_exn e)) now])).
Proof.
  destruct (state_dirs self from_state) as [from_dir|] eqn:Hfrom;
    [destruct (state_dirs self to_state) as [to_dir|] eqn:Hto|].
  - destruct (path_exists (store w) (joinpath from_dir filename)) eqn:Hex.
    + destruct (relocate (store w) to_dir (joinpath from_dir filename)
                         (joinpath to_dir filename)) as [r s'] eqn:Hrel.
      rewrite (move_document_relocated self w filename from_state to_state now
                 from_dir to_dir r s' Hfrom Hto Hex Hrel).
      destruct r as [[]|e].
      * exists true, s', [Transition filename to_state None now].
        split; [reflexivity|]. right. left. auto.
      * exists false, s', [Transition filename ERROR (Some (str_exn e)) now].
        split; [reflexivity|]. right. right. eauto.
    + rewrite (move_document_source_missing self w filename from_state to_state now
                 from_dir to_dir Hfrom Hto Hex).
      exists false, (store w), []. split; [now destruct w|]. now left.
  - rewrite (move_document_no_directory self w filename from_state to_state now)
      by now right.
    exists false, (store w), []. split; [now destruct w|]. now left.
  - rewrite (move_document_no_directory self w filename from_state to_state now)
      by now left.
    exists false, (store w), []. split; [now destruct w|]. now left.
Qed.

(** What one move of a pending document leaves in the ledger. *)
Lemma move_pending_document (self : WorkflowManager) w name d now :
  healthy w -> roundtrips now ->
  dict_get name (read_ledger w) = Some d ->
  exists b w' d',
    move_document self name PENDING PROCESSING now w = (Returns b, w')
    /\ healthy w'
    /\ dict_keys (read_ledger w') = dict_keys (read_ledger w)
    /\ (forall other, other <> name ->
          dict_get other (read_ledger w') = dict_get other (read_ledger w))
    /\ dict_get name (read_ledger w') = Some d'
    /\ same_origin d d'
    /\ ((b = false /\ d' = d)
        \/ (b = true /\ d' = transitioned d PROCESSING None now)
        \/ (b = false /\ exists msg, d' = transitioned d ERROR (Some msg) now)).
Proof.
  intros Hh Hnow Hg.
  destruct (move_document_cases self w name PENDING PROCESSING now)
    as (b & s' & calls & Hmove & Hcases).
  assert (Hh1 : healthy (with_store w s')) by now apply healthy_with_store.
  assert (Hall : Forall (fun c => roundtrips (call_time c)) calls).
  { destruct Hcases as [[_ ->]|[[_ ->]|[_ [e ->]]]]; repeat constructor; exact Hnow. }
  assert (Hfit : Forall call_storable calls).
  { destruct Hcases as [[_ ->]|[[_ ->]|[_ [e ->]]]]; repeat constructor. }
  destruct (perform_all_refines calls _ Hh1 Hall Hfit) as (Hh' & Hread & _).
  rewrite read_ledger_with_store in Hread.
  assert (Hone : forall st msg,
             calls = [Transition name st msg now] ->
             dict_keys (read_ledger (perform_all calls (with_store w s')))
             = dict_keys (read_ledger w)
             /\ (forall other, other <> name ->
                   dict_get other (read_ledger (perform_all calls (with_store w s')))
                   = dict_get other (read_ledger w))
             /\ dict_get name (read_ledger (perform_all calls (with_store w s')))
                = Some (transitioned d st msg now)).
  { intros st msg ->. rewrite Hread. unfold apply_calls. cbn [fold_left].
    split; [apply apply_call_keys_transition|]. split.
    - intros other Hne. apply apply_call_other; simpl; [reflexivity|].
      apply String.eqb_neq. congruence.
    - simpl. rewrite Hg. apply dict_get_set_same. }
  exists b, (perform_all calls (with_store w s')).
  destruct Hcases as [[-> ->]|[[-> Hc]|[-> [e Hc]]]].
  - exists d. split; [exact Hmove|]. split; [exact Hh'|]. rewrite Hread.
    split; [reflexivity|]. split; [reflexivity|]. split; [exact Hg|].
    split; [unfold same_origin; auto|]. left. auto.
  - destruct (Hone _ _ Hc) as (Hk & Ho & Hd).
    exists (transitioned d PROCESSING None now).
    split; [exact Hmove|]. split; [exact Hh'|]. split; [exact Hk|].
    split; [exact Ho|]. split; [exact Hd|].
    split; [unfold same_origin; simpl; auto|]. right. left. auto.
  - destruct (Hone _ _ Hc) as (Hk & Ho & Hd).
    exists (transitioned d ERROR (Some (str_exn e)) now).
    split; [exact Hmove|]. split; [exact Hh'|]. split; [exact Hk|].
    split; [exact Ho|]. split; [exact Hd|].
    split; [unfold same_origin; simpl; auto|]. right. right. eauto.
Qed.

(** *** The loop *)

(** The record of a selected document after the loop. *)
Local Notation "'moved_or_left' d d'" :=
  (same_origin d d'
   /\ (d' = d
       \/ (exists now, d' = transitioned d PROCESSING None now)
       \/ (exists msg now, d' = transitioned d ERROR (Some msg) now)))
  (at level 10, d at level 9, d' at level 9).

Lemma move_pending_loop (self : WorkflowManager) (clock : nat -> datetime)
      (selected : list string) :
  forall k count w,
    healthy w -> (forall i, roundtrips (clock i)) ->
    NoDup selected ->
    Forall (fun name => exists d, dict_get name (read_ledger w) = Some d
                                  /\ current_state d = PENDING) selected ->
    exists n w',
      move_pending self (map PStr selected) clock k count w = (Returns n, w')
      /\ healthy w'
      /\ dict_keys (read_ledger w') = dict_keys (read_ledger w)
      /\ (forall name, ~ In name selected ->
            dict_get name (read_ledger w') = dict_get name (read_ledger w))
      /\ (forall name d, In name selected ->
            dict_get name (read_ledger w) = Some d ->
            exists d', dict_get name (read_ledger w') = Some d' /\ moved_or_left d d')
      /\ (count <= n <= count + List.length selected)%nat
      /\ (n = (count + List.length selected)%nat <->
          forall name d', In name selected ->
            dict_get name (read_ledger w') = Some d' -> current_state d' = PROCESSING).
Proof.
  induction selected as [|name rest IH]; intros k count w Hh Hclock Hnd Hpending.
  - exists count, w. split; [reflexivity|]. split; [exact Hh|].
    split; [reflexivity|]. split; [reflexivity|]. split; [intros name d []|].
    cbn [List.length]. split; [lia|]. split; [intros _ name d' [] | lia].
  - apply NoDup_cons_iff in Hnd as [Hname Hnd].
    inversion Hpending as [|? ? (d & Hg & Hstate) Hrest]; subst.
    destruct (move_pending_document self w name d (clock k) Hh (Hclock k) Hg)
      as (b & w1 & d1 & Hmove & Hh1 & Hk1 & Ho1 & Hg1 & Hsame1 & Hcases).
    assert (Hrest1 : Forall (fun name => exists d, dict_get name (read_ledger w1) = Some d
                                                   /\ current_state d = PENDING) rest).
    { rewrite Forall_forall in Hrest |- *. intros other Hin.
      rewrite Ho1; [now apply Hrest|]. intros ->. contradiction. }
    destruct (IH (S k) (if b then S count else count) w1 Hh1 Hclock Hnd Hrest1)
      as (n & w' & Hloop & Hh' & Hk' & Ho' & Hsel' & Hbound & Hiff).
    exists n, w'.
    assert (Hown : dict_get name (read_ledger w') = Some d1)
      by (rewrite (Ho' name Hname); exact Hg1).
    split; [|split; [exact Hh'|split; [congruence|split; [|split; [|split]]]]].
    + cbn [map move_pending move_document_any]. unfold abind. rewrite Hmove.
      exact Hloop.
    + intros other Hother. rewrite Ho'.
      * apply Ho1. intros ->. apply Hother. now left.
      * intros Hin. apply Hother. now right.
    + intros other d0 [<-|Hin] Hd0.
      * rewrite Hg in Hd0. injection Hd0 as <-. exists d1. split; [exact Hown|].
        split; [exact Hsame1|].
        destruct Hcases as [[_ ->]|[[_ ->]|[_ [msg ->]]]]; eauto.
      * apply (Hsel' other d0 Hin). rewrite Ho1; [exact Hd0|].
        intros ->. contradiction.
    + cbn [List.length]. destruct b; lia.
    + cbn [List.length].
      assert (Hb : b = true <-> current_state d1 = PROCESSING).
      { destruct Hcases as [[-> ->]|[[-> ->]|[-> [msg ->]]]]; simpl;
          split; congruence. }
      split.
      * intros Hn.
        assert (Hbt : b = true) by (destruct b; [reflexivity | lia]).
        subst b.
        assert (Hn' : n = (S count + List.length rest)%nat) by lia.
        intros other d' [<-|Hin] Hd'.
        -- rewrite Hown in Hd'. injection Hd' as <-. now apply Hb.
        -- apply (proj1 Hiff Hn' other d' Hin Hd').
      * intros Hall.
        assert (Hbt : b = true) by (apply Hb; apply (Hall name d1); [now left | exact Hown]).
        subst b.
        assert (Hn' : n = (S count + List.length rest)%nat).
        { apply Hiff. intros other d' Hin Hd'. apply (Hall other d'); [now right | exact Hd']. }
        lia.
Qed.

(** *** The documents the call selects *)

Lemma consistent_values_NoDup m :
  consistent m -> NoDup (dict_keys m) -> NoDup (dict_values m).
Proof.
  induction m as [|[k d] m IH]; intros Hc Hnd; cbn; [constructor|].
  inversion Hc as [|? ? Hd Hrest]; subst. cbn in Hd.
  cbn in Hnd. apply NoDup_cons_iff in Hnd as [Hk Hnd].
  constructor; [|now apply IH].
  intros Hin. apply Hk. unfold dict_values in Hin.
  apply in_map_iff in Hin as ([k' d'] & Heq & Hin). cbn in Heq. subst d'.
  unfold consistent in Hrest. rewrite Forall_forall in Hrest.
  specialize (Hrest _ Hin). cbn in Hrest. rewrite Hd in Hrest. injection Hrest as <-.
  change k with (fst (k, d)). now apply in_map.
Qed.

Lemma NoDup_firstn (A : Type) (n : nat) (xs : list A) :
  NoDup xs -> NoDup (firstn n xs).
Proof.
  intros Hnd. rewrite <- (firstn_skipn n xs) in Hnd.
  now apply NoDup_app_remove_r in Hnd.
Qed.

(** The names of documents of a consistent ledger. *)
Lemma names_of_documents m (docs : list DocumentInfo) :
  consistent m -> NoDup (dict_keys m) -> NoDup docs ->
  (forall d, In d docs -> In d (dict_values m)) ->
  exists selected,
    map PStr selected = map Workflow.filename docs
    /\ NoDup selected
    /\ List.length selected = List.length docs
    /\ forall name, In name selected ->
         exists d, In d docs /\ dict_get name m = Some d.
Proof.
  intros Hc Hnd. induction docs as [|d docs IH]; intros Hdocs Hin.
  - exists []. cbn. repeat split; auto; [constructor | intros name []].
  - apply NoDup_cons_iff in Hdocs as [Hd Hdocs].
    destruct IH as (selected & Hmap & Hsel & Hlen & Hnames);
      [exact Hdocs | intros d' Hd'; apply Hin; now right |].
    assert (Hdm : In d (dict_values m)) by (apply Hin; now left).
    unfold dict_values in Hdm. apply in_map_iff in Hdm as ([name d'] & Heq & Hitem).
    cbn in Heq. subst d'.
    assert (Hg : dict_get name m = Some d) by now apply dict_get_In.
    exists (name :: selected). cbn [map List.length].
    split; [|split; [|split]].
    + rewrite Hmap. f_equal. symmetry. exact (consistent_get m name d Hc Hg).
    + constructor; [|exact Hsel]. intros Hn.
      destruct (Hnames name Hn) as (d' & Hd' & Hg'). rewrite Hg in Hg'.
      injection Hg' as <-. contradiction.
    + now rewrite Hlen.
    + intros other [<-|Hother].
      * exists d. split; [now left | exact Hg].
      * destruct (Hnames other Hother) as (d' & Hd' & Hg'). exists d'.
        split; [now right | exact Hg'].
Qed.

Lemma process_all_pending_eq (self : WorkflowManager) (clock : nat -> datetime) w
      (files : list pyval) (n : nat) w' :
  get_next_documents_for_processing PENDING 10 w = (Returns files, w) ->
  files <> [] ->
  move_pending self files clock 0 0 w = (Returns n, w') ->
  process_all_pending self clock w = (Returns (Nat.eqb n (List.length files)), w').
Proof.
  intros Hnext Hfiles Hloop. unfold process_all_pending, abind. rewrite Hnext.
  destruct files as [|file files]; [contradiction|]. now rewrite Hloop.
Qed.

(** X16.  [trigger_ai_processing()] without a file name, on a status
    file in good condition whose records carry their keys as [filename]
    and whose pending documents have [created_at] values that are all
    naive or all aware.  It never raises.  It handles the documents
    [get_next_documents_for_processing(PENDING)] selects, at most ten,
    and no others: every other record, and the set and order of the
    records, stay as they are.  Each selected document was pending and
    afterwards its record is unchanged (the file was not in
    [intake/pending]), or in [PROCESSING] with the message cleared, or
    in [ERROR] with a message; it keeps its [filename], [original_path],
    [created_at] and [metadata].  The result is [True] exactly when
    every selected document is in [PROCESSING] afterwards; with nothing
    pending it is [True] and nothing changes. *)
Theorem trigger_ai_processing_batch (self : WorkflowManager)
        (clock : nat -> datetime) w (flag : bool) :
  healthy w -> consistent (read_ledger w) ->
  (forall i, roundtrips (clock i)) ->
  (forall name d, dict_get name (read_ledger w) = Some d ->
                  current_state d = PENDING -> naive (created_at d) = flag) ->
  exists selected b w',
    get_next_documents_for_processing PENDING 10 w = (Returns (map PStr selected), w)
    /\ (List.length selected <= 10)%nat
    /\ trigger_ai_processing self None clock w = (Returns b, w')
    /\ healthy w'
    /\ dict_keys (read_ledger w') = dict_keys (read_ledger w)
    /\ (forall name, ~ In name selected ->
          dict_get name (read_ledger w') = dict_get name (read_ledger w))
    /\ (forall name, In name selected ->
          exists d d',
            dict_get name (read_ledger w) = Some d /\ current_state d = PENDING
            /\ dict_get name (read_ledger w') = Some d'
            /\ same_origin d d'
            /\ (d' = d
                \/ (exists now, d' = transitioned d PROCESSING None now)
                \/ (exists msg now, d' = transitioned d ERROR (Some msg) now)))
    /\ (b = true <->
        forall name d', In name selected ->
          dict_get name (read_ledger w') = Some d' -> current_state d' = PROCESSING)
    /\ (selected = [] -> b = true /\ w' = w).
Proof.
  intros Hh Hc Hclock Hflag.
  set (m := read_ledger w) in *.
  set (documents := filter (fun doc => state_eqb (current_state doc) PENDING)
                           (dict_values m)).
  assert (Hnd : NoDup (dict_keys m)) by apply read_ledger_NoDup.
  assert (Hlist : list_documents_by_state PENDING w = (Returns documents, w)).
  { unfold list_documents_by_state, abind. now rewrite get_workflow_status_eq. }
  assert (Hdocs : forall d, In d documents ->
                            In d (dict_values m) /\ current_state d = PENDING).
  { intros d Hd. unfold documents in Hd. apply filter_In in Hd as [Hd Hs].
    split; [exact Hd | now apply state_eqb_eq]. }
  assert (Hu : Forall (fun d => naive (created_at d) = flag) documents).
  { rewrite Forall_forall. intros d Hd. destruct (Hdocs d Hd) as [Hin Hs].
    unfold dict_values in Hin. apply in_map_iff in Hin as ([name d'] & Heq & Hitem).
    cbn in Heq. subst d'. apply (Hflag name d); [now apply dict_get_In | exact Hs]. }
  destruct (sort_by_key_sorted DocumentInfo created_at flag documents Hu)
    as (sorted & Hsort & Hperm & _).
  set (docs := firstn 10 sorted).
  assert (Hnext : get_next_documents_for_processing PENDING 10 w
                  = (Returns (map Workflow.filename docs), w)).
  { unfold get_next_documents_for_processing, abind, lift.
    now rewrite Hlist, Hsort. }
  assert (Hsub : forall d, In d docs -> In d documents).
  { intros d Hd. apply (Permutation_in d (Permutation_sym Hperm)).
    unfold docs in Hd. eapply firstn_subset. exact Hd. }
  assert (Hnddocs : NoDup docs).
  { apply NoDup_firstn. apply (Permutation_NoDup Hperm).
    apply NoDup_filter. now apply consistent_values_NoDup. }
  destruct (names_of_documents m docs Hc Hnd Hnddocs
              (fun d Hd => proj1 (Hdocs d (Hsub d Hd))))
    as (selected & Hmap & Hndsel & Hlen & Hnames).
  assert (Hpending : Forall (fun name => exists d, dict_get name (read_ledger w) = Some d
                                                   /\ current_state d = PENDING)
                            selected).
  { rewrite Forall_forall. intros name Hin.
    destruct (Hnames name Hin) as (d & Hd & Hg). exists d. split; [exact Hg|].
    exact (proj2 (Hdocs d (Hsub d Hd))). }
  destruct (move_pending_loop self clock selected 0 0 w Hh Hclock Hndsel Hpending)
    as (n & w' & Hloop & Hh' & Hkeys & Hother & Hsel & Hbound & Hiff).
  rewrite <- Hmap in Hnext.
  assert (Hten : (List.length selected <= 10)%nat).
  { rewrite Hlen. unfold docs. apply firstn_le_length. }
  destruct selected as [|name rest] eqn:Hselected.
  - exists [], true, w. split; [exact Hnext|]. split; [exact Hten|].
    split.
    { unfold trigger_ai_processing, atry, process_all_pending, abind.
      now rewrite Hnext. }
    split; [exact Hh|]. split; [reflexivity|]. split; [reflexivity|].
    split; [intros name []|]. split; [|auto].
    split; [intros _ name d' []|reflexivity].
  - rewrite <- Hselected in *.
    exists selected, (Nat.eqb n (List.length selected)), w'.
    split; [exact Hnext|]. split; [exact Hten|]. split.
    { unfold trigger_ai_processing, atry.
      rewrite (process_all_pending_eq self clock w (map PStr selected) n w' Hnext);
        [now rewrite length_map | rewrite Hselected; discriminate | exact Hloop]. }
    split; [exact Hh'|]. split; [exact Hkeys|]. split; [exact Hother|].
    split; [|split].
    + intros name0 Hin. destruct (Hnames name0 Hin) as (d & Hd & Hg).
      destruct (Hsel name0 d Hin Hg) as (d' & Hg' & Hso & Hcases).
      exists d, d'. split; [exact Hg|].
      split; [exact (proj2 (Hdocs d (Hsub d Hd)))|]. auto.
    + rewrite Nat.eqb_eq. cbn [Nat.add] in Hiff. exact Hiff.
    + rewrite Hselected. discriminate.
Qed.

(** X17.  [trigger_ai_processing] never raises.  With a file name that
    is not empty its result and effect are those of moving that document
    from pending to processing; with an empty name it does what it does
    without a name.  When the pending documents mix naive and aware
    [created_at] values, the call without a name returns [False] and
    changes nothing: the [TypeError] of the sort is swallowed. *)
Theorem trigger_ai_processing_never_raises (self : WorkflowManager)
        (filename : option string) (clock : nat -> datetime) w :
  (exists b w', trigger_ai_processing self filename clock w = (Returns b, w'))
  /\ (forall s, filename = Some s -> s <> EmptyString ->
        trigger_ai_processing self filename clock w
        = move_document self s PENDING PROCESSING (clock 0%nat) w)
  /\ (trigger_ai_processing self (Some EmptyString) clock w
      = trigger_ai_processing self None clock w)
  /\ ((exists d1 d2,
         In d1 (dict_values (read_ledger w)) /\ current_state d1 = PENDING
         /\ In d2 (dict_values (read_ledger w)) /\ current_state d2 = PENDING
         /\ naive (created_at d1) <> naive (created_at d2)) ->
      trigger_ai_processing self None clock w = (Returns false, w)).
Proof.
  assert (Hmove : forall s, exists b w',
             move_document self s PENDING PROCESSING (clock 0%nat) w = (Returns b, w')).
  { intros s. destruct (move_document_cases self w s PENDING PROCESSING (clock 0%nat))
      as (b & s' & calls & Hm & _). eauto. }
  assert (Hbatch : exists b w',
             atry (process_all_pending self clock) (fun _ => ret false) w
             = (Returns b, w')).
  { unfold atry. destruct (process_all_pending self clock w) as [[b|e] w'];
      [eauto | unfold ret; eauto]. }
  split; [|split; [|split]].
  - unfold trigger_ai_processing. destruct filename as [s|]; [|exact Hbatch].
    cbn [no_filename]. destruct (String.eqb s ""); [exact Hbatch|].
    unfold atry. destruct (Hmove s) as (b & w' & ->). eauto.
  - intros s -> Hs. unfold trigger_ai_processing. cbn [no_filename].
    destruct (String.eqb_spec s ""); [contradiction|].
    unfold atry. destruct (Hmove s) as (b & w' & ->). reflexivity.
  - reflexivity.
  - intros (d1 & d2 & Hd1 & Hs1 & Hd2 & Hs2 & Hne).
    unfold trigger_ai_processing, atry, process_all_pending, abind,
      get_next_documents_for_processing, list_documents_by_state, abind, lift.
    rewrite get_workflow_status_eq. unfold ret.
    set (documents := filter (fun doc => state_eqb (current_state doc) PENDING)
                             (dict_values (read_ledger w))).
    destruct (sort_by_key_mixed DocumentInfo created_at documents)
      as [[flag Hu]|Hraise]; [|now rewrite Hraise].
    rewrite Forall_forall in Hu. elim Hne.
    rewrite (Hu d1), (Hu d2); [reflexivity| |]; unfold documents; apply filter_In;
      (split; [assumption | now apply state_eqb_eq]).
Qed.

End Facts.
End UploaderFacts.

(** ** [trigger_ai_processing] at the sample data *)

Module UploaderExamples.
Import Py PyFacts Workflow WorkflowFacts Ref Samples Examples.
Import WorkflowMore WorkflowMoreFacts MoreSamples MoreExamples.
Import Uploader UploaderFacts UploaderSamples.

(** Two pending documents, of which one has its file: both are
    selected, and the ledger keeps its two records in their order. *)
Lemma pending_documents_triggered :
  exists selected b w',
    get_next_documents_for_processing PENDING 10 world_two_pending
    = (Returns (map PStr selected), world_two_pending)
    /\ trigger_ai_processing manager None (fun _ => t1100) world_two_pending
       = (Returns b, w')
    /\ dict_keys (read_ledger w') = ["a.pdf"; "b.pdf"]%string.
Proof.
  destruct (trigger_ai_processing_batch manager (fun _ => t1100) world_two_pending true)
    as (selected & b & w' & Hnext & _ & Hrun & _ & Hkeys & _).
  - healthy_by_evaluation.
  - consistent_by_evaluation.
  - intros i. roundtrip_by_evaluation.
  - intros name d.
    match goal with
    | |- dict_get _ ?l = _ -> _ => let l' := eval vm_compute in l in change l with l'
    end.
    cbn [dict_get].
    destruct (String.eqb name "a.pdf"); [intros [= <-] _; reflexivity|].
    destruct (String.eqb name "b.pdf"); [intros [= <-] _; reflexivity|].
    discriminate.
  - exists selected, b, w'. split; [exact Hnext|]. split; [exact Hrun|].
    rewrite Hkeys. vm_compute. reflexivity.
Defined.

(** A ledger that mixes naive and aware timestamps: the call answers
    [False] and nothing changes. *)
Lemma mixed_timestamps_trigger_fails :
  trigger_ai_processing manager None (fun _ => t1100) world_mixed
  = (Returns false, world_mixed).
Proof.
  destruct (trigger_ai_processing_never_raises manager None (fun _ => t1100) world_mixed)
    as (_ & _ & _ & Hmixed).
  apply Hmixed. exists doc_a, doc_b_aware.
  split; [vm_compute; left; reflexivity|]. split; [reflexivity|].
  split; [vm_compute; right; left; reflexivity|]. split; [reflexivity|].
  vm_compute. discriminate.
Defined.

End UploaderExamples.

(** ** [process_pending_documents] *)

Module PipelineFacts.
Import Py PyFacts DataModels ValidatorFacts Workflow WorkflowFacts.
Import WorkflowMore WorkflowMoreFacts Agent AgentFacts Pipeline.

Section Facts.
Context {limits : JsonLimits} `{FloatText} `{IsoCodec} `{StrOps} {Store : Type} `{StoreOps Store}
        `{AgentOps Store}.
Implicit Types (w : @World Store) (m : Ledger) (d : DocumentInfo).

(** *** Transitions and the store *)

Lemma with_store_store w : with_store w (store w) = w.
Proof. now destruct w. Qed.

Lemma transition_state_with_store w (s : Store) name st msg now :
  transition_state name st msg now (with_store w s)
  = (fst (transition_state name st msg now w),
     with_store (snd (transition_state name st msg now w)) s).
Proof.
  unfold transition_state, abind. rewrite !get_workflow_status_eq.
  rewrite read_ledger_with_store.
  destruct (dict_get name (read_ledger w)) as [d|]; [|reflexivity].
  rewrite save_workflow_status_with_store.
  match goal with
  | |- context [save_workflow_status ?m w] =>
      pose proof (save_workflow_status_returns m w) as Hr;
      destruct (save_workflow_status m w) as [r w1]
  end.
  cbn [fst snd] in *. subst r. reflexivity.
Qed.

Lemma transition_state_perform w name st msg now :
  transition_state name st msg now w
  = (Returns (dict_mem name (read_ledger w)), perform (Transition name st msg now) w).
Proof.
  destruct (transition_state_returns w name st msg now) as (w' & Hw' & _).
  cbn [perform]. now rewrite Hw'.
Qed.

Lemma transition_perform_with_store w (s : Store) name st msg now :
  transition_state name st msg now (with_store w s)
  = (Returns (dict_mem name (read_ledger w)),
     with_store (perform (Transition name st msg now) w) s).
Proof.
  rewrite transition_state_with_store, transition_state_perform. reflexivity.
Qed.

(** *** One document *)

(** The entry of one round and the transitions the round records. *)
Lemma process_file_cases (self : AIExtractionAgent) w name (now : Readings)
      (api : api_reply) :
  exists ok msg s' calls,
    process_file self name now api w
    = (Returns (PStr name, ok, msg), with_store (perform_all calls w) s')
    /\ ((ok = false
         /\ calls = [Transition name ERROR (Some msg) (failed_at now)])
        \/ (ok = true
            /\ calls = [Transition name EXTRACTED None (extracted_at now)])
        \/ (ok = false
            /\ calls = [Transition name EXTRACTED None (extracted_at now);
                        Transition name ERROR (Some msg) (failed_at now)]))
    /\ (ok = true ->
        exists text x message,
          process_document (api_key self) (inr text) api = (true, x, message)).
Proof.
  unfold process_file.
  set (filepath := str_path (joinpath (processing_dir self) name)).
  assert (Hfail : forall (s : Store) msg,
             (abind (transition_state name ERROR (Some msg) (failed_at now))
                    (fun _ => ret (PStr name, false, msg))) (with_store w s)
             = (Returns (PStr name, false, msg),
                with_store (perform_all [Transition name ERROR (Some msg) (failed_at now)] w)
                           s)).
  { intros s msg. unfold abind. rewrite transition_perform_with_store. reflexivity. }
  destruct (path_exists (store w) filepath); cbn [negb].
  - destruct (process_document (api_key self) (extract_text (store w) filepath) api)
      as [[[|] x] message] eqn:Hdoc.
    + (* the extraction succeeded *)
      set (output_filename :=
             (strftime_stamp (stamped_at now) ++ "_" ++ replace_dots name ++ ".json")%string).
      assert (Htext : exists text x0 message0,
                 process_document (api_key self) (inr text) api = (true, x0, message0)).
      { destruct (extract_text (store w) filepath) as [e|text] eqn:Hx.
        - cbn in Hdoc. discriminate Hdoc.
        - eauto. }
      unfold atry, save_results, abind, store_action.
      destruct (mkdir_parents (store w)
                  (path_parent (str_path (joinpath (extracted_dir self) output_filename))))
        as [[[]|e1] s1].
      * cbn [store with_store].
        destruct (save_grant_data s1 x
                    (str_path (joinpath (extracted_dir self) output_filename)))
          as [[[]|e2] s2].
        -- change (with_store (with_store w s1) s2) with (with_store w s2).
           rewrite transition_perform_with_store. cbn [store with_store].
           set (w1 := perform (Transition name EXTRACTED None (extracted_at now)) w).
           destruct (mkdir_parents s2 (processed_dir self)) as [[[]|e3] s3].
           ++ cbn [store with_store].
              destruct (path_rename s3 filepath
                          (str_path (joinpath (processed_dir self) name)))
                as [[[]|e4] s4].
              ** exists true, (MSG_EXTRACTED_TO ++ output_filename)%string, s4,
                   [Transition name EXTRACTED None (extracted_at now)].
                 split; [reflexivity|]. split; [right; left; auto | intros _; exact Htext].
              ** exists false, (MSG_NOT_SAVED ++ str_exn e4)%string, s4,
                   [Transition name EXTRACTED None (extracted_at now);
                    Transition name ERROR (Some (MSG_NOT_SAVED ++ str_exn e4)%string)
                               (failed_at now)].
                 split; [|split; [right; right; auto | discriminate]].
                 change (with_store (with_store (with_store w1 s2) s3) s4)
                   with (with_store w1 s4).
                 rewrite transition_perform_with_store. reflexivity.
           ++ exists false, (MSG_NOT_SAVED ++ str_exn e3)%string, s3,
                [Transition name EXTRACTED None (extracted_at now);
                 Transition name ERROR (Some (MSG_NOT_SAVED ++ str_exn e3)%string)
                            (failed_at now)].
              split; [|split; [right; right; auto | discriminate]].
              change (with_store (with_store w1 s2) s3) with (with_store w1 s3).
              rewrite transition_perform_with_store. reflexivity.
        -- exists false, (MSG_NOT_SAVED ++ str_exn e2)%string, s2,
             [Transition name ERROR (Some (MSG_NOT_SAVED ++ str_exn e2)%string)
                         (failed_at now)].
           split; [|split; [left; auto | discriminate]].
           change (with_store (with_store w s1) s2) with (with_store w s2).
           rewrite transition_perform_with_store. reflexivity.
      * exists false, (MSG_NOT_SAVED ++ str_exn e1)%string, s1,
          [Transition name ERROR (Some (MSG_NOT_SAVED ++ str_exn e1)%string)
                      (failed_at now)].
        split; [|split; [left; auto | discriminate]].
        rewrite transition_perform_with_store. reflexivity.
    + (* the extraction failed *)
      exists false, message, (store w),
        [Transition name ERROR (Some message) (failed_at now)].
      split; [|split; [left; auto | discriminate]].
      rewrite <- (with_store_store w) at 1. apply Hfail.
  - exists false, (MSG_NOT_FOUND ++ filepath)%string, (store w),
      [Transition name ERROR (Some (MSG_NOT_FOUND ++ filepath)%string) (failed_at now)].
    split; [|split; [left; auto | discriminate]].
    rewrite <- (with_store_store w) at 1. apply Hfail.
Qed.

(** The record of a document after its round. *)
Lemma process_file_ledger (self : AIExtractionAgent) w name d (now : Readings)
      (api : api_reply) :
  healthy w -> roundtrips (extracted_at now) -> roundtrips (failed_at now) ->
  dict_get name (read_ledger w) = Some d ->
  exists ok msg w' d',
    process_file self name now api w = (Returns (PStr name, ok, msg), w')
    /\ healthy w'
    /\ dict_keys (read_ledger w') = dict_keys (read_ledger w)
    /\ (forall other, other <> name ->
          dict_get other (read_ledger w') = dict_get other (read_ledger w))
    /\ dict_get name (read_ledger w') = Some d'
    /\ same_origin d d'
    /\ (ok = true ->
        current_state d' = EXTRACTED /\ Workflow.error_message d' = PNone
        /\ exists text x message,
             process_document (api_key self) (inr text) api = (true, x, message))
    /\ (ok = false ->
        current_state d' = ERROR /\ Workflow.error_message d' = PStr msg).
Proof.
  intros Hh Hext Hfail Hg.
  destruct (process_file_cases self w name now api)
    as (ok & msg & s' & calls & Hrun & Hcases & Htext).
  assert (Hall : Forall (fun c => roundtrips (call_time c)) calls).
  { destruct Hcases as [[_ ->]|[[_ ->]|[_ ->]]]; repeat constructor; assumption. }
  assert (Hfit : Forall call_storable calls).
  { destruct Hcases as [[_ ->]|[[_ ->]|[_ ->]]]; repeat constructor. }
  destruct (perform_all_refines calls w Hh Hall Hfit) as (Hh' & Hread & _).
  assert (Hothers : forall other, other <> name ->
             dict_get other (apply_calls calls (read_ledger w))
             = dict_get other (read_ledger w)).
  { intros other Hne. apply apply_calls_untouched.
    - destruct Hcases as [[_ ->]|[[_ ->]|[_ ->]]]; repeat constructor.
    - assert (Hneq : String.eqb name other = false)
        by (apply String.eqb_neq; congruence).
      destruct Hcases as [[_ ->]|[[_ ->]|[_ ->]]]; repeat constructor; exact Hneq. }
  assert (Hkeys : dict_keys (apply_calls calls (read_ledger w))
                  = dict_keys (read_ledger w)).
  { destruct Hcases as [[_ ->]|[[_ ->]|[_ ->]]]; unfold apply_calls; cbn [fold_left];
      rewrite ?apply_call_keys_transition; reflexivity. }
  exists ok, msg, (with_store (perform_all calls w) s').
  assert (Hone : forall st message t,
             dict_get name (apply_call (Transition name st message t) (read_ledger w))
             = Some (transitioned d st message t)).
  { intros st message t. simpl. rewrite Hg. apply dict_get_set_same. }
  destruct Hcases as [[-> ->]|[[-> ->]|[-> ->]]].
  - exists (transitioned d ERROR (Some msg) (failed_at now)).
    split; [exact Hrun|]. split; [now apply healthy_with_store|].
    rewrite read_ledger_with_store, Hread.
    split; [exact Hkeys|]. split; [exact Hothers|].
    split; [apply Hone|]. split; [unfold same_origin; simpl; auto|].
    split; [discriminate | intros _; simpl; auto].
  - exists (transitioned d EXTRACTED None (extracted_at now)).
    split; [exact Hrun|]. split; [now apply healthy_with_store|].
    rewrite read_ledger_with_store, Hread.
    split; [exact Hkeys|]. split; [exact Hothers|].
    split; [apply Hone|]. split; [unfold same_origin; simpl; auto|].
    split; [intros _; simpl; auto | discriminate].
  - exists (transitioned (transitioned d EXTRACTED None (extracted_at now))
                         ERROR (Some msg) (failed_at now)).
    split; [exact Hrun|]. split; [now apply healthy_with_store|].
    rewrite read_ledger_with_store, Hread.
    split; [exact Hkeys|]. split; [exact Hothers|].
    split.
    { unfold apply_calls. cbn [fold_left].
      set (m1 := apply_call (Transition name EXTRACTED None (extracted_at now))
                            (read_ledger w)).
      assert (Hm1 : dict_get name m1 = Some (transitioned d EXTRACTED None (extracted_at now)))
        by apply Hone.
      simpl. rewrite Hm1. apply dict_get_set_same. }
    split; [unfold same_origin; simpl; auto|].
    split; [discriminate | intros _; simpl; auto].
Qed.

(** *** The loop *)

Lemma process_loop_outcomes (self : AIExtractionAgent) (clock : nat -> Readings)
      (api : nat -> api_reply) (selected : list string) :
  forall k results w,
    healthy w ->
    (forall i, roundtrips (extracted_at (clock i)) /\ roundtrips (failed_at (clock i))) ->
    NoDup selected ->
    Forall (fun name => exists d, dict_get name (read_ledger w) = Some d) selected ->
    exists entries w',
      process_loop self (map PStr selected) clock api k results w
      = (Returns (results ++ entries), w')
      /\ map (fun entry => fst (fst entry)) entries = map PStr selected
      /\ healthy w'
      /\ dict_keys (read_ledger w') = dict_keys (read_ledger w)
      /\ (forall name, ~ In name selected ->
            dict_get name (read_ledger w') = dict_get name (read_ledger w))
      /\ (forall name ok msg, In (PStr name, ok, msg) entries ->
            In name selected
            /\ exists d d',
                 dict_get name (read_ledger w) = Some d
                 /\ dict_get name (read_ledger w') = Some d'
                 /\ same_origin d d'
                 /\ (ok = true ->
                     current_state d' = EXTRACTED /\ Workflow.error_message d' = PNone
                     /\ exists i text x message,
                          process_document (api_key self) (inr text) (api i)
                          = (true, x, message))
                 /\ (ok = false ->
                     current_state d' = ERROR /\ Workflow.error_message d' = PStr msg)).
Proof.
  induction selected as [|name rest IH]; intros k results w Hh Hclock Hnd Hknown.
  - exists [], w. cbn [map process_loop]. rewrite app_nil_r.
    split; [reflexivity|]. split; [reflexivity|]. split; [exact Hh|].
    split; [reflexivity|]. split; [reflexivity|]. intros name ok msg [].
  - apply NoDup_cons_iff in Hnd as [Hname Hnd].
    inversion Hknown as [|? ? (d & Hg) Hrest]; subst.
    destruct (process_file_ledger self w name d (clock k) (api k) Hh
                (proj1 (Hclock k)) (proj2 (Hclock k)) Hg)
      as (ok1 & msg1 & w1 & d1 & Hrun & Hh1 & Hk1 & Ho1 & Hg1 & Hsame1 & Hok1 & Hko1).
    assert (Hrest1 : Forall (fun name => exists d, dict_get name (read_ledger w1) = Some d)
                            rest).
    { rewrite Forall_forall in Hrest |- *. intros other Hin.
      rewrite Ho1; [now apply Hrest|]. intros ->. contradiction. }
    destruct (IH (S k) (results ++ [(PStr name, ok1, msg1)]) w1 Hh1 Hclock Hnd Hrest1)
      as (entries & w' & Hloop & Hmap & Hh' & Hk' & Ho' & Hentries).
    exists ((PStr name, ok1, msg1) :: entries), w'.
    split; [|split; [|split; [exact Hh'|split; [congruence|split]]]].
    + cbn [map process_loop process_one]. unfold abind. rewrite Hrun.
      rewrite Hloop, <- app_assoc. reflexivity.
    + cbn [map fst]. now rewrite Hmap.
    + intros other Hother. rewrite Ho'.
      * apply Ho1. intros ->. apply Hother. now left.
      * intros Hin. apply Hother. now right.
    + intros other ok msg [Hfirst|Hin].
      * injection Hfirst as <- <- <-. split; [now left|].
        exists d, d1. split; [exact Hg|].
        split; [rewrite (Ho' name Hname); exact Hg1|]. split; [exact Hsame1|].
        split; [|exact Hko1].
        intros Hok. destruct (Hok1 Hok) as (Hs & Hm & text & x & message & Hdoc).
        split; [exact Hs|]. split; [exact Hm|]. exists k, text, x, message. exact Hdoc.
      * destruct (Hentries other ok msg Hin) as (Hsel & d0 & d' & Hd0 & Hd' & Hrec).
        split; [now right|]. exists d0, d'. split; [|split; [exact Hd'|exact Hrec]].
        rewrite <- Hd0. symmetry. apply Ho1. intros ->. contradiction.
Qed.

(** Without API key no extraction succeeds. *)
Lemma process_document_needs_key (key : option string) (extracted : agent_exn + string)
      (api : api_reply) (x : Extraction) (message : string) :
  process_document key extracted api = (true, x, message) ->
  no_api_key key = false.
Proof.
  destruct (no_api_key key) eqn:Hkey; [|reflexivity].
  unfold process_document, failed.
  destruct extracted as [e|text]; [discriminate|].
  destruct (String.eqb (py_strip text) ""); [discriminate|].
  unfold _call_openai. rewrite Hkey.
  rewrite simulated_response_parsed.
  rewrite validate_with_investigator; [discriminate|].
  vm_compute. discriminate.
Qed.

(** X18.  [process_pending_documents] on a status file in good
    condition whose records carry their keys as [filename] and whose
    documents in [PROCESSING] have [created_at] values that are all
    naive or all aware.  It never raises and returns one entry for each
    document [get_next_documents_for_processing(PROCESSING, limit)]
    selects, in that order.  No selected document is left in
    [PROCESSING]: an entry reporting success belongs to a record that is
    now [EXTRACTED] without message, an entry reporting failure to a
    record that is now [ERROR] with the message of the entry; both keep
    [filename], [original_path], [created_at] and [metadata].  The other
    records and the set and order of the records stay as they are.  A
    success requires an API key: without one every selected document
    ends in [ERROR]. *)
Theorem process_pending_documents_outcomes (self : AIExtractionAgent) (limit : Z)
        (clock : nat -> Readings) (api : nat -> api_reply) w (flag : bool) :
  healthy w -> consistent (read_ledger w) ->
  (forall i, roundtrips (extracted_at (clock i)) /\ roundtrips (failed_at (clock i))) ->
  (forall name d, dict_get name (read_ledger w) = Some d ->
                  current_state d = PROCESSING -> naive (created_at d) = flag) ->
  exists selected results w',
    get_next_documents_for_processing PROCESSING limit w
    = (Returns (map PStr selected), w)
    /\ process_pending_documents self limit clock api w = (Returns results, w')
    /\ map (fun entry => fst (fst entry)) results = map PStr selected
    /\ healthy w'
    /\ dict_keys (read_ledger w') = dict_keys (read_ledger w)
    /\ (forall name, ~ In name selected ->
          dict_get name (read_ledger w') = dict_get name (read_ledger w))
    /\ (forall name ok msg, In (PStr name, ok, msg) results ->
          In name selected
          /\ exists d d',
               dict_get name (read_ledger w) = Some d
               /\ current_state d = PROCESSING
               /\ dict_get name (read_ledger w') = Some d'
               /\ same_origin d d'
               /\ (ok = true ->
                   current_state d' = EXTRACTED /\ Workflow.error_message d' = PNone
                   /\ no_api_key (api_key self) = false)
               /\ (ok = false ->
                   current_state d' = ERROR /\ Workflow.error_message d' = PStr msg)).
Proof.
  intros Hh Hc Hclock Hflag.
  set (m := read_ledger w) in *.
  set (documents := filter (fun doc => state_eqb (current_state doc) PROCESSING)
                           (dict_values m)).
  assert (Hnd : NoDup (dict_keys m)) by apply read_ledger_NoDup.
  assert (Hlist : list_documents_by_state PROCESSING w = (Returns documents, w)).
  { unfold list_documents_by_state, abind. now rewrite get_workflow_status_eq. }
  assert (Hdocs : forall d, In d documents ->
                            In d (dict_values m) /\ current_state d = PROCESSING).
  { intros d Hd. unfold documents in Hd. apply filter_In in Hd as [Hd Hs].
    split; [exact Hd | now apply state_eqb_eq]. }
  assert (Hu : Forall (fun d => naive (created_at d) = flag) documents).
  { rewrite Forall_forall. intros d Hd. destruct (Hdocs d Hd) as [Hin Hs].
    unfold dict_values in Hin. apply in_map_iff in Hin as ([name d'] & Heq & Hitem).
    cbn in Heq. subst d'. apply (Hflag name d); [now apply dict_get_In | exact Hs]. }
  destruct (sort_by_key_sorted DocumentInfo created_at flag documents Hu)
    as (sorted & Hsort & Hperm & _).
  set (docs := slice_to limit sorted).
  assert (Hnext : get_next_documents_for_processing PROCESSING limit w
                  = (Returns (map Workflow.filename docs), w)).
  { unfold get_next_documents_for_processing, abind, lift.
    now rewrite Hlist, Hsort. }
  assert (Hslice : exists n, docs = firstn n sorted).
  { unfold docs, slice_to. destruct (0 <=? limit); eauto. }
  destruct Hslice as [n Hslice].
  assert (Hsub : forall d, In d docs -> In d documents).
  { intros d Hd. apply (Permutation_in d (Permutation_sym Hperm)).
    rewrite Hslice in Hd. eapply firstn_subset. exact Hd. }
  assert (Hnddocs : NoDup docs).
  { rewrite Hslice. apply UploaderFacts.NoDup_firstn. apply (Permutation_NoDup Hperm).
    apply NoDup_filter. now apply UploaderFacts.consistent_values_NoDup. }
  destruct (UploaderFacts.names_of_documents m docs Hc Hnd Hnddocs
              (fun d Hd => proj1 (Hdocs d (Hsub d Hd))))
    as (selected & Hmap & Hndsel & Hlen & Hnames).
  assert (Hknown : Forall (fun name => exists d, dict_get name (read_ledger w) = Some d)
                          selected).
  { rewrite Forall_forall. intros name Hin.
    destruct (Hnames name Hin) as (d & _ & Hg). eauto. }
  destruct (process_loop_outcomes self clock api selected 0 [] w Hh Hclock Hndsel Hknown)
    as (entries & w' & Hloop & Hentries_map & Hh' & Hkeys & Hother & Hentries).
  rewrite <- Hmap in Hnext. cbn [app] in Hloop.
  assert (Hrun : process_pending_documents self limit clock api w
                 = (Returns entries, w')).
  { unfold process_pending_documents, abind. rewrite Hnext.
    destruct selected as [|name rest].
    - cbn in Hloop |- *. unfold ret in *. exact Hloop.
    - exact Hloop. }
  exists selected, entries, w'.
  split; [exact Hnext|]. split; [exact Hrun|]. split; [exact Hentries_map|].
  split; [exact Hh'|]. split; [exact Hkeys|]. split; [exact Hother|].
  intros name ok msg Hin.
  destruct (Hentries name ok msg Hin) as (Hsel & d & d' & Hd & Hd' & Hsame & Hok & Hko).
  split; [exact Hsel|]. exists d, d'. split; [exact Hd|].
  split.
  { destruct (Hnames name Hsel) as (d0 & Hd0 & Hg0). fold m in Hd.
    rewrite Hg0 in Hd. injection Hd as <-. exact (proj2 (Hdocs d0 (Hsub d0 Hd0))). }
  split; [exact Hd'|]. split; [exact Hsame|]. split; [|exact Hko].
  intros Hok'. destruct (Hok Hok') as (Hs & Hm & i & text & x & message & Hdoc).
  split; [exact Hs|]. split; [exact Hm|].
  exact (process_document_needs_key _ _ _ _ _ Hdoc).
Qed.

End Facts.
End PipelineFacts.

(** ** [process_pending_documents] at the sample data *)

Module PipelineExamples.
Import Py PyFacts Workflow WorkflowFacts Ref Samples Examples.
Import WorkflowMore WorkflowMoreFacts MoreSamples MoreExamples.
Import Agent AgentSamples Pipeline PipelineFacts PipelineSamples.

(** Two documents in processing, of which one has its file: the first
    is extracted, the second goes to [ERROR] as not found. *)
Lemma documents_in_processing_handled :
  exists w',
    process_pending_documents keyed_agent 5 clock_1100 budget_api world_in_processing
    = (Returns [entry_a; entry_b], w')
    /\ (exists d', dict_get "a.pdf" (read_ledger w') = Some d'
                   /\ current_state d' = EXTRACTED)
    /\ (exists d', dict_get "b.pdf" (read_ledger w') = Some d'
                   /\ current_state d' = ERROR
                   /\ Workflow.error_message d'
                      = PStr "File not found: intake/processing/b.pdf").
Proof.
  destruct (process_pending_documents_outcomes keyed_agent 5 clock_1100 budget_api
              world_in_processing true)
    as (selected & results & w' & _ & Hrun & _ & _ & _ & _ & Hentries).
  - healthy_by_evaluation.
  - consistent_by_evaluation.
  - intros i. split; roundtrip_by_evaluation.
  - intros name d.
    match goal with
    | |- dict_get _ ?l = _ -> _ => let l' := eval vm_compute in l in change l with l'
    end.
    cbn [dict_get].
    destruct (String.eqb name "a.pdf"); [intros [= <-] _; reflexivity|].
    destruct (String.eqb name "b.pdf"); [intros [= <-] _; reflexivity|].
    discriminate.
  - assert (Hres : fst (process_pending_documents keyed_agent 5 clock_1100 budget_api
                          world_in_processing)
                   = Returns [entry_a; entry_b])
      by (vm_compute; reflexivity).
    rewrite Hrun in Hres. cbn [fst] in Hres. injection Hres as ->.
    exists w'. split; [exact Hrun|]. split.
    + destruct (Hentries "a.pdf"%string true _ (or_introl eq_refl))
        as (_ & d & d' & _ & _ & Hd' & _ & Hok & _).
      exists d'. split; [exact Hd'|]. apply Hok. reflexivity.
    + destruct (Hentries "b.pdf"%string false _ (or_intror (or_introl eq_refl)))
        as (_ & d & d' & _ & _ & Hd' & _ & _ & Hko).
      exists d'. split; [exact Hd'|]. apply Hko. reflexivity.
Defined.

End PipelineExamples.

(** ** [print_workflow_summary] *)

Module SummaryFacts.
Import Py PyFacts Workflow WorkflowFacts WorkflowMoreFacts Summary.

(** *** The descending sort *)

Section SortReverseFacts.
Variable A : Type.
Variable key : A -> datetime.
Variable flag : bool.

Local Notation "'uniform'" := (Forall (fun x => naive (key x) = flag)).
Local Notation "'ge'" := (fun x y : A => instant (key y) <= instant (key x)).

Lemma insert_by_key_reverse_sorted (x : A) (xs : list A) :
  naive (key x) = flag -> uniform xs ->
  exists ys,
    insert_by_key_reverse key x xs = Returns ys
    /\ Permutation (x :: xs) ys
    /\ (StronglySorted ge xs -> StronglySorted ge ys).
Proof.
  intros Hx Hxs. induction Hxs as [|y xs Hy Hxs IH].
  - exists [x]. simpl. repeat split; auto. intros _. repeat constructor.
  - destruct IH as (ys & Hins & Hperm & Hsorted).
    simpl. rewrite (dt_lt_uniform _ _ flag Hx Hy). cbn [bind].
    destruct (instant (key x) <? instant (key y)) eqn:Hlt.
    + apply Z.ltb_lt in Hlt. rewrite Hins. cbn [bind].
      exists (y :: ys). split; [reflexivity|]. split.
      * rewrite perm_swap. now constructor.
      * intros Hs. inversion Hs as [|? ? Hs' Hall]; subst.
        constructor; [now apply Hsorted|].
        apply (Permutation_Forall Hperm). constructor; [cbv beta; lia | exact Hall].
    + apply Z.ltb_ge in Hlt. exists (x :: y :: xs).
      split; [reflexivity|]. split; [reflexivity|].
      intros Hs. constructor; [exact Hs|].
      inversion Hs as [|? ? Hs' Hall]; subst.
      constructor; [exact Hlt|].
      eapply Forall_impl; [|exact Hall]. cbv beta. intros z Hz. lia.
Qed.

Lemma sorted_reverse_sorted (xs : list A) :
  uniform xs ->
  exists ys,
    sorted_reverse key xs = Returns ys
    /\ Permutation xs ys
    /\ StronglySorted ge ys.
Proof.
  intros Hxs. induction Hxs as [|x xs Hx Hxs IH].
  - exists []. simpl. repeat split; auto. constructor.
  - destruct IH as (ys & Hsort & Hperm & Hsorted).
    destruct (insert_by_key_reverse_sorted x ys Hx (Permutation_Forall Hperm Hxs))
      as (zs & Hins & Hperm' & Hsorted').
    exists zs. simpl. rewrite Hsort. cbn [bind]. split; [exact Hins|]. split.
    + rewrite <- Hperm'. now constructor.
    + now apply Hsorted'.
Qed.

End SortReverseFacts.

Lemma sorted_reverse_mixed (A : Type) (key : A -> datetime) (xs : list A) :
  (exists flag, Forall (fun x => naive (key x) = flag) xs)
  \/ sorted_reverse key xs
     = Raises (TypeError "can't compare offset-naive and offset-aware datetimes").
Proof.
  induction xs as [|x xs IH].
  - left. exists true. constructor.
  - destruct IH as [[flag Hu]|Hraise].
    + destruct (Bool.bool_dec (naive (key x)) flag) as [Hx|Hx].
      * left. exists flag. now constructor.
      * destruct (sorted_reverse_sorted A key flag xs Hu) as (ys & Hsort & Hperm & _).
        destruct ys as [|y ys].
        -- apply Permutation_sym, Permutation_nil in Hperm. subst xs.
           left. exists (naive (key x)). repeat constructor.
        -- right. simpl. rewrite Hsort. cbn [bind insert_by_key_reverse].
           rewrite dt_lt_mixed; [reflexivity|].
           assert (Hy : naive (key y) = flag).
           { apply (Permutation_Forall Hperm) in Hu. now inversion Hu. }
           congruence.
    + right. simpl. now rewrite Hraise.
Qed.

(** *** Counting by state *)

Lemma state_eqb_refl (s : WorkflowState) : state_eqb s s = true.
Proof. now apply state_eqb_eq. Qed.

Lemma state_eqb_sym (a b : WorkflowState) : state_eqb a b = state_eqb b a.
Proof. unfold state_eqb. apply String.eqb_sym. Qed.

Lemma counts_get_set (state state' : WorkflowState) (n default : nat)
      (state_counts : Counts) :
  counts_get state' default (counts_set state n state_counts)
  = if state_eqb state' state then n else counts_get state' default state_counts.
Proof.
  induction state_counts as [|[s m] rest IH]; cbn [counts_set counts_get].
  - reflexivity.
  - destruct (state_eqb state s) eqn:Hs; cbn [counts_get].
    + apply state_eqb_eq in Hs. subst s.
      destruct (state_eqb state' state); reflexivity.
    + destruct (state_eqb state' s) eqn:Hs'.
      * apply state_eqb_eq in Hs'. subst s.
        rewrite state_eqb_sym, Hs. reflexivity.
      * exact IH.
Qed.

Lemma count_states_get (state : WorkflowState) (docs : list DocumentInfo) :
  forall state_counts,
    counts_get state 0 (count_states docs state_counts)
    = (counts_get state 0 state_counts
       + List.length (filter (fun doc => state_eqb (current_state doc) state) docs))%nat.
Proof.
  induction docs as [|doc docs IH]; intros state_counts; cbn [count_states filter].
  - cbn. lia.
  - rewrite IH, counts_get_set. rewrite (state_eqb_sym state (current_state doc)).
    destruct (state_eqb (current_state doc) state) eqn:Hs; cbn [List.length].
    + apply state_eqb_eq in Hs. subst state. lia.
    + lia.
Qed.

Lemma count_lines_eq (states : list WorkflowState) (state_counts : Counts) :
  count_lines states state_counts
  = map (fun state => StateCount state (counts_get state 0 state_counts))
        (filter (fun state => (0 <? counts_get state 0 state_counts)%nat) states).
Proof.
  induction states as [|state states IH]; cbn [count_lines filter]; [reflexivity|].
  destruct (0 <? counts_get state 0 state_counts)%nat; cbn [map]; now rewrite IH.
Qed.

Lemma counts_add_up (docs : list DocumentInfo) :
  list_sum (map (fun state =>
                   List.length (filter (fun doc => state_eqb (current_state doc) state)
                                       docs))
                ALL_STATES)
  = List.length docs.
Proof.
  induction docs as [|doc docs IH]; [reflexivity|].
  unfold ALL_STATES in *. simpl in IH |- *.
  destruct (current_state doc); simpl; lia.
Qed.

Section Facts.
Context {limits : JsonLimits} `{IsoCodec} {Store : Type} `{StoreOps Store}.
Implicit Types (w : @World Store).

Lemma print_workflow_summary_nonempty w :
  read_ledger w <> [] ->
  print_workflow_summary w
  = (let documents := dict_values (read_ledger w) in
     let summary := SummaryHeader :: count_lines ALL_STATES (count_states documents []) in
     match sorted_reverse updated_at documents with
     | Returns sorted =>
         match slice_to 5 sorted with
         | [] => (summary, Returns tt)
         | _ :: _ =>
             (summary ++ ActivityHeader :: map activity_line (slice_to 5 sorted),
              Returns tt)
         end
     | Raises e => (summary, Raises e)
     end).
Proof.
  intros Hne. unfold print_workflow_summary.
  destruct (read_ledger w); [contradiction | reflexivity].
Qed.

(** X19.  The lines of [print_workflow_summary].  With no document the
    one line says so.  Otherwise the summary shows, in the order of the
    enumeration, exactly the states that have documents, each with the
    number of documents [list_documents_by_state] returns for it, and
    these numbers add up to the number of records.  When the
    [updated_at] values are all naive or all aware, the recent activity
    follows: the first five records in descending order of
    [updated_at], all of them when there are fewer.  When naive and
    aware values are mixed the call raises [TypeError] after the summary
    has been printed. *)
Theorem print_workflow_summary_lines w :
  let documents := dict_values (read_ledger w) in
  let in_state := fun state =>
    filter (fun doc => state_eqb (current_state doc) state) documents in
  let summary :=
    SummaryHeader
      :: map (fun state => StateCount state (List.length (in_state state)))
             (filter (fun state => (0 <? List.length (in_state state))%nat) ALL_STATES) in
  (forall state, list_documents_by_state state w = (Returns (in_state state), w))
  /\ list_sum (map (fun state => List.length (in_state state)) ALL_STATES)
     = List.length documents
  /\ (documents = [] -> print_workflow_summary w = ([NoDocuments], Returns tt))
  /\ (documents <> [] ->
      (forall flag,
         Forall (fun doc => naive (updated_at doc) = flag) documents ->
         exists sorted,
           print_workflow_summary w
           = (summary ++ ActivityHeader :: map activity_line (firstn 5 sorted),
              Returns tt)
           /\ Permutation documents sorted
           /\ StronglySorted
                (fun a b => instant (updated_at b) <= instant (updated_at a)) sorted
           /\ List.length (firstn 5 sorted) = Nat.min 5 (List.length documents))
      /\ ((exists d1 d2, In d1 documents /\ In d2 documents
                         /\ naive (updated_at d1) <> naive (updated_at d2)) ->
          print_workflow_summary w
          = (summary,
             Raises (TypeError "can't compare offset-naive and offset-aware datetimes")))).
Proof.
  intros documents in_state summary.
  assert (Hcounts : forall state,
             counts_get state 0 (count_states documents [])
             = List.length (in_state state)).
  { intros state. rewrite count_states_get. reflexivity. }
  assert (Hsummary : SummaryHeader :: count_lines ALL_STATES (count_states documents [])
                     = summary).
  { unfold summary. f_equal. rewrite count_lines_eq.
    rewrite (filter_ext _ (fun state => (0 <? List.length (in_state state))%nat))
      by (intros state; now rewrite Hcounts).
    apply map_ext. intros state. now rewrite Hcounts. }
  split; [|split; [|split]].
  - intros state. unfold list_documents_by_state, abind.
    now rewrite get_workflow_status_eq.
  - apply counts_add_up.
  - unfold documents, print_workflow_summary.
    destruct (read_ledger w); [reflexivity | discriminate].
  - intros Hne.
    assert (Hledger : read_ledger w <> []).
    { intros Hempty. apply Hne. unfold documents. now rewrite Hempty. }
    rewrite (print_workflow_summary_nonempty w Hledger). cbv zeta. fold documents.
    rewrite Hsummary. split.
    + intros flag Hu.
      destruct (sorted_reverse_sorted DocumentInfo updated_at flag documents Hu)
        as (sorted & Hsort & Hperm & Hsorted).
      exists sorted. rewrite Hsort.
      assert (Hslice : slice_to 5 sorted = firstn 5 sorted) by reflexivity.
      rewrite Hslice.
      assert (Hlen : List.length (firstn 5 sorted) = Nat.min 5 (List.length documents)).
      { rewrite length_firstn. now rewrite (Permutation_length Hperm). }
      split; [|auto].
      destruct (firstn 5 sorted) as [|doc docs] eqn:Hfirst; [|reflexivity].
      exfalso. cbn [List.length] in Hlen.
      destruct documents; [now apply Hne | cbn [List.length] in Hlen; lia].
    + intros (d1 & d2 & H1 & H2 & Hmixed).
      destruct (sorted_reverse_mixed DocumentInfo updated_at documents)
        as [[flag Hu]|Hraise]; [|now rewrite Hraise].
      rewrite Forall_forall in Hu. elim Hmixed. now rewrite (Hu d1 H1), (Hu d2 H2).
Qed.

End Facts.
End SummaryFacts.

(** ** [print_workflow_summary] at the sample data *)

Module SummaryExamples.
Import Py PyFacts Workflow WorkflowFacts Ref Samples Examples.
Import WorkflowMore MoreSamples Summary SummaryFacts.

(** After the sample history the summary counts one document in
    processing and one in error, and shows both as recent activity. *)
Lemma summary_after_history :
  exists sorted,
    print_workflow_summary world_failed
    = ([SummaryHeader; StateCount PROCESSING 1; StateCount ERROR 1]
         ++ ActivityHeader :: map activity_line (firstn 5 sorted),
       Returns tt)
    /\ List.length (firstn 5 sorted) = 2%nat.
Proof.
  destruct (print_workflow_summary_lines world_failed) as (_ & _ & _ & Hlines).
  destruct Hlines as [Huniform _]; [vm_compute; discriminate|].
  destruct (Huniform true) as (sorted & Hprint & _ & _ & Hlen).
  - match goal with
    | |- Forall ?P ?l => let l' := eval vm_compute in l in change (Forall P l')
    end.
    repeat (apply Forall_cons; [reflexivity|]). apply Forall_nil.
  - exists sorted. split.
    + rewrite Hprint.
      apply (f_equal (fun summary =>
                        (summary ++ ActivityHeader :: map activity_line (firstn 5 sorted),
                         Returns tt))).
      vm_compute. reflexivity.
    + rewrite Hlen. vm_compute. reflexivity.
Defined.

End SummaryExamples.

(** ** What the validator reads *)

Module ValidatorReadsFacts.
Import Py DataModels ValidatorFacts ValidatorReads.

Section Facts.
Context `{FloatText} `{IsoCodec}.

Lemma field_value_of_confidence (f f' : option ExtractedField) :
  field_value_confidence f = field_value_confidence f' ->
  field_value f = field_value f'
  /\ option_map confidence f = option_map confidence f'.
Proof.
  destruct f as [e|], f' as [e'|]; cbn; try discriminate; [|auto].
  intros [= -> ->]. auto.
Qed.

Lemma field_missing_value (f f' : option ExtractedField) :
  field_value f = field_value f' ->
  field_missing (attr_of_field f) = field_missing (attr_of_field f').
Proof.
  destruct f as [e|], f' as [e'|]; cbn; try discriminate; [|auto].
  now intros [= ->].
Qed.

Lemma sum_components_values (b b' : BudgetSummary) (names : list string) :
  (forall name, field_value (budget_getattr b name)
                = field_value (budget_getattr b' name)) ->
  forall acc, sum_components b names acc = sum_components b' names acc.
Proof.
  intros Hb. induction names as [|name names IH]; intros acc; cbn [sum_components];
    [reflexivity|].
  specialize (Hb name).
  destruct (budget_getattr b name) as [f|], (budget_getattr b' name) as [f'|];
    cbn in Hb; try discriminate; [|apply IH].
  injection Hb as ->. destruct (truthy (value f')); [|apply IH].
  destruct (try_except _ _); cbn [bind]; [apply IH | reflexivity].
Qed.

(** X20.  The outcome of [validate] depends on a record only through
    the values and confidences of its own seven fields, the values of
    the project start and end dates, the values of the budget fields
    and the presence of a principal investigator.  The confidences of
    the dates and of the budget, the source texts and alternatives, the
    application date, the award date and the duration are never read:
    a low confidence there raises no flag. *)
Theorem validate_depends_on_view (g g' : GrantData) :
  view g = view g' -> validate g = validate g'.
Proof.
  unfold view. intros Hview.
  injection Hview as Hid Hname Hagency Hamount Htype Hstatus Hnotes Hstart Hend
                     Hpers Hequip Htravel Hsupp Hind Hother Htotal Hpi.
  destruct (field_value_of_confidence _ _ Hid) as [Vid Cid].
  destruct (field_value_of_confidence _ _ Hname) as [Vname Cname].
  destruct (field_value_of_confidence _ _ Hagency) as [Vagency Cagency].
  destruct (field_value_of_confidence _ _ Hamount) as [Vamount Camount].
  destruct (field_value_of_confidence _ _ Htype) as [Vtype Ctype].
  destruct (field_value_of_confidence _ _ Hstatus) as [Vstatus Cstatus].
  destruct (field_value_of_confidence _ _ Hnotes) as [Vnotes Cnotes].
  assert (Hrequired : check_required_fields g REQUIRED_FIELDS
                      = check_required_fields g' REQUIRED_FIELDS).
  { unfold REQUIRED_FIELDS. cbn [check_required_fields].
    change (getattr g "grant_id") with (attr_of_field (grant_id g)).
    change (getattr g' "grant_id") with (attr_of_field (grant_id g')).
    change (getattr g "grant_name") with (attr_of_field (grant_name g)).
    change (getattr g' "grant_name") with (attr_of_field (grant_name g')).
    change (getattr g "funding_agency") with (attr_of_field (funding_agency g)).
    change (getattr g' "funding_agency") with (attr_of_field (funding_agency g')).
    change (getattr g "award_amount") with (attr_of_field (award_amount g)).
    change (getattr g' "award_amount") with (attr_of_field (award_amount g')).
    rewrite (field_missing_value _ _ Vid), (field_missing_value _ _ Vname),
      (field_missing_value _ _ Vagency), (field_missing_value _ _ Vamount).
    change (getattr g "principal_investigator")
      with (match principal_investigator g with
            | Some m => AttrMember m | None => AttrNone end).
    change (getattr g' "principal_investigator")
      with (match principal_investigator g' with
            | Some m => AttrMember m | None => AttrNone end).
    destruct (principal_investigator g), (principal_investigator g');
      cbn in Hpi; try discriminate; reflexivity. }
  assert (Hcheck_dates : check_dates (timeline g) = check_dates (timeline g')).
  { unfold check_dates.
    destruct (project_start_date (timeline g)) as [s|],
             (project_start_date (timeline g')) as [s'|];
      cbn in Hstart; try discriminate; [|reflexivity].
    destruct (project_end_date (timeline g)) as [e|],
             (project_end_date (timeline g')) as [e'|];
      cbn in Hend; try discriminate; [|reflexivity].
    injection Hstart as ->. injection Hend as ->. reflexivity. }
  assert (Hcheck_budget : check_budget (budget g) = check_budget (budget g')).
  { unfold check_budget.
    assert (Hsum : forall acc,
               sum_components (budget g) BUDGET_COMPONENTS acc
               = sum_components (budget g') BUDGET_COMPONENTS acc).
    { apply sum_components_values. intros name. unfold budget_getattr.
      repeat match goal with
             | |- context [String.eqb name ?k] => destruct (String.eqb name k)
             end; auto. }
    destruct (total (budget g)) as [t|], (total (budget g')) as [t'|];
      cbn in Htotal; try discriminate; [|reflexivity].
    injection Htotal as ->. destruct (truthy (value t')); [|reflexivity].
    destruct (py_float (value t')); cbn [bind]; [|reflexivity].
    now rewrite Hsum. }
  assert (Hcheck_amount : check_award_amount g = check_award_amount g').
  { unfold check_award_amount.
    destruct (award_amount g) as [a|], (award_amount g') as [a'|];
      cbn in Vamount; try discriminate; [|reflexivity].
    now injection Vamount as ->. }
  assert (Hlow : low_confidence_entry g = low_confidence_entry g').
  { unfold low_confidence_entry, low_confidence_fields, extracted_attributes.
    cbn [filter map snd fst].
    assert (Hone : forall f f' : option ExtractedField,
               option_map confidence f = option_map confidence f' ->
               match f with Some e => is_low (confidence e) | None => false end
               = match f' with Some e => is_low (confidence e) | None => false end).
    { intros [e|] [e'|]; cbn; try discriminate; [|reflexivity]. now intros [= ->]. }
    rewrite (Hone _ _ Cid), (Hone _ _ Cname), (Hone _ _ Cagency), (Hone _ _ Camount),
      (Hone _ _ Ctype), (Hone _ _ Cstatus), (Hone _ _ Cnotes).
    repeat match goal with
           | |- context [if ?c then _ else _] => destruct c
           end; reflexivity. }
  unfold validate.
  now rewrite Hrequired, Hcheck_dates, Hcheck_budget, Hcheck_amount, Hlow.
Qed.

End Facts.
End ValidatorReadsFacts.

(** ** The view of the validator at the sample data *)

Module ValidatorReadsExamples.
Import Py DataModels Ref Samples ValidatorSamples ValidatorReads ValidatorReadsFacts.

(** Dates of the lowest confidence, an application date that is no
    date, an award date that is a number: the validator answers as for
    the sample record. *)
Lemma doubtful_dates_not_flagged :
  validate sample_with_doubtful_dates = validate sample_without_investigator.
Proof.
  apply validate_depends_on_view. vm_compute. reflexivity.
Defined.

End ValidatorReadsExamples.

(** ** The basic fields of a parsed response *)

Module AgentFieldFacts.
Import Py DataModels Workflow Agent AgentFacts.

Lemma basic_attribute_set (g : GrantData) (name name' : string)
      (f : option ExtractedField) :
  In name BASIC_FIELDS -> In name' BASIC_FIELDS ->
  basic_attribute (set_basic g name f) name'
  = if String.eqb name' name then f else basic_attribute g name'.
Proof.
  unfold BASIC_FIELDS. cbn [In]. intros Hn Hn'.
  repeat match goal with
         | H : _ \/ _ |- _ => destruct H as [<-|H]
         | H : False |- _ => destruct H
         end; reflexivity.
Qed.

Lemma parse_basic_attribute (data : pyval) (name : string) (g g' : GrantData) :
  In name BASIC_FIELDS ->
  parse_basic data name g = Returns g' ->
  (forall name', In name' BASIC_FIELDS -> name' <> name ->
     basic_attribute g' name' = basic_attribute g name')
  /\ (py_contains name data = Returns false ->
      basic_attribute g' name = basic_attribute g name)
  /\ (py_contains name data = Returns true ->
      extract_entry data name = Returns (basic_attribute g' name)).
Proof.
  intros Hname. unfold parse_basic.
  destruct (py_contains name data) as [[|]|e] eqn:Hc; cbn [bind]; [| |discriminate].
  - destruct (extract_entry data name) as [f|e] eqn:He; cbn [bind]; [|discriminate].
    intros [= <-]. split; [|split; [discriminate|]].
    + intros name' Hname' Hne. rewrite basic_attribute_set by assumption.
      destruct (String.eqb_spec name' name); [contradiction | reflexivity].
    + intros _. rewrite basic_attribute_set by assumption.
      now rewrite String.eqb_refl.
  - intros [= <-]. split; [auto|]. split; [auto | discriminate].
Qed.

Lemma parse_timeline_basic (data : pyval) (g g' : GrantData) (name : string) :
  parse_timeline data g = Returns g' -> basic_attribute g' name = basic_attribute g name.
Proof.
  unfold parse_timeline.
  destruct (py_contains "timeline" data) as [[|]|e]; cbn [bind];
    [| now intros [= <-] | discriminate].
  destruct (py_getitem data "timeline") as [v|e]; cbn [bind]; [|discriminate].
  destruct (parse_section timeline_setattr v TIMELINE_FIELDS no_timeline);
    cbn [bind]; [|discriminate].
  now intros [= <-].
Qed.

Lemma parse_budget_basic (data : pyval) (g g' : GrantData) (name : string) :
  parse_budget data g = Returns g' -> basic_attribute g' name = basic_attribute g name.
Proof.
  unfold parse_budget.
  destruct (py_contains "budget" data) as [[|]|e]; cbn [bind];
    [| now intros [= <-] | discriminate].
  destruct (py_getitem data "budget") as [v|e]; cbn [bind]; [|discriminate].
  destruct (parse_section budget_setattr v BUDGET_FIELDS no_budget);
    cbn [bind]; [|discriminate].
  now intros [= <-].
Qed.

Lemma parse_principal_investigator_basic (data : pyval) (g g' : GrantData)
      (name : string) :
  parse_principal_investigator data g = Returns g' ->
  basic_attribute g' name = basic_attribute g name.
Proof.
  unfold parse_principal_investigator.
  destruct (py_contains "principal_investigator" data) as [[|]|e]; cbn [bind];
    [| now intros [= <-] | discriminate].
  destruct (py_getitem data "principal_investigator") as [v|e]; cbn [bind];
    [|discriminate].
  destruct (py_contains "name" v) as [[|]|e]; cbn [bind];
    [| now intros [= <-] | discriminate].
  destruct (extract_entry v "name"); cbn [bind]; [|discriminate].
  destruct (py_get_default v "role" (PDict [])) as [role_data|e]; cbn [bind];
    [|discriminate].
  destruct (py_get_default role_data "value" (PStr "Principal Investigator"));
    cbn [bind]; [|discriminate].
  destruct (py_get_default role_data "confidence" (PStr "high"));
    cbn [bind]; [|discriminate].
  destruct (create_field _ _); cbn [bind]; [|discriminate].
  now intros [= <-].
Qed.

(** Each basic attribute of the parse is what its own block made of
    the key. *)
Lemma parse_data_basic (data : pyval) (x : Extraction) (name : string) :
  parse_data data = Returns x -> In name BASIC_FIELDS ->
  (py_contains name data = Returns false ->
   basic_attribute (grant_data x) name = None)
  /\ (py_contains name data = Returns true ->
      extract_entry data name = Returns (basic_attribute (grant_data x) name)).
Proof.
  unfold parse_data. intros Hparse Hname.
  destruct (parse_basic data "grant_id" empty_grant_data) as [g1|] eqn:H1;
    cbn [bind] in Hparse; [|discriminate].
  destruct (parse_basic data "grant_name" g1) as [g2|] eqn:H2;
    cbn [bind] in Hparse; [|discriminate].
  destruct (parse_basic data "funding_agency" g2) as [g3|] eqn:H3;
    cbn [bind] in Hparse; [|discriminate].
  destruct (parse_basic data "award_amount" g3) as [g4|] eqn:H4;
    cbn [bind] in Hparse; [|discriminate].
  destruct (parse_basic data "grant_type" g4) as [g5|] eqn:H5;
    cbn [bind] in Hparse; [|discriminate].
  destruct (parse_timeline data g5) as [g6|] eqn:H6;
    cbn [bind] in Hparse; [|discriminate].
  destruct (parse_principal_investigator data g6) as [g7|] eqn:H7;
    cbn [bind] in Hparse; [|discriminate].
  destruct (parse_project data) as [a|] eqn:H8;
    cbn [bind] in Hparse; [|discriminate].
  destruct (parse_budget data g7) as [g9|] eqn:H9;
    cbn [bind] in Hparse; [|discriminate].
  injection Hparse as <-. cbn [grant_data].
  rewrite (parse_budget_basic _ _ _ name H9),
    (parse_principal_investigator_basic _ _ _ name H7),
    (parse_timeline_basic _ _ _ name H6).
  assert (Hin : forall k, In k BASIC_FIELDS ->
             k = "grant_id"%string \/ k = "grant_name"%string
             \/ k = "funding_agency"%string \/ k = "award_amount"%string
             \/ k = "grant_type"%string).
  { unfold BASIC_FIELDS. cbn [In]. intros k Hk. intuition auto. }
  destruct (parse_basic_attribute _ _ _ _ (or_introl eq_refl) H1) as (F1 & N1 & E1).
  destruct (parse_basic_attribute _ _ _ _ (or_intror (or_introl eq_refl)) H2)
    as (F2 & N2 & E2).
  destruct (parse_basic_attribute _ _ _ _
              (or_intror (or_intror (or_introl eq_refl))) H3) as (F3 & N3 & E3).
  destruct (parse_basic_attribute _ _ _ _
              (or_intror (or_intror (or_intror (or_introl eq_refl)))) H4)
    as (F4 & N4 & E4).
  destruct (parse_basic_attribute _ _ _ _
              (or_intror (or_intror (or_intror (or_intror (or_introl eq_refl))))) H5)
    as (F5 & N5 & E5).
  destruct (Hin name Hname) as [-> | [-> | [-> | [-> | ->]]]].
  - rewrite (F5 _ Hname), (F4 _ Hname), (F3 _ Hname), (F2 _ Hname) by discriminate.
    split; [intros Hc; now rewrite (N1 Hc) | exact E1].
  - rewrite (F5 _ Hname), (F4 _ Hname), (F3 _ Hname) by discriminate.
    split; [intros Hc; rewrite (N2 Hc); now apply F1 | exact E2].
  - rewrite (F5 _ Hname), (F4 _ Hname) by discriminate.
    split; [|exact E3].
    intros Hc. rewrite (N3 Hc), (F2 _ Hname), (F1 _ Hname) by discriminate.
    reflexivity.
  - rewrite (F5 _ Hname) by discriminate.
    split; [|exact E4].
    intros Hc. rewrite (N4 Hc), (F3 _ Hname), (F2 _ Hname), (F1 _ Hname) by discriminate.
    reflexivity.
  - split; [|exact E5].
    intros Hc. rewrite (N5 Hc), (F4 _ Hname), (F3 _ Hname), (F2 _ Hname), (F1 _ Hname)
      by discriminate.
    reflexivity.
Qed.

Lemma confidence_map_lookup (s : string) (level : ConfidenceLevel) :
  dict_get s confidence_map = Some level <-> s = confidence_value level.
Proof.
  unfold confidence_map. cbn [dict_get]. split.
  - destruct (String.eqb_spec s "high") as [->|_]; [now intros [= <-]|].
    destruct (String.eqb_spec s "medium") as [->|_]; [now intros [= <-]|].
    destruct (String.eqb_spec s "low") as [->|_]; [now intros [= <-]|].
    destruct (String.eqb_spec s "uncertain") as [->|_]; [now intros [= <-]|].
    discriminate.
  - intros ->. now destruct level.
Qed.

Lemma create_field_cases (v c : pyval) (f : option ExtractedField) :
  create_field v c = Returns f ->
  (v = PNone /\ f = None) \/ (exists level, f = Some (field v level)).
Proof.
  destruct v; cbn [create_field];
    try (intros [= <-]; left; now split);
    (destruct c; try discriminate; intros [= <-]; right; eauto).
Qed.

Lemma create_field_level (v c : pyval) (level : ConfidenceLevel) :
  create_field v c = Returns (Some (field v level)) ->
  exists s,
    c = PStr s
    /\ level = match dict_get (lower s) confidence_map with
               | Some known => known
               | None => UNCERTAIN
               end.
Proof.
  destruct v as [|b|z|f|text|l|items]; cbn [create_field]; try discriminate;
    (destruct c as [| | | |s| |]; try discriminate;
     intros Hf; exists s; split; [reflexivity|];
     unfold field in Hf; now injection Hf).
Qed.

Section Parsed.
Context {limits : JsonLimits}.

(** X21.  The basic fields of a parsed response.  For each of the five
    keys [grant_id], [grant_name], [funding_agency], [award_amount] and
    [grant_type] of a JSON object for which [parse_ai_response] returns,
    the later blocks do not disturb what the block of the key did: a
    key that is absent leaves the attribute unset; an entry whose value
    is absent or null leaves it unset too; otherwise the attribute
    holds the value of the entry with the confidence read from it.  A
    confidence name is recognised in any letter case, so the names the
    encoder writes read back as the same level; a confidence that is
    absent or is no level name gives [UNCERTAIN]. *)
Theorem parse_ai_response_basic_fields (d : dict pyval) (x : Extraction)
        (name : string) :
  parse_ai_response (Some (Document (PDict d))) = Returns x ->
  In name BASIC_FIELDS ->
  (dict_get name d = None -> basic_attribute (grant_data x) name = None)
  /\ (forall entry,
        dict_get name d = Some entry ->
        exists items,
          entry = PDict items
          /\ match dict_get "value" items with
             | None | Some PNone => basic_attribute (grant_data x) name = None
             | Some v =>
                 exists level,
                   basic_attribute (grant_data x) name = Some (field v level)
                   /\ match dict_get "confidence" items with
                      | None => level = UNCERTAIN
                      | Some c =>
                          exists s,
                            c = PStr s
                            /\ (forall known, lower s = confidence_value known ->
                                              level = known)
                            /\ ((forall known, lower s <> confidence_value known) ->
                                level = UNCERTAIN)
                      end
             end)
  /\ (forall level, dict_get (lower (confidence_value level)) confidence_map
                    = Some level).
Proof.
  cbn [parse_ai_response json_load].
  destruct (json_excess load_depth (PDict d)) as [[z|o]|]; cbn [load_error];
    intros Hparse Hname; try discriminate Hparse.
  destruct (parse_data_basic (PDict d) x name Hparse Hname) as [Habsent Hpresent].
  split; [|split].
  - intros Hg. apply Habsent. cbn [py_contains]. unfold dict_mem. now rewrite Hg.
  - intros entry Hg.
    assert (Hc : py_contains name (PDict d) = Returns true)
      by (cbn [py_contains]; unfold dict_mem; now rewrite Hg).
    specialize (Hpresent Hc). unfold extract_entry in Hpresent.
    cbn [py_getitem] in Hpresent. rewrite Hg in Hpresent. cbn [bind] in Hpresent.
    destruct entry as [| | | | |l|items]; try discriminate Hpresent.
    exists items. split; [reflexivity|].
    cbn [py_get py_get_default] in Hpresent.
    destruct (dict_get "value" items) as [v|]; cbn [bind] in Hpresent.
    + assert (Hlevel :
                forall c level,
                  create_field v c = Returns (Some (field v level)) ->
                  match dict_get "confidence" items with
                  | Some c' => c' = c
                  | None => c = PStr "uncertain"
                  end ->
                  match dict_get "confidence" items with
                  | None => level = UNCERTAIN
                  | Some c =>
                      exists s,
                        c = PStr s
                        /\ (forall known, lower s = confidence_value known ->
                                          level = known)
                        /\ ((forall known, lower s <> confidence_value known) ->
                            level = UNCERTAIN)
                  end).
      { intros c level Hfield Hconf.
        destruct (create_field_level v c level Hfield) as (s & -> & Hs).
        destruct (dict_get "confidence" items) as [c'|].
        - subst c'. exists s. split; [reflexivity|]. split.
          + intros known Hk. apply confidence_map_lookup in Hk.
            rewrite Hk in Hs. exact Hs.
          + intros Hnone.
            destruct (dict_get (lower s) confidence_map) as [known|] eqn:Hk;
              [apply confidence_map_lookup in Hk; now elim (Hnone known) | exact Hs].
        - injection Hconf as ->. exact Hs. }
      assert (Hcall : exists c,
                 create_field v c = Returns (basic_attribute (grant_data x) name)
                 /\ match dict_get "confidence" items with
                    | Some c' => c' = c
                    | None => c = PStr "uncertain"
                    end).
      { destruct (dict_get "confidence" items) as [c|]; cbn [bind] in Hpresent; eauto. }
      destruct Hcall as (c & Hcall & Hconf).
      destruct (create_field_cases v c _ Hcall) as [[-> Hnone]|(level & Hsome)].
      * exact Hnone.
      * assert (Hv : v <> PNone).
        { intros ->. rewrite Hsome in Hcall. discriminate Hcall. }
        rewrite Hsome in Hcall.
        destruct v; try (now elim Hv);
          (exists level; split; [exact Hsome | exact (Hlevel c level Hcall Hconf)]).
    + destruct (dict_get "confidence" items); cbn [bind create_field] in Hpresent;
        now injection Hpresent as <-.
  - intros level. now destruct level.
Qed.

End Parsed.

End AgentFieldFacts.

(** ** The basic fields at the sample data *)

Module AgentFieldExamples.
Import Py DataModels Workflow Ref Agent AgentSamples AgentFieldFacts.

(** The [grant_id] of the budget response, given with the confidence
    [HIGH] in capitals, is read with confidence [HIGH]; its
    [grant_name] is absent and stays unset. *)
Lemma grant_id_of_response :
  basic_attribute (grant_data extraction_budget) "grant_id"
  = Some (field (PStr "NSF-1") HIGH)
  /\ basic_attribute (grant_data extraction_budget) "grant_name" = None.
Proof.
  assert (Hparse : parse_ai_response (Some response_budget) = Returns extraction_budget)
    by (vm_compute; reflexivity).
  split.
  - destruct (parse_ai_response_basic_fields _ extraction_budget "grant_id" Hparse)
      as (_ & Hentry & _); [now left|].
    destruct (Hentry _ eq_refl) as (items & Hitems & Hvalue).
    injection Hitems as <-. cbn [dict_get String.eqb Ascii.eqb Bool.eqb] in Hvalue.
    destruct Hvalue as (level & Hattr & s & Hs & Hknown & _).
    injection Hs as <-. rewrite Hattr. now rewrite (Hknown HIGH eq_refl).
  - destruct (parse_ai_response_basic_fields _ extraction_budget "grant_name" Hparse)
      as (Habsent & _); [right; now left|].
    apply Habsent. reflexivity.
Defined.

End AgentFieldExamples.
